(** * NetFlow v9 sender of nfreplay (src/nfreplay/send_v9.c)

    A shallow embedding of the template cache, the record serializer and the
    send-buffer / flowset bookkeeping, followed by the properties of the
    natural-language specification that were checked against it, and by
    further properties of the sender and of the JA4S fingerprint
    (src/libnfdump/ja4/ja4s.c). *)

From Stdlib Require Import ZArith List Bool Lia.
Import ListNotations.
Local Open Scope Z_scope.

(* ------------------------------------------------------------------ *)
(** ** Machine integers and bytes                                       *)
(* ------------------------------------------------------------------ *)

(** Unsigned C integers are values of [Z]; the wrap-around of a store into a
    w-bit object is written out with these. *)
Definition u8 (x : Z) : Z := x mod 2 ^ 8.
Definition u16 (x : Z) : Z := x mod 2 ^ 16.
Definition u32 (x : Z) : Z := x mod 2 ^ 32.
Definition u64 (x : Z) : Z := x mod 2 ^ 64.

(** The [n] low-order bytes of [v], most significant first: what [htons],
    [htonl] and [htonll] leave in memory. *)
Fixpoint be_bytes (n : nat) (v : Z) : list Z :=
  match n with
  | O => []
  | S k => (v / 2 ^ (8 * Z.of_nat k)) mod 256 :: be_bytes k v
  end.

(** The unsigned value of a big-endian byte string ([ntohs], [ntohl]). *)
Definition be_value (l : list Z) : Z := fold_left (fun acc b => acc * 256 + b) l 0.

(** The send buffer is addressed by the byte offset from [peer->send_buffer].
    The source writes through raw pointers without any bounds check, so the
    model does not bound the addresses either. *)
Definition memory : Type := Z -> Z.

Definition store8 (m : memory) (a v : Z) : memory :=
  fun x => if x =? a then u8 v else m x.

Fixpoint store_bytes (m : memory) (a : Z) (l : list Z) : memory :=
  match l with
  | [] => m
  | b :: rest => store_bytes (store8 m a b) (a + 1) rest
  end.

Definition read_bytes (m : memory) (a : Z) (n : nat) : list Z :=
  map (fun i => m (a + Z.of_nat i)) (seq 0 n).

(* ------------------------------------------------------------------ *)
(** ** Constants and types                                              *)
(* ------------------------------------------------------------------ *)

Definition NF9_TEMPLATE_FLOWSET_ID : Z := 0.
Definition NF9_MIN_RECORD_FLOWSET_ID : Z := 256.
Definition MAX_LIFETIME : Z := 60.
Definition numV9Elements : Z := 53.

(** [sizeof(v9Header_t)]: 2+2+4+4+4+4 bytes. *)
Definition sizeof_v9Header_t : Z := 20.
(** [sizeof(data_flowset_t)]: two 16-bit fields and [data[4]]. *)
Definition sizeof_data_flowset_t : Z := 8.
(** [offsetof(data_flowset_t, data)]. *)
Definition offsetof_data : Z := 4.

(** Byte offsets of the fields of [v9Header_t]; the header sits at the start
    of the send buffer ([v9_header = peer->send_buffer]). *)
Definition off_version : Z := 0.
Definition off_count : Z := 2.
Definition off_SysUptime : Z := 4.
Definition off_unix_secs : Z := 8.
Definition off_sequence : Z := 12.
Definition off_source_id : Z := 16.

(** Protocol numbers of <netinet/in.h>. *)
Definition IPPROTO_ICMP : Z := 1.
Definition IPPROTO_ICMPV6 : Z := 58.

(** The extension ids the two switch statements list (nfxV3.h is not part of
    the sources at hand, so the ids are an enumeration and not numbers).
    [EXotherID raw] is any id of a record that the switches do not list;
    neither switch has a default case. *)
Inductive ext_id : Type :=
| EXgenericFlowID | EXipv4FlowID | EXipv6FlowID | EXflowMiscID | EXcntFlowID
| EXvLanID | EXasRoutingID | EXbgpNextHopV4ID | EXbgpNextHopV6ID
| EXipNextHopV4ID | EXipNextHopV6ID | EXmplsLabelID | EXmacAddrID
| EXasAdjacentID
| EXotherID (raw : Z).

Definition ext_id_eq_dec (a b : ext_id) : {a = b} + {a <> b}.
Proof. decide equality. apply Z.eq_dec. Defined.

(** The NetFlow v9 field types the template builder names. *)
Inductive v9_field : Type :=
| NF9_ENGINE_TYPE | NF9_ENGINE_ID
| NF_F_FLOW_CREATE_TIME_MSEC | NF_F_FLOW_END_TIME_MSEC
| NF9_IN_PACKETS | NF9_IN_BYTES | NF9_L4_SRC_PORT | NF9_L4_DST_PORT | NF9_ICMP
| NF9_IN_PROTOCOL | NF9_TCP_FLAGS | NF9_FORWARDING_STATUS | NF9_SRC_TOS
| NF9_IPV4_SRC_ADDR | NF9_IPV4_DST_ADDR | NF9_SRC_MASK | NF9_DST_MASK
| NF9_IPV6_SRC_ADDR | NF9_IPV6_DST_ADDR | NF9_IPV6_SRC_MASK | NF9_IPV6_DST_MASK
| NF9_INPUT_SNMP | NF9_OUTPUT_SNMP | NF9_DIRECTION | NF9_DST_TOS
| NF9_FLOWS_AGGR | NF9_OUT_PKTS | NF9_OUT_BYTES
| NF9_SRC_VLAN | NF9_DST_VLAN | NF9_SRC_AS | NF9_DST_AS
| NF9_BGP_V4_NEXT_HOP | NF9_BPG_V6_NEXT_HOP | NF9_V4_NEXT_HOP | NF9_V6_NEXT_HOP
| NF9_MPLS_LABEL_1 | NF9_MPLS_LABEL_2 | NF9_MPLS_LABEL_3 | NF9_MPLS_LABEL_4
| NF9_MPLS_LABEL_5 | NF9_MPLS_LABEL_6 | NF9_MPLS_LABEL_7 | NF9_MPLS_LABEL_8
| NF9_MPLS_LABEL_9 | NF9_MPLS_LABEL_10
| NF9_IN_SRC_MAC | NF9_OUT_DST_MAC | NF9_IN_DST_MAC | NF9_OUT_SRC_MAC
| NF_F_BGP_ADJ_NEXT_AS | NF_F_BGP_ADJ_PREV_AS.

Definition v9_field_eq_dec (a b : v9_field) : {a = b} + {a <> b}.
Proof. decide equality. Defined.

(** A field type as the builder holds it: a named type, or the literal 0 of
    [srcMaskType], [dstMaskType] and of the padding slot. *)
Definition field_type : Type := option v9_field.

Definition field_type_eqb (a b : field_type) : bool :=
  match a, b with
  | Some x, Some y => if v9_field_eq_dec x y then true else false
  | None, None => true
  | _, _ => false
  end.

(** One entry of [template_flowset_t.field]. *)
Record field_t : Type := mkField { f_type : field_type; f_length : Z }.

Record template_flowset_t : Type := mkTemplateFlowset {
  tf_flowset_id : Z;
  tf_length : Z;
  tf_template_id : Z;
  tf_count : Z;
  tf_field : list field_t
}.

(** The fields of [master_record_t] that send_v9.c reads (nfdump.h is not
    part of the sources at hand).  [mr_exElementList] holds the first
    [numElements] entries of the C array, so [numElements] is its length. *)
Record master_record_t : Type := mkMasterRecord {
  mr_size : Z;
  mr_exElementList : list ext_id;
  engine_type : Z; engine_id : Z;
  msecFirst : Z; msecLast : Z; inPackets : Z; inBytes : Z;
  srcPort : Z; dstPort : Z; proto : Z; tcp_flags : Z; fwd_status : Z; tos : Z;
  V4_srcaddr : Z; V4_dstaddr : Z;
  V6_srcaddr : Z * Z; V6_dstaddr : Z * Z;
  input : Z; output : Z; src_mask : Z; dst_mask : Z; dir : Z; dst_tos : Z;
  aggr_flows : Z; out_pkts : Z; out_bytes : Z;
  src_vlan : Z; dst_vlan : Z;
  srcas : Z; dstas : Z;
  bgp_nexthop_V4 : Z; bgp_nexthop_V6 : Z * Z;
  ip_nexthop_V4 : Z; ip_nexthop_V6 : Z * Z;
  mpls_label : list Z;
  in_src_mac : Z; out_dst_mac : Z; in_dst_mac : Z; out_src_mac : Z;
  bgpNextAdjacentAS : Z; bgpPrevAdjacentAS : Z
}.

Definition numElements (r : master_record_t) : Z :=
  Z.of_nat (length (mr_exElementList r)).

Record outTemplate_t : Type := mkOutTemplate {
  size : Z;
  numExtensions : Z;
  exElementList : list ext_id;
  time_sent : Z;
  record_count : Z;
  record_length : Z;
  flowset_length : Z;
  template_id : Z;
  needs_refresh : Z;
  template_flowset : template_flowset_t
}.

(** [send_peer_t], as far as send_v9.c uses it.  [buff_ptr] and [endp] are
    byte offsets from [send_buffer]. *)
Record send_peer_t : Type := mkPeer {
  send_buffer : memory;
  buff_ptr : Z;
  endp : Z;
  flush : Z
}.

(** [sender_data_t]; [data_flowset] is the offset of the open data flowset,
    [None] for the NULL pointer. *)
Record sender_data_t : Type := mkSender {
  hdr_record_count : Z;
  hdr_template_count : Z;
  hdr_sequence : Z;
  data_flowset : option Z;
  data_flowset_id : Z
}.

(** The peer handed to every call together with the two file-scope objects
    [sender_data] and [outTemplates]. *)
Record world : Type := mkWorld {
  peer : send_peer_t;
  sender_data : sender_data_t;
  outTemplates : list outTemplate_t
}.

Definition set_buffer (m : memory) (p : send_peer_t) : send_peer_t :=
  mkPeer m (buff_ptr p) (endp p) (flush p).
Definition set_buff_ptr (a : Z) (p : send_peer_t) : send_peer_t :=
  mkPeer (send_buffer p) a (endp p) (flush p).
Definition set_flush (f : Z) (p : send_peer_t) : send_peer_t :=
  mkPeer (send_buffer p) (buff_ptr p) (endp p) f.

Definition set_peer (p : send_peer_t) (w : world) : world :=
  mkWorld p (sender_data w) (outTemplates w).
Definition set_sender (s : sender_data_t) (w : world) : world :=
  mkWorld (peer w) s (outTemplates w).
Definition set_templates (ts : list outTemplate_t) (w : world) : world :=
  mkWorld (peer w) (sender_data w) ts.

(** In-place update of the descriptor a [outTemplate_t *] points to: the
    pointer is the position of the descriptor in the list. *)
Fixpoint update_nth {A : Type} (n : nat) (f : A -> A) (l : list A) : list A :=
  match l, n with
  | [], _ => []
  | x :: rest, O => f x :: rest
  | x :: rest, S k => x :: update_nth k f rest
  end.

(* ------------------------------------------------------------------ *)
(** ** Writing into the send buffer                                     *)
(* ------------------------------------------------------------------ *)

(** Store [l] at the cursor and move the cursor behind it. *)
Definition emit (l : list Z) (p : send_peer_t) : send_peer_t :=
  mkPeer (store_bytes (send_buffer p) (buff_ptr p) l)
         (buff_ptr p + Z.of_nat (length l)) (endp p) (flush p).

(** Modelled from the spec: the [Put_valNN] macros live in inline.c, which is
    not part of the sources at hand.  Per the specification every value is
    written in network byte order at its declared width, as a plain
    truncation of the source field.  Each definition stands for the source's
    pair of statements [Put_valNN(htonX(v), peer->buff_ptr);
    peer->buff_ptr += NN/8;]. *)
Definition Put_val8 (v : Z) : send_peer_t -> send_peer_t := emit (be_bytes 1 v).
Definition Put_val16 (v : Z) : send_peer_t -> send_peer_t := emit (be_bytes 2 v).
Definition Put_val24 (v : Z) : send_peer_t -> send_peer_t := emit (be_bytes 3 v).
Definition Put_val32 (v : Z) : send_peer_t -> send_peer_t := emit (be_bytes 4 v).
Definition Put_val48 (v : Z) : send_peer_t -> send_peer_t := emit (be_bytes 6 v).
Definition Put_val64 (v : Z) : send_peer_t -> send_peer_t := emit (be_bytes 8 v).

(** Left-to-right sequencing of buffer writes. *)
Definition seq_puts (l : list (send_peer_t -> send_peer_t)) (p : send_peer_t) : send_peer_t :=
  fold_left (fun q f => f q) l p.

Definition is_icmp (r : master_record_t) : bool :=
  (proto r =? IPPROTO_ICMP) || (proto r =? IPPROTO_ICMPV6).

(** One iteration of the loop of [Append_Record]: the switch over the
    extension id. *)
Definition Append_extension (r : master_record_t) (e : ext_id) : send_peer_t -> send_peer_t :=
  match e with
  | EXgenericFlowID =>
      seq_puts
        ([ Put_val64 (msecFirst r); Put_val64 (msecLast r);
           Put_val64 (inPackets r); Put_val64 (inBytes r);
           Put_val16 (srcPort r) ]
         ++ (if is_icmp r
             then [ Put_val16 0; Put_val16 (dstPort r) ]
             else [ Put_val16 (dstPort r); Put_val16 0 ])
         ++ [ Put_val8 (proto r); Put_val8 (tcp_flags r);
              Put_val8 (fwd_status r); Put_val8 (tos r) ])
  | EXipv4FlowID =>
      seq_puts [ Put_val32 (V4_srcaddr r); Put_val32 (V4_dstaddr r) ]
  | EXipv6FlowID =>
      seq_puts [ Put_val64 (fst (V6_srcaddr r)); Put_val64 (snd (V6_srcaddr r));
                 Put_val64 (fst (V6_dstaddr r)); Put_val64 (snd (V6_dstaddr r)) ]
  | EXflowMiscID =>
      seq_puts [ Put_val32 (input r); Put_val32 (output r);
                 Put_val8 (src_mask r); Put_val8 (dst_mask r);
                 Put_val8 (dir r); Put_val8 (dst_tos r) ]
  | EXcntFlowID =>
      seq_puts [ Put_val64 (aggr_flows r); Put_val64 (out_pkts r); Put_val64 (out_bytes r) ]
  | EXvLanID =>
      seq_puts [ Put_val16 (src_vlan r); Put_val16 (dst_vlan r) ]
  | EXasRoutingID =>
      seq_puts [ Put_val32 (srcas r); Put_val32 (dstas r) ]
  | EXbgpNextHopV4ID =>
      seq_puts [ Put_val32 (bgp_nexthop_V4 r) ]
  | EXbgpNextHopV6ID =>
      seq_puts [ Put_val64 (fst (bgp_nexthop_V6 r)); Put_val64 (snd (bgp_nexthop_V6 r)) ]
  | EXipNextHopV4ID =>
      seq_puts [ Put_val32 (ip_nexthop_V4 r) ]
  | EXipNextHopV6ID =>
      seq_puts [ Put_val64 (fst (ip_nexthop_V6 r)); Put_val64 (snd (ip_nexthop_V6 r)) ]
  | EXmplsLabelID =>
      seq_puts (map (fun i => Put_val24 (nth i (mpls_label r) 0)) (seq 0 10))
  | EXmacAddrID =>
      seq_puts [ Put_val48 (in_src_mac r); Put_val48 (out_dst_mac r);
                 Put_val48 (in_dst_mac r); Put_val48 (out_src_mac r) ]
  | EXasAdjacentID =>
      seq_puts [ Put_val32 (bgpNextAdjacentAS r); Put_val32 (bgpPrevAdjacentAS r) ]
  | EXotherID _ => fun p => p
  end.

(** The buffer part of [Append_Record]: engine type and id, then the loop
    over [exElementList]. *)
Definition Append_Record_peer (r : master_record_t) (p : send_peer_t) : send_peer_t :=
  fold_left (fun q e => Append_extension r e q) (mr_exElementList r)
            (Put_val8 (engine_id r) (Put_val8 (engine_type r) p)).

Definition Append_Record (r : master_record_t) (w : world) : world :=
  let s := sender_data w in
  mkWorld (Append_Record_peer r (peer w))
          (mkSender (u32 (hdr_record_count s + 1)) (hdr_template_count s)
                    (hdr_sequence s) (data_flowset s) (data_flowset_id s))
          (outTemplates w).

(** The bytes one iteration of the loop of [Append_Record] leaves in the
    buffer, in the order of its statements. *)
Definition extension_bytes (r : master_record_t) (e : ext_id) : list Z :=
  match e with
  | EXgenericFlowID =>
      be_bytes 8 (msecFirst r) ++ be_bytes 8 (msecLast r)
      ++ be_bytes 8 (inPackets r) ++ be_bytes 8 (inBytes r)
      ++ be_bytes 2 (srcPort r)
      ++ (if is_icmp r
          then be_bytes 2 0 ++ be_bytes 2 (dstPort r)
          else be_bytes 2 (dstPort r) ++ be_bytes 2 0)
      ++ be_bytes 1 (proto r) ++ be_bytes 1 (tcp_flags r)
      ++ be_bytes 1 (fwd_status r) ++ be_bytes 1 (tos r)
  | EXipv4FlowID => be_bytes 4 (V4_srcaddr r) ++ be_bytes 4 (V4_dstaddr r)
  | EXipv6FlowID =>
      be_bytes 8 (fst (V6_srcaddr r)) ++ be_bytes 8 (snd (V6_srcaddr r))
      ++ be_bytes 8 (fst (V6_dstaddr r)) ++ be_bytes 8 (snd (V6_dstaddr r))
  | EXflowMiscID =>
      be_bytes 4 (input r) ++ be_bytes 4 (output r)
      ++ be_bytes 1 (src_mask r) ++ be_bytes 1 (dst_mask r)
      ++ be_bytes 1 (dir r) ++ be_bytes 1 (dst_tos r)
  | EXcntFlowID =>
      be_bytes 8 (aggr_flows r) ++ be_bytes 8 (out_pkts r) ++ be_bytes 8 (out_bytes r)
  | EXvLanID => be_bytes 2 (src_vlan r) ++ be_bytes 2 (dst_vlan r)
  | EXasRoutingID => be_bytes 4 (srcas r) ++ be_bytes 4 (dstas r)
  | EXbgpNextHopV4ID => be_bytes 4 (bgp_nexthop_V4 r)
  | EXbgpNextHopV6ID =>
      be_bytes 8 (fst (bgp_nexthop_V6 r)) ++ be_bytes 8 (snd (bgp_nexthop_V6 r))
  | EXipNextHopV4ID => be_bytes 4 (ip_nexthop_V4 r)
  | EXipNextHopV6ID =>
      be_bytes 8 (fst (ip_nexthop_V6 r)) ++ be_bytes 8 (snd (ip_nexthop_V6 r))
  | EXmplsLabelID =>
      flat_map (fun i => be_bytes 3 (nth i (mpls_label r) 0)) (seq 0 10)
  | EXmacAddrID =>
      be_bytes 6 (in_src_mac r) ++ be_bytes 6 (out_dst_mac r)
      ++ be_bytes 6 (in_dst_mac r) ++ be_bytes 6 (out_src_mac r)
  | EXasAdjacentID => be_bytes 4 (bgpNextAdjacentAS r) ++ be_bytes 4 (bgpPrevAdjacentAS r)
  | EXotherID _ => []
  end.

(** The bytes of one record on the wire. *)
Definition record_bytes (r : master_record_t) : list Z :=
  be_bytes 1 (engine_type r) ++ be_bytes 1 (engine_id r)
  ++ flat_map (extension_bytes r) (mr_exElementList r).

(* ------------------------------------------------------------------ *)
(** ** Template construction                                            *)
(* ------------------------------------------------------------------ *)

(** The locals of the loop of [GetOutputTemplate] that builds the field
    array. *)
Record build_t : Type := mkBuild {
  b_count : Z;
  b_record_length : Z;
  b_srcMaskType : field_type;
  b_dstMaskType : field_type;
  b_field : list field_t
}.

(** [flowset->field[count].type = htons(ty); flowset->field[count].length =
    htons(len); count++;] *)
Definition add_field (ty : field_type) (len : Z) (b : build_t) : build_t :=
  mkBuild (b_count b + 1) (b_record_length b) (b_srcMaskType b) (b_dstMaskType b)
          (b_field b ++ [mkField ty len]).

Definition add_fields (l : list (v9_field * Z)) (b : build_t) : build_t :=
  fold_left (fun q tl => add_field (Some (fst tl)) (snd tl) q) l b.

(** [record_length += n;] *)
Definition add_length (n : Z) (b : build_t) : build_t :=
  mkBuild (b_count b) (u32 (b_record_length b + n)) (b_srcMaskType b) (b_dstMaskType b)
          (b_field b).

Definition set_mask_types (s d : v9_field) (b : build_t) : build_t :=
  mkBuild (b_count b) (b_record_length b) (Some s) (Some d) (b_field b).

(** The switch over the extension id in the template loop. *)
Definition template_extension (e : ext_id) (b : build_t) : build_t :=
  match e with
  | EXgenericFlowID =>
      add_length 42
        (add_fields [ (NF_F_FLOW_CREATE_TIME_MSEC, 8); (NF_F_FLOW_END_TIME_MSEC, 8);
                      (NF9_IN_PACKETS, 8); (NF9_IN_BYTES, 8);
                      (NF9_L4_SRC_PORT, 2); (NF9_L4_DST_PORT, 2); (NF9_ICMP, 2);
                      (NF9_IN_PROTOCOL, 1); (NF9_TCP_FLAGS, 1);
                      (NF9_FORWARDING_STATUS, 1); (NF9_SRC_TOS, 1) ] b)
  | EXipv4FlowID =>
      set_mask_types NF9_SRC_MASK NF9_DST_MASK
        (add_length 8 (add_fields [ (NF9_IPV4_SRC_ADDR, 4); (NF9_IPV4_DST_ADDR, 4) ] b))
  | EXipv6FlowID =>
      set_mask_types NF9_IPV6_SRC_MASK NF9_IPV6_DST_MASK
        (add_length 32 (add_fields [ (NF9_IPV6_SRC_ADDR, 16); (NF9_IPV6_DST_ADDR, 16) ] b))
  | EXflowMiscID =>
      add_length 12
        (add_fields [ (NF9_DIRECTION, 1); (NF9_DST_TOS, 1) ]
           (add_field (b_dstMaskType b) 1
              (add_field (b_srcMaskType b) 1
                 (add_fields [ (NF9_INPUT_SNMP, 4); (NF9_OUTPUT_SNMP, 4) ] b))))
  | EXcntFlowID =>
      add_length 24
        (add_fields [ (NF9_FLOWS_AGGR, 8); (NF9_OUT_PKTS, 8); (NF9_OUT_BYTES, 8) ] b)
  | EXvLanID =>
      add_length 4 (add_fields [ (NF9_SRC_VLAN, 2); (NF9_DST_VLAN, 2) ] b)
  | EXasRoutingID =>
      add_length 8 (add_fields [ (NF9_SRC_AS, 4); (NF9_DST_AS, 4) ] b)
  | EXbgpNextHopV4ID =>
      add_length 4 (add_fields [ (NF9_BGP_V4_NEXT_HOP, 4) ] b)
  | EXbgpNextHopV6ID =>
      add_length 16 (add_fields [ (NF9_BPG_V6_NEXT_HOP, 16) ] b)
  | EXipNextHopV4ID =>
      add_length 4 (add_fields [ (NF9_V4_NEXT_HOP, 4) ] b)
  | EXipNextHopV6ID =>
      add_length 16 (add_fields [ (NF9_V6_NEXT_HOP, 16) ] b)
  | EXmplsLabelID =>
      add_length 30
        (add_fields [ (NF9_MPLS_LABEL_1, 3); (NF9_MPLS_LABEL_2, 3); (NF9_MPLS_LABEL_3, 3);
                      (NF9_MPLS_LABEL_4, 3); (NF9_MPLS_LABEL_5, 3); (NF9_MPLS_LABEL_6, 3);
                      (NF9_MPLS_LABEL_7, 3); (NF9_MPLS_LABEL_8, 3); (NF9_MPLS_LABEL_9, 3);
                      (NF9_MPLS_LABEL_10, 3) ] b)
  | EXmacAddrID =>
      add_length 24
        (add_fields [ (NF9_IN_SRC_MAC, 6); (NF9_OUT_DST_MAC, 6);
                      (NF9_IN_DST_MAC, 6); (NF9_OUT_SRC_MAC, 6) ] b)
  | EXasAdjacentID =>
      add_length 8 (add_fields [ (NF_F_BGP_ADJ_NEXT_AS, 4); (NF_F_BGP_ADJ_PREV_AS, 4) ] b)
  | EXotherID _ => b
  end.

(** How the second half of [GetOutputTemplate] can end: with the [return]
    of the descriptor, with [exit(255)] after [LogError], or with a store to
    [flowset->field[]] behind the block that [calloc] returned. *)
Inductive outcome (A : Type) : Type :=
| returns (a : A)
| exits
| out_of_bounds.

Arguments returns {A} a.
Arguments exits {A}.
Arguments out_of_bounds {A}.

(** [calloc(1, sizeof(template_flowset_t) + numV9Elements * 4)]: the entry
    [field[1]] that the struct declares and [numV9Elements] more of four
    bytes each, so the stores to [field[0]] .. [field[numV9Elements]] are
    inside the block. *)
Definition field_slots : Z := 1 + numV9Elements.

(** The loop over the extensions.  [exits] is taken when
    [count >= numV9Elements] at the head of an iteration.  The stores of one
    case of the switch go to [field[count]] for the values [count] has from
    the head of the iteration up to one below its value at the end, so one
    of them is behind the block exactly when that last value is above
    [field_slots]. *)
Fixpoint template_loop (l : list ext_id) (b : build_t) : outcome build_t :=
  match l with
  | [] => returns b
  | e :: rest =>
      if numV9Elements <=? b_count b then exits
      else
        let b' := template_extension e b in
        if field_slots <? b_count b' then out_of_bounds
        else template_loop rest b'
  end.

(** The locals before the loop: the two engine fields are in place. *)
Definition build_init : build_t :=
  add_length 2
    (add_fields [ (NF9_ENGINE_TYPE, 1); (NF9_ENGINE_ID, 1) ]
                (mkBuild 0 0 None None [])).

(** The record length in the words of the specification: the sum of the
    byte widths of the template's fields. *)
Definition spec_record_length (l : list field_t) : Z :=
  fold_right (fun f acc => f_length f + acc) 0 l.

(** Reading a record against a field list, as a collector does: the bytes
    are cut at the declared widths in field order; the result is the bytes
    at the position of the first field of type [ty]. *)
Fixpoint wire_field (ty : field_type) (l : list field_t) (bytes : list Z) : option (list Z) :=
  match l with
  | [] => None
  | f :: rest =>
      if field_type_eqb (f_type f) ty
      then Some (firstn (Z.to_nat (f_length f)) bytes)
      else wire_field ty rest (skipn (Z.to_nat (f_length f)) bytes)
  end.

(* ------------------------------------------------------------------ *)
(** ** The sender                                                       *)
(* ------------------------------------------------------------------ *)

Section Sender.

(** [UDP_PACKET_SIZE] (send_net.h) and the numbers of the field types
    (netflow_v9.h) are declared outside the sources at hand. *)
Variable UDP_PACKET_SIZE : Z.
Variable type_code : v9_field -> Z.

Definition htons_type (ty : field_type) : Z :=
  match ty with
  | Some f => type_code f
  | None => 0
  end.

(** The bytes [memcpy] takes from a template flowset: the four 16-bit header
    words and then the (type, length) pairs, all stored through [htons]. *)
Definition template_flowset_bytes (tf : template_flowset_t) : list Z :=
  be_bytes 2 (tf_flowset_id tf) ++ be_bytes 2 (tf_length tf)
  ++ be_bytes 2 (tf_template_id tf) ++ be_bytes 2 (tf_count tf)
  ++ flat_map (fun f => be_bytes 2 (htons_type (f_type f)) ++ be_bytes 2 (f_length f))
              (tf_field tf).

(** The search loop of [GetOutputTemplate].  [inl idx] is [return *t] at
    position [idx]; [inr template_id] is the fall-through with the id of the
    last descriptor visited (0 for an empty list).  The [memcmp] guards the
    debug print only: the [return] that follows it is not part of the inner
    [if]. *)
Fixpoint search_template (r : master_record_t) (ts : list outTemplate_t)
         (idx : nat) (tid : Z) : nat + Z :=
  match ts with
  | [] => inr tid
  | t :: rest =>
      if (size t =? mr_size r) && (numExtensions t =? numElements r) then
        if list_eq_dec ext_id_eq_dec (exElementList t) (mr_exElementList r)
        then (* dbg_printf *) inl idx
        else inl idx
      else search_template r rest (S idx) (template_id t)
  end.

(** The second half of [GetOutputTemplate], for [calloc]s that succeed: a
    new descriptor for [r], given the id the search loop ended with.  The
    padding entry behind the loop is stored at [field[count]], inside the
    block when [count < field_slots]. *)
Definition build_template (r : master_record_t) (tid : Z) : outcome outTemplate_t :=
  let id := if tid =? 0 then NF9_MIN_RECORD_FLOWSET_ID else u16 (u32 (tid + 1)) in
  match template_loop (mr_exElementList r) build_init with
  | exits => exits
  | out_of_bounds => out_of_bounds
  | returns b =>
      let count := b_count b in
      (* one potential padding field *)
      if field_slots <=? count then out_of_bounds
      else
        let fields := b_field b ++ [mkField None 0] in
        let fl := u32 (4 * (2 + count)) in
        let fl := if Z.land fl 3 =? 0 then fl else u32 (fl + (4 - Z.land fl 3)) in
        if UDP_PACKET_SIZE <? fl then exits
        else returns (mkOutTemplate (mr_size r) (numElements r) (mr_exElementList r)
                        0 0 (b_record_length b) fl id 0
                        (mkTemplateFlowset NF9_TEMPLATE_FLOWSET_ID (u16 fl) id (u16 count) fields))
  end.

(** The descriptor [build_template] returns; [None] when the call does not
    return one: [exit(255)], or a store behind the field array. *)
Definition new_template (r : master_record_t) (tid : Z) : option outTemplate_t :=
  match build_template r tid with
  | returns t => Some t
  | exits | out_of_bounds => None
  end.

(** [GetOutputTemplate]: the position of the descriptor returned and the
    list of descriptors after the call; [None] when the construction of a
    new descriptor does not return one. *)
Definition GetOutputTemplate (r : master_record_t) (ts : list outTemplate_t)
  : option (nat * list outTemplate_t) :=
  match search_template r ts 0%nat 0 with
  | inl idx => Some (idx, ts)
  | inr tid =>
      match new_template r tid with
      | None => None
      | Some t => Some (length ts, ts ++ [t])
      end
  end.

(** [Init_v9_output], for a [calloc] that succeeds. *)
Definition Init_v9_output (p : send_peer_t) : world :=
  let m := send_buffer p in
  let m := store_bytes m off_version (be_bytes 2 9) in
  let m := store_bytes m off_SysUptime (be_bytes 4 0) in
  let m := store_bytes m off_unix_secs (be_bytes 4 0) in
  let m := store_bytes m off_count (be_bytes 2 0) in
  let m := store_bytes m off_source_id (be_bytes 4 1) in
  mkWorld (mkPeer m sizeof_v9Header_t (endp p) (flush p))
          (mkSender 0 0 0 None 0)
          [].

(** The padding loop of [CloseDataFlowset]: [n] iterations of
    [*buff_ptr = 0; buff_ptr++]. *)
Fixpoint fill_padding (n : nat) (p : send_peer_t) : send_peer_t :=
  match n with
  | O => p
  | S k => fill_padding k (emit [0] p)
  end.

Definition CloseDataFlowset (w : world) : world :=
  match data_flowset (sender_data w) with
  | None => w
  | Some start =>
      let p := peer w in
      let s := sender_data w in
      let length := u32 (buff_ptr p - start) in
      let align := Z.land length 3 in
      let length' := if align =? 0 then length else u32 (length + (4 - align)) in
      let p := if align =? 0 then p else fill_padding (Z.to_nat align) p in
      let p := set_buffer (store_bytes (send_buffer p) (start + 2) (be_bytes 2 length')) p in
      mkWorld p
              (mkSender (hdr_record_count s) (hdr_template_count s) (hdr_sequence s) None 0)
              (outTemplates w)
  end.

(** The packet finalization shared by [Close_v9_output] and the failing
    branch of [CheckSendBufferSpace]. *)
Definition prepare_buffer (w : world) : world :=
  let s := sender_data w in
  let sequence := u32 (hdr_sequence s + 1) in
  let m := store_bytes (send_buffer (peer w)) off_sequence (be_bytes 4 sequence) in
  let m := store_bytes m off_count
             (be_bytes 2 (u32 (hdr_record_count s + hdr_template_count s))) in
  let w := mkWorld (set_flush 1 (set_buffer m (peer w)))
                   (mkSender (hdr_record_count s) (hdr_template_count s) sequence
                             (data_flowset s) (data_flowset_id s))
                   (outTemplates w) in
  let w := CloseDataFlowset w in
  let s := sender_data w in
  set_sender (mkSender 0 0 (hdr_sequence s) (data_flowset s) (data_flowset_id s)) w.

Definition Close_v9_output (w : world) : Z * world :=
  let s := sender_data w in
  if 0 <? u32 (hdr_record_count s + hdr_template_count s)
  then (1, prepare_buffer w)
  else (0, w).

Definition CheckSendBufferSpace (sz : Z) (w : world) : Z * world :=
  if endp (peer w) <? buff_ptr (peer w) + sz
  then (0, prepare_buffer w)
  else (1, w).

Definition Add_template_flowset (t : outTemplate_t) (w : world) : world :=
  let p := peer w in
  let s := sender_data w in
  let bytes := firstn (Z.to_nat (flowset_length t)) (template_flowset_bytes (template_flowset t)) in
  mkWorld (mkPeer (store_bytes (send_buffer p) (buff_ptr p) bytes)
                  (buff_ptr p + flowset_length t) (endp p) (flush p))
          (mkSender (hdr_record_count s) (u32 (hdr_template_count s + 1)) (hdr_sequence s)
                    (data_flowset s) (data_flowset_id s))
          (outTemplates w).

(** [if (!v9_header->unix_secs) ...]: the anchor is computed from the record
    when the header field still reads zero. *)
Definition first_time_setup (r : master_record_t) (p : send_peer_t) : send_peer_t :=
  if be_value (read_bytes (send_buffer p) off_unix_secs 4) =? 0 then
    let boot_time := u64 (msecFirst r - 86400 * 1000) in
    let unix_secs := u32 (boot_time / 1000) in
    set_buffer (store_bytes (send_buffer p) off_unix_secs (be_bytes 4 unix_secs)) p
  else p.

(** [if (peer->buff_ptr == peer->send_buffer) ...]: the buffer was flushed. *)
Definition skip_header (p : send_peer_t) : send_peer_t :=
  if buff_ptr p =? 0 then set_buff_ptr sizeof_v9Header_t p else p.

Definition set_time_sent (now : Z) (t : outTemplate_t) : outTemplate_t :=
  mkOutTemplate (size t) (numExtensions t) (exElementList t) now (record_count t)
                (record_length t) (flowset_length t) (template_id t) (needs_refresh t)
                (template_flowset t).

Definition count_record (t : outTemplate_t) : outTemplate_t :=
  mkOutTemplate (size t) (numExtensions t) (exElementList t) (time_sent t)
                (u64 (record_count t + 1))
                (record_length t) (flowset_length t) (template_id t) (needs_refresh t)
                (template_flowset t).

Definition set_needs_refresh (v : Z) (t : outTemplate_t) : outTemplate_t :=
  mkOutTemplate (size t) (numExtensions t) (exElementList t) (time_sent t) (record_count t)
                (record_length t) (flowset_length t) (template_id t) v
                (template_flowset t).

(** The condition of the refresh test at the end of [Add_v9_output_record]. *)
Definition refresh_due (now : Z) (t : outTemplate_t) : bool :=
  (Z.land (record_count t) 4095 =? 0) || (MAX_LIFETIME <? now - time_sent t).

Definition schedule_refresh (now : Z) (t : outTemplate_t) : outTemplate_t :=
  if refresh_due now t then set_needs_refresh 1 t else t.

(** The statements after the first capacity check: the template flowset,
    its time stamp and the header of a new data flowset. *)
Definition open_data_flowset (idx : nat) (template : outTemplate_t) (now : Z) (w : world) : world :=
  let w := Add_template_flowset template w in
  let w := set_templates (update_nth idx (set_time_sent now) (outTemplates w)) w in
  let p := peer w in
  let s := sender_data w in
  let start := buff_ptr p in
  let m := store_bytes (send_buffer p) start (be_bytes 2 (tf_template_id (template_flowset template))) in
  mkWorld (mkPeer m (start + offsetof_data) (endp p) (flush p))
          (mkSender (hdr_record_count s) (hdr_template_count s) (hdr_sequence s)
                    (Some start) (template_id template))
          (outTemplates w).

(** The tail of [Add_v9_output_record], from the second capacity check on. *)
Definition add_record (r : master_record_t) (idx : nat) (template : outTemplate_t)
           (now : Z) (w : world) : Z * world :=
  let (ok, w) := CheckSendBufferSpace (record_length template) w in
  if ok =? 0 then (1, w)
  else
    let w := Append_Record r w in
    let w := set_templates (update_nth idx count_record (outTemplates w)) w in
    let w := set_templates (update_nth idx (schedule_refresh now) (outTemplates w)) w in
    (0, w).

(** [Add_v9_output_record]; [now] is the value of [time(NULL)].  [None] is
    a call of [GetOutputTemplate] that does not return: [exit(255)], or a
    store behind the field array of the new descriptor. *)
Definition Add_v9_output_record (r : master_record_t) (now : Z) (w : world)
  : option (Z * world) :=
  if numElements r =? 0 then Some (0, w)
  else
    let w := set_peer (skip_header (first_time_setup r (peer w))) w in
    match GetOutputTemplate r (outTemplates w) with
    | None => None
    | Some (idx, ts) =>
        let w := set_templates ts w in
        match nth_error ts idx with
        | None => None
        | Some template =>
            if negb (data_flowset_id (sender_data w) =? template_id template)
               || negb (needs_refresh template =? 0)
            then
              let w := CloseDataFlowset w in
              let (ok, w) :=
                CheckSendBufferSpace
                  (record_length template + sizeof_data_flowset_t + flowset_length template) w in
              if ok =? 0 then Some (1, w)
              else Some (add_record r idx template now (open_data_flowset idx template now w))
            else Some (add_record r idx template now w)
        end
    end.

End Sender.

(** Modelled from the spec: the transport collaborator (the caller of
    send_v9.c, not part of the sources at hand).  When the flush flag is
    raised it transmits the buffer and resets the write cursor to the start
    of the buffer; the buffer bytes stay as they are. *)
Definition flush_buffer (w : world) : world :=
  set_peer (mkPeer (send_buffer (peer w)) 0 (endp (peer w)) 0) w.

(** The aligned length [CloseDataFlowset] stores for a flowset of [n]
    bytes. *)
Definition aligned_length (n : Z) : Z :=
  if n mod 4 =? 0 then n else u32 (n + (4 - n mod 4)).

(** The world [prepare_buffer] hands to [CloseDataFlowset]: flush flag
    raised, sequence number advanced, sequence and count stored in the
    packet header. *)
Definition header_stamped (w : world) : world :=
  let s := sender_data w in
  mkWorld (mkPeer (store_bytes
                     (store_bytes (send_buffer (peer w)) off_sequence
                                  (be_bytes 4 (u32 (hdr_sequence s + 1))))
                     off_count (be_bytes 2 (u32 (hdr_record_count s + hdr_template_count s))))
                  (buff_ptr (peer w)) (endp (peer w)) 1)
          (mkSender (hdr_record_count s) (hdr_template_count s) (u32 (hdr_sequence s + 1))
                    (data_flowset s) (data_flowset_id s))
          (outTemplates w).

(** The worlds a session passes through.  It starts with [Init_v9_output].
    While the flush flag is down the caller adds records or closes the
    packet; once a call has raised the flag, the caller flushes the buffer
    before it calls again. *)
Inductive Reachable (U : Z) (tc : v9_field -> Z) : world -> Prop :=
| reach_init (p : send_peer_t) : Reachable U tc (Init_v9_output p)
| reach_add (w : world) (r : master_record_t) (now ret : Z) (w' : world) :
    Reachable U tc w ->
    flush (peer w) = 0 ->
    Add_v9_output_record U tc r now w = Some (ret, w') ->
    Reachable U tc w'
| reach_close (w : world) :
    Reachable U tc w ->
    flush (peer w) = 0 ->
    Reachable U tc (snd (Close_v9_output w))
| reach_flush (w : world) :
    Reachable U tc w ->
    flush (peer w) <> 0 ->
    Reachable U tc (flush_buffer w).

(** The worlds a session passes through from the world [w0] on, by the
    calls of [Reachable]. *)
Inductive Later (U : Z) (tc : v9_field -> Z) (w0 : world) : world -> Prop :=
| later_now : Later U tc w0 w0
| later_add (w : world) (r : master_record_t) (now ret : Z) (w' : world) :
    Later U tc w0 w ->
    flush (peer w) = 0 ->
    Add_v9_output_record U tc r now w = Some (ret, w') ->
    Later U tc w0 w'
| later_close (w : world) :
    Later U tc w0 w ->
    flush (peer w) = 0 ->
    Later U tc w0 (snd (Close_v9_output w))
| later_flush (w : world) :
    Later U tc w0 w ->
    flush (peer w) <> 0 ->
    Later U tc w0 (flush_buffer w).

(** A sequence of template lookups, each on the list the previous one
    left. *)
Fixpoint lookups (U : Z) (rs : list master_record_t) (ts : list outTemplate_t)
  : option (list outTemplate_t) :=
  match rs with
  | [] => Some ts
  | r :: rest =>
      match GetOutputTemplate U r ts with
      | Some (_, ts') => lookups U rest ts'
      | None => None
      end
  end.

(** The test that decides whether a template flowset and a new data flowset
    are written before the record. *)
Definition starts_flowset (t : outTemplate_t) (w : world) : bool :=
  negb (data_flowset_id (sender_data w) =? template_id t) || negb (needs_refresh t =? 0).

(** The world in which the descriptor is looked up and the world after the
    lookup. *)
Definition entered (r : master_record_t) (w : world) : world :=
  set_peer (skip_header (first_time_setup r (peer w))) w.

(** Well-formed lengths of a descriptor. *)
Definition wf_template (t : outTemplate_t) : Prop :=
  0 <= record_length t /\ 0 <= flowset_length t /\ flowset_length t mod 4 = 0
  /\ tf_length (template_flowset t) = flowset_length t.

(** The cursor is at the start of the buffer or behind the packet header;
    an open data flowset starts behind the header and the cursor is behind
    the header of the flowset; both sit at even offsets. *)
Definition pointers_ok (w : world) : Prop :=
  (buff_ptr (peer w) = 0 \/ sizeof_v9Header_t <= buff_ptr (peer w))
  /\ buff_ptr (peer w) mod 2 = 0
  /\ (forall start, data_flowset (sender_data w) = Some start ->
        sizeof_v9Header_t <= start /\ start mod 2 = 0
        /\ start + offsetof_data <= buff_ptr (peer w))
  /\ Forall wf_template (outTemplates w).

(** A raised flush flag comes with a closed data flowset. *)
Definition flush_closed (w : world) : Prop :=
  flush (peer w) <> 0 -> data_flowset (sender_data w) = None.

(** The ids of the first 65280 descriptors count up from 256 in the order
    of the list. *)
Definition ids_ok (ts : list outTemplate_t) : Prop :=
  forall (i : nat) (t : outTemplate_t),
    nth_error ts i = Some t -> Z.of_nat i < 65280 -> template_id t = 256 + Z.of_nat i.

(** What a test of the sender can see of the outcome of a call: the return
    value, the two per-packet counters, and of every descriptor the id, the
    record counter, the time stamp and the refresh flag. *)
Definition observe (ow : option (Z * world)) : option (Z * Z * Z * list (Z * Z * Z * Z)) :=
  match ow with
  | Some (ret, w) =>
      Some (ret, hdr_record_count (sender_data w), hdr_template_count (sender_data w),
            map (fun t => (template_id t, record_count t, time_sent t, needs_refresh t))
                (outTemplates w))
  | None => None
  end.

(** The unix-seconds field of the packet header. *)
Definition unix_secs (w : world) : list Z :=
  read_bytes (send_buffer (peer w)) off_unix_secs 4.

(** The anchor [first_time_setup] computes from a record. *)
Definition anchor_of (r : master_record_t) : Z :=
  u32 (u64 (msecFirst r - 86400 * 1000) / 1000).

(** The three field types of the generic-flow group that carry ports or the
    ICMP type and code. *)
Definition is_port_type (ty : field_type) : Prop :=
  ty = Some NF9_L4_SRC_PORT \/ ty = Some NF9_L4_DST_PORT \/ ty = Some NF9_ICMP.

(** The values [srcMaskType] and [dstMaskType] take in the template loop. *)
Definition masks_ok (b : build_t) : Prop :=
  (b_srcMaskType b = None \/ b_srcMaskType b = Some NF9_SRC_MASK
   \/ b_srcMaskType b = Some NF9_IPV6_SRC_MASK)
  /\ (b_dstMaskType b = None \/ b_dstMaskType b = Some NF9_DST_MASK
      \/ b_dstMaskType b = Some NF9_IPV6_DST_MASK).

(** The bytes in the buffer between the cursor before [Append_Record] and
    the cursor after it. *)
Definition written_record (r : master_record_t) (w : world) : list Z :=
  read_bytes (send_buffer (peer (Append_Record r w))) (buff_ptr (peer w))
             (Z.to_nat (buff_ptr (peer (Append_Record r w)) - buff_ptr (peer w))).

(** Modelled from the spec: the caller's handling of one record (the loop of
    nfreplay around [Add_v9_output_record] is not part of the sources at
    hand).  When the call asks for a flush, the caller flushes the buffer
    and calls again with the same record. *)
Definition send_record (U : Z) (tc : v9_field -> Z) (r : master_record_t) (now : Z) (w : world)
  : option world :=
  match Add_v9_output_record U tc r now w with
  | Some (ret, w') =>
      if ret =? 0 then Some w'
      else match Add_v9_output_record U tc r now (flush_buffer w') with
           | Some (ret', w'') => if ret' =? 0 then Some w'' else None
           | None => None
           end
  | None => None
  end.

(** The same record sent once for every time of [nows]. *)
Fixpoint send_records (U : Z) (tc : v9_field -> Z) (r : master_record_t) (nows : list Z)
         (w : world) : option world :=
  match nows with
  | [] => Some w
  | now :: rest =>
      match send_record U tc r now w with
      | Some w' => send_records U tc r rest w'
      | None => None
      end
  end.

(** The descriptor [t] with another time stamp, record counter and refresh
    flag. *)
Definition aged (t : outTemplate_t) (sent count refresh : Z) : outTemplate_t :=
  mkOutTemplate (size t) (numExtensions t) (exElementList t) sent count
                (record_length t) (flowset_length t) (template_id t) refresh
                (template_flowset t).

(** The last bytes before the cursor are the template flowset of [t], the
    head of a data flowset with the id of [t], still open, and the bytes of
    the record [r]. *)
Definition template_before_record (tc : v9_field -> Z) (t : outTemplate_t)
           (r : master_record_t) (w : world) : Prop :=
  let n := Z.of_nat (length (record_bytes r)) in
  let start := buff_ptr (peer w) - n - offsetof_data in
  data_flowset (sender_data w) = Some start
  /\ read_bytes (send_buffer (peer w)) (start - flowset_length t) (Z.to_nat (flowset_length t))
     = firstn (Z.to_nat (flowset_length t)) (template_flowset_bytes tc (template_flowset t))
  /\ read_bytes (send_buffer (peer w)) start 2 = be_bytes 2 (template_id t)
  /\ read_bytes (send_buffer (peer w)) (start + offsetof_data) (length (record_bytes r))
     = record_bytes r.

(** The refresh flag of a template that has carried [k] records sent inside
    one life time: down before the 4096th record, up from it on. *)
Definition flag_after (k : Z) : Z := if k <? 4096 then 0 else 1.

(** A descriptor whose stored flowset covers its flowset length and carries
    its id. *)
Definition flowset_ok (tc : v9_field -> Z) (t : outTemplate_t) : Prop :=
  0 <= flowset_length t
  /\ flowset_length t <= Z.of_nat (length (template_flowset_bytes tc (template_flowset t)))
  /\ tf_template_id (template_flowset t) = template_id t.

(* ------------------------------------------------------------------ *)
(** ** Definitions for the further properties                        *)
(* ------------------------------------------------------------------ *)

(** The number of fields one iteration of the template loop adds for an
    extension id, and the number a list of extension ids adds. *)
Definition fields_added (e : ext_id) : Z :=
  b_count (template_extension e (mkBuild 0 0 None None [])).

Definition fields_declared (l : list ext_id) : Z :=
  fold_right (fun e acc => fields_added e + acc) 0 l.

(** The extension ids the two switch statements list. *)
Definition listed_ids : list ext_id :=
  [ EXgenericFlowID; EXipv4FlowID; EXipv6FlowID; EXflowMiscID; EXcntFlowID;
    EXvLanID; EXasRoutingID; EXbgpNextHopV4ID; EXbgpNextHopV6ID;
    EXipNextHopV4ID; EXipNextHopV6ID; EXmplsLabelID; EXmacAddrID; EXasAdjacentID ].

(** A value in the send buffer: the width in bytes and the value. *)
Definition stored (n : nat) (v : Z) : nat * Z := (n, v).

(** A 128-bit address as the serializer stores it: two 64-bit words, the
    word of index 0 in front. *)
Definition v128 (a : Z * Z) : Z := u64 (fst a) * 2 ^ 64 + u64 (snd a).

(** The values one iteration of the loop of [Append_Record] stores, in the
    order of its statements: per field of the template the width in bytes
    and the value given to [Put_valNN]; the two stores of a 128-bit address
    are one value. *)
Definition extension_values (r : master_record_t) (e : ext_id) : list (nat * Z) :=
  match e with
  | EXgenericFlowID =>
      [ stored 8 (msecFirst r); stored 8 (msecLast r); stored 8 (inPackets r); stored 8 (inBytes r);
        stored 2 (srcPort r) ]
      ++ (if is_icmp r then [ stored 2 0; stored 2 (dstPort r) ] else [ stored 2 (dstPort r); stored 2 0 ])
      ++ [ stored 1 (proto r); stored 1 (tcp_flags r); stored 1 (fwd_status r); stored 1 (tos r) ]
  | EXipv4FlowID => [ stored 4 (V4_srcaddr r); stored 4 (V4_dstaddr r) ]
  | EXipv6FlowID =>
      [ stored 16 (v128 (V6_srcaddr r)); stored 16 (v128 (V6_dstaddr r)) ]
  | EXflowMiscID =>
      [ stored 4 (input r); stored 4 (output r); stored 1 (src_mask r); stored 1 (dst_mask r);
        stored 1 (dir r); stored 1 (dst_tos r) ]
  | EXcntFlowID => [ stored 8 (aggr_flows r); stored 8 (out_pkts r); stored 8 (out_bytes r) ]
  | EXvLanID => [ stored 2 (src_vlan r); stored 2 (dst_vlan r) ]
  | EXasRoutingID => [ stored 4 (srcas r); stored 4 (dstas r) ]
  | EXbgpNextHopV4ID => [ stored 4 (bgp_nexthop_V4 r) ]
  | EXbgpNextHopV6ID => [ stored 16 (v128 (bgp_nexthop_V6 r)) ]
  | EXipNextHopV4ID => [ stored 4 (ip_nexthop_V4 r) ]
  | EXipNextHopV6ID => [ stored 16 (v128 (ip_nexthop_V6 r)) ]
  | EXmplsLabelID => map (fun i => stored 3 (nth i (mpls_label r) 0)) (seq 0 10)
  | EXmacAddrID =>
      [ stored 6 (in_src_mac r); stored 6 (out_dst_mac r); stored 6 (in_dst_mac r); stored 6 (out_src_mac r) ]
  | EXasAdjacentID => [ stored 4 (bgpNextAdjacentAS r); stored 4 (bgpPrevAdjacentAS r) ]
  | EXotherID _ => []
  end.

(** The values [Append_Record] stores for a record. *)
Definition record_values (r : master_record_t) : list (nat * Z) :=
  stored 1 (engine_type r) :: stored 1 (engine_id r)
  :: flat_map (extension_values r) (mr_exElementList r).

(** Reading a whole record against a field list, as a collector does: the
    bytes are cut at the declared widths in field order and every piece is
    read as an unsigned number in network byte order. *)
Fixpoint decode_record (fields : list field_t) (bytes : list Z) : list Z :=
  match fields with
  | [] => []
  | f :: rest =>
      be_value (firstn (Z.to_nat (f_length f)) bytes)
      :: decode_record rest (skipn (Z.to_nat (f_length f)) bytes)
  end.

(** The fields a template flowset declares: the first [count] entries of
    its field array. *)
Definition declared_fields (tf : template_flowset_t) : list field_t :=
  firstn (Z.to_nat (tf_count tf)) (tf_field tf).

(** The bytes of a value in the buffer, its width, and the number a
    collector reads from these bytes. *)
Definition value_bytes (nv : nat * Z) : list Z := be_bytes (fst nv) (snd nv).
Definition value_width (nv : nat * Z) : Z := Z.of_nat (fst nv).
Definition value_read (nv : nat * Z) : Z := snd nv mod 2 ^ (8 * Z.of_nat (fst nv)).

(** The success branch of [add_record]: the record is appended, the
    descriptor at [idx] counts it and the refresh test is made. *)
Definition appended (r : master_record_t) (idx : nat) (now : Z) (w : world) : world :=
  set_templates
    (update_nth idx (schedule_refresh now) (update_nth idx count_record (outTemplates w)))
    (Append_Record r w).

(** An open data flowset lies directly behind the template flowset of a
    descriptor of the list, carries the id of that descriptor in its first
    two bytes, and that id is the id of the open flowset. *)
Definition flowset_described (tc : v9_field -> Z) (w : world) : Prop :=
  forall start : Z,
    data_flowset (sender_data w) = Some start ->
    exists (i : nat) (t : outTemplate_t),
      nth_error (outTemplates w) i = Some t
      /\ data_flowset_id (sender_data w) = template_id t
      /\ sizeof_v9Header_t <= start - flowset_length t
      /\ read_bytes (send_buffer (peer w)) (start - flowset_length t)
                    (Z.to_nat (flowset_length t))
         = firstn (Z.to_nat (flowset_length t))
                  (template_flowset_bytes tc (template_flowset t))
      /\ read_bytes (send_buffer (peer w)) start 2 = be_bytes 2 (template_id t).

(** Two descriptors with the same id, flowset length and template flowset:
    what the buffer shows of a descriptor. *)
Definition same_wire (t t' : outTemplate_t) : Prop :=
  template_id t' = template_id t
  /\ flowset_length t' = flowset_length t
  /\ record_length t' = record_length t
  /\ template_flowset t' = template_flowset t.

(** The worlds of a session all of whose records satisfy [ok]: [Reachable]
    with a condition on the records added. *)
Inductive Session (U : Z) (tc : v9_field -> Z) (ok : master_record_t -> Prop) : world -> Prop :=
| session_init (p : send_peer_t) : Session U tc ok (Init_v9_output p)
| session_add (w : world) (r : master_record_t) (now ret : Z) (w' : world) :
    Session U tc ok w ->
    ok r ->
    flush (peer w) = 0 ->
    Add_v9_output_record U tc r now w = Some (ret, w') ->
    Session U tc ok w'
| session_close (w : world) :
    Session U tc ok w ->
    flush (peer w) = 0 ->
    Session U tc ok (snd (Close_v9_output w))
| session_flush (w : world) :
    Session U tc ok w ->
    flush (peer w) <> 0 ->
    Session U tc ok (flush_buffer w).

(** Records that agree on the two values the search loop compares, the
    declared size and the number of extensions, carry the same extension
    list. *)
Definition size_keyed (ok : master_record_t -> Prop) : Prop :=
  forall r1 r2 : master_record_t,
    ok r1 -> ok r2 ->
    mr_size r1 = mr_size r2 -> numElements r1 = numElements r2 ->
    mr_exElementList r1 = mr_exElementList r2.

(** Every descriptor was built for a record of the session. *)
Definition built_for (ok : master_record_t -> Prop) (t : outTemplate_t) : Prop :=
  exists r0 : master_record_t,
    ok r0 /\ size t = mr_size r0 /\ numExtensions t = numElements r0
    /\ record_length t = Z.of_nat (length (record_bytes r0)).

(** The cursor is inside the buffer, or at most two bytes behind its end
    with no data flowset open. *)
Definition cursor_bounded (w : world) : Prop :=
  buff_ptr (peer w) <= endp (peer w)
  \/ (buff_ptr (peer w) <= endp (peer w) + 2 /\ data_flowset (sender_data w) = None).

(** The bytes [l] lie in the buffer at offset [a]. *)
Definition bytes_at (m : memory) (a : Z) (l : list Z) : Prop :=
  read_bytes m a (length l) = l.

(* ------------------------------------------------------------------ *)
(** ** The JA4S fingerprint (src/libnfdump/ja4/ja4s.c)                  *)
(* ------------------------------------------------------------------ *)

(** Characters are values of [Z]; a [char] array is a list, read as a C
    string up to its first NUL. *)
Fixpoint strlen (s : list Z) : nat :=
  match s with
  | [] => O
  | c :: rest => if c =? 0 then O else S (strlen rest)
  end.

(** [s[i]]. *)
Definition char_at (s : list Z) (i : nat) : Z := nth i s 0.

(** [isascii] and [isxdigit] of <ctype.h> in the C locale; a character
    outside 0..127 is neither. *)
Definition isascii (c : Z) : bool := (0 <=? c) && (c <=? 127).

Definition isxdigit (c : Z) : bool :=
  ((48 <=? c) && (c <=? 57)) || ((65 <=? c) && (c <=? 70)) || ((97 <=? c) && (c <=? 102)).

(** [hexChars[n]]: the characters '0'..'9', 'a'..'f'. *)
Definition hexChars (n : Z) : Z :=
  nth (Z.to_nat n) [48; 49; 50; 51; 52; 53; 54; 55; 56; 57; 97; 98; 99; 100; 101; 102] 0.

(** The four characters written for a 16-bit value: [hexChars[v >> 12]],
    [hexChars[(v >> 8) & 0xF]], [hexChars[(v >> 4) & 0xF]],
    [hexChars[v & 0xF]]. *)
Definition hex4 (v : Z) : list Z :=
  [ hexChars (Z.shiftr v 12); hexChars (Z.land (Z.shiftr v 8) 15);
    hexChars (Z.land (Z.shiftr v 4) 15); hexChars (Z.land v 15) ].

Definition IPPROTO_TCP : Z := 6.

(** [ssl_t] as far as ja4s.c reads it (ssl/ssl.h is not part of the sources
    at hand).  The two arrays hold 16-bit values; [LenArray] is the length
    of the list and [ArrayElement] its element. *)
Record ssl_t : Type := mkSsl {
  ssl_type : Z;
  tlsCharVersion : Z * Z;
  cipherSuites : list Z;
  extensions : list Z;
  alpnName : list Z
}.

Inductive ja4_type : Type := TYPE_UNDEF | TYPE_JA4S.

(** [ja4_t]: the type tag and the characters of [string], the terminating
    NUL included. *)
Record ja4_t : Type := mkJa4 { ja4_kind : ja4_type; ja4_string : list Z }.

(** A block of [malloc]: its size and its bytes.  A store outside the block
    has no defined result. *)
Record block : Type := mkBlock { blk_size : Z; blk_bytes : Z -> Z }.

Definition blk_store (b : block) (i v : Z) : option block :=
  if (0 <=? i) && (i <? blk_size b)
  then Some (mkBlock (blk_size b) (fun x => if x =? i then u8 v else blk_bytes b x))
  else None.

(** [hashString[index++] = c] for each character of [l]; [index] is a
    [uint32_t]. *)
Fixpoint blk_append (l : list Z) (index : Z) (b : block) : option (Z * block) :=
  match l with
  | [] => Some (index, b)
  | c :: rest =>
      match blk_store b index c with
      | Some b' => blk_append rest (u32 (index + 1)) b'
      | None => None
      end
  end.

(** The loop over the extensions: four hex characters and a comma each;
    [val] is a [uint16_t]. *)
Fixpoint hash_loop (exts : list Z) (index : Z) (b : block) : option (Z * block) :=
  match exts with
  | [] => Some (index, b)
  | val :: rest =>
      match blk_append (hex4 (u16 val) ++ [44]) index b with
      | Some (index', b') => hash_loop rest index' b'
      | None => None
      end
  end.

(** The characters of the block from [i] up to the first NUL, as [strlen]
    and [sha256] read them; [None] when the block ends before a NUL. *)
Fixpoint blk_string (fuel : nat) (b : block) (i : Z) : option (list Z) :=
  match fuel with
  | O => None
  | S k =>
      if (0 <=? i) && (i <? blk_size b) then
        if blk_bytes b i =? 0 then Some []
        else match blk_string k b (i + 1) with
             | Some l => Some (blk_bytes b i :: l)
             | None => None
             end
      else None
  end.

(** The string handed to [sha256]: the block of [LenArray(extensions) * 6 +
    1] bytes with uninitialised content [junk], the store of '0' at index
    0, the loop, and the store of NUL at [index - 1].  [None] is a store or
    a read outside the block. *)
Definition hash_string (junk : Z -> Z) (exts : list Z) : option (list Z) :=
  let maxStrLen := u64 (Z.of_nat (length exts) * 6 + 1) in
  match blk_store (mkBlock maxStrLen junk) 0 48 with
  | None => None
  | Some b =>
      match hash_loop exts 0 b with
      | None => None
      | Some (index, b) =>
          match blk_store b (u32 (index - 1)) 0 with
          | None => None
          | Some b => blk_string (Z.to_nat maxStrLen + 1) b 0
          end
      end
  end.

(** The outcomes of [ja4sProcess]: the NULL pointer, a fingerprint, or an
    access outside a block. *)
Inductive ja4_result : Type :=
| ja4_NULL
| ja4_value (j : ja4_t)
| ja4_out_of_bounds.

Section Ja4s.

(** [SERVERssl] (ssl/ssl.h) and [SIZEja4sString] (ja4.h) are declared
    outside the sources at hand, and so are [sha256] and [HexString]:
    [digest_hex s] stands for the characters [HexString] leaves in
    [sha256String] for the first six bytes of the SHA-256 digest of [s]. *)
Variable SERVERssl : Z.
Variable SIZEja4sString : Z.
Variable digest_hex : list Z -> list Z.

(** The characters [buff[0]] to [buff[12]]: ja4s_a, '_', ja4s_b, '_'. *)
Definition ja4s_ab (ssl : ssl_t) (proto : Z) : list Z :=
  let num := u32 (Z.of_nat (length (extensions ssl))) in
  let ones := num mod 10 in
  let tens := num / 10 in
  let cipher :=
    if u32 (Z.of_nat (length (cipherSuites ssl))) =? 1
    then u16 (nth 0 (cipherSuites ssl) 0) else 0 in
  [ (if proto =? IPPROTO_TCP then 116 else 113);
    fst (tlsCharVersion ssl); snd (tlsCharVersion ssl);
    u8 (tens + 48); u8 (ones + 48) ]
  ++ (if negb (char_at (alpnName ssl) 0 =? 0)
      then [ char_at (alpnName ssl) 0; char_at (alpnName ssl) (strlen (alpnName ssl) - 1) ]
      else [ 48; 48 ])
  ++ [ 95 ] ++ hex4 cipher ++ [ 95 ].

Definition ja4sProcess (junk : Z -> Z) (ssl : option ssl_t) (proto : Z) : ja4_result :=
  match ssl with
  | None => ja4_NULL
  | Some s =>
      if negb (ssl_type s =? SERVERssl) then ja4_NULL
      else if 99 <? u32 (Z.of_nat (length (extensions s))) then ja4_NULL
      else
        match hash_string junk (extensions s) with
        | None => ja4_out_of_bounds
        | Some hashString =>
            ja4_value
              (mkJa4 TYPE_JA4S
                 (ja4s_ab s proto
                  ++ map (fun i => char_at (digest_hex hashString) i) (seq 0 12)
                  ++ [0]))
        end
  end.

(** [ja4sCheck]; [None] is the NULL pointer. *)
Definition ja4sCheck (ja4sString : option (list Z)) : Z :=
  match ja4sString with
  | None => 0
  | Some s =>
      if negb (Z.of_nat (strlen s) =? SIZEja4sString) then 0
      else if negb (char_at s 0 =? 116) && negb (char_at s 0 =? 113) then 0
      else if negb (char_at s 7 =? 95) || negb (char_at s 12 =? 95) then 0
      else if negb (forallb (fun i => isascii (char_at s i)) (seq 1 6)) then 0
      else if negb (forallb (fun i => isxdigit (char_at s i)) (seq 8 4)) then 0
      else if negb (forallb (fun i => isxdigit (char_at s i))
                            (seq 13 (Z.to_nat SIZEja4sString - 13))) then 0
      else 1
  end.

End Ja4s.

(** Reading hex digits back: the value of one digit and of a string of
    digits. *)
Definition hex_value (c : Z) : Z := if c <=? 57 then c - 48 else c - 87.

Definition hex_decode (l : list Z) : Z := fold_left (fun acc c => acc * 16 + hex_value c) l 0.

(** The string [hash_string] is meant to build: the extensions in hex,
    separated by commas. *)
Definition extension_list_string (exts : list Z) : list Z :=
  removelast (flat_map (fun v => hex4 (u16 v) ++ [44]) exts).

(** The first bytes of a block are the characters of [L]. *)
Definition blk_prefix (b : block) (L : list Z) : Prop :=
  forall k : nat, (k < length L)%nat -> blk_bytes b (Z.of_nat k) = nth k L 0.

(* ------------------------------------------------------------------ *)
(** ** Sample inputs                                                    *)
(* ------------------------------------------------------------------ *)

(** A record with the given declared size, extension list, protocol, ports
    and start time; the remaining fields carry fixed values. *)
Definition sample_record (sz : Z) (exts : list ext_id) (pr sp dp first : Z) : master_record_t :=
  mkMasterRecord sz exts 1 2 first (first + 5000) 10 2000
    sp dp pr 3 0 4
    11 12 (13, 14) (15, 16) 1 2 24 16 0 0 1 2 3 100 200 65000 65001 5 (6, 7) 8 (9, 10)
    [1; 2; 3; 4; 5; 6; 7; 8; 9; 10] 1 2 3 4 70 71.

(** A TCP record and an ICMP record with the generic and IPv4 extensions. *)
Definition tcp_record : master_record_t :=
  sample_record 100 [EXgenericFlowID; EXipv4FlowID] 6 4660 443 1000000000000.
Definition icmp_record : master_record_t :=
  sample_record 100 [EXgenericFlowID; EXipv4FlowID] 1 4660 2048 1000000000000.
(** The extensions of [tcp_record] in the other order. *)
Definition swapped_record : master_record_t :=
  sample_record 100 [EXipv4FlowID; EXgenericFlowID] 6 4660 443 1000000000000.
(** A record with the generic and MPLS extensions: 74 bytes on the wire. *)
Definition mpls_record : master_record_t :=
  sample_record 120 [EXgenericFlowID; EXmplsLabelID] 6 4660 443 1000000000000.
(** A later flow. *)
Definition late_record : master_record_t :=
  sample_record 100 [EXgenericFlowID; EXipv4FlowID] 6 4660 443 2000000000000.

(** One assignment of numbers to the field types, and a peer whose buffer of
    1472 bytes holds the byte 170 everywhere. *)
Definition sample_codes (f : v9_field) : Z :=
  match f with
  | NF9_ENGINE_TYPE => 38 | NF9_ENGINE_ID => 39
  | NF9_L4_SRC_PORT => 7 | NF9_L4_DST_PORT => 11 | NF9_ICMP => 32
  | _ => 1
  end.
Definition sample_peer : send_peer_t := mkPeer (fun _ => 170) 0 1472 0.
Definition sample_world : world := Init_v9_output sample_peer.

(** The descriptor as [calloc] leaves it. *)
Definition null_template : outTemplate_t :=
  mkOutTemplate 0 0 [] 0 0 0 0 0 0 (mkTemplateFlowset 0 0 0 0 []).

(** The descriptor built for [tcp_record] in an empty list. *)
Definition tcp_template : outTemplate_t :=
  match new_template 1472 tcp_record 0 with
  | Some t => t
  | None => null_template
  end.

(** The world after one TCP record was added at time 100. *)
Definition one_record_world : world :=
  match Add_v9_output_record 1472 sample_codes tcp_record 100 sample_world with
  | Some (_, w) => w
  | None => sample_world
  end.

(** The world after one MPLS record was added at time 100. *)
Definition mpls_world : world :=
  match Add_v9_output_record 1472 sample_codes mpls_record 100 sample_world with
  | Some (_, w) => w
  | None => sample_world
  end.

(** The world after the packet of [one_record_world] was closed and flushed
    and a later flow was added at time 200. *)
Definition second_packet_world : world :=
  match Add_v9_output_record 1472 sample_codes late_record 200
          (flush_buffer (snd (Close_v9_output one_record_world))) with
  | Some (_, w) => w
  | None => sample_world
  end.

(** A session on a buffer of 200 bytes: the worlds after one, two and three
    calls with [tcp_record]. *)
Definition small_peer : send_peer_t := mkPeer (fun _ => 170) 0 200 0.
Definition small_one : world :=
  match Add_v9_output_record 1472 sample_codes tcp_record 100 (Init_v9_output small_peer) with
  | Some (_, w) => w
  | None => sample_world
  end.
Definition small_two : world :=
  match Add_v9_output_record 1472 sample_codes tcp_record 100 small_one with
  | Some (_, w) => w
  | None => sample_world
  end.
Definition small_three : world :=
  match Add_v9_output_record 1472 sample_codes tcp_record 100 small_two with
  | Some (_, w) => w
  | None => sample_world
  end.

(** A buffer of 100 bytes, too small for the template and one record. *)
Definition tiny_peer : send_peer_t := mkPeer (fun _ => 170) 0 100 0.
Definition tiny_one : world :=
  match Add_v9_output_record 1472 sample_codes tcp_record 100 (Init_v9_output tiny_peer) with
  | Some (_, w) => w
  | None => sample_world
  end.

(** A world no session passes through: an open data flowset with five bytes
    behind its start. *)
Definition odd_world : world :=
  mkWorld (mkPeer (fun _ => 170) 29 1472 0) (mkSender 0 1 0 (Some 24) 256) [].

(** A generic-flow record of declared size [k]. *)
Definition sized_record (k : Z) : master_record_t :=
  sample_record k [EXgenericFlowID] 6 4660 443 1000000000000.

(** Feed a call of [Add_v9_output_record] with the world of the previous
    step. *)
Definition then_add (U : Z) (tc : v9_field -> Z) (r : master_record_t) (now : Z)
           (ow : option (Z * world)) : option (Z * world) :=
  match ow with
  | Some (_, w) => Add_v9_output_record U tc r now w
  | None => None
  end.

(** A record that carries every listed extension once. *)
Definition full_record : master_record_t :=
  sample_record 300 listed_ids 6 4660 443 1000000000000.

(** A record with the declared size and the number of extensions of
    [tcp_record], and IPv6 addresses in place of the IPv4 ones. *)
Definition v6_record : master_record_t :=
  sample_record 100 [EXgenericFlowID; EXipv6FlowID] 6 4660 443 1000000000000.

(** A session on a buffer of 346 bytes: three MPLS records, which fill it
    to the last byte, and the close of the packet. *)
Definition edge_peer : send_peer_t := mkPeer (fun _ => 170) 0 346 0.
Definition edge_one : world :=
  match Add_v9_output_record 1472 sample_codes mpls_record 100 (Init_v9_output edge_peer) with
  | Some (_, w) => w
  | None => sample_world
  end.
Definition edge_two : world :=
  match Add_v9_output_record 1472 sample_codes mpls_record 100 edge_one with
  | Some (_, w) => w
  | None => sample_world
  end.
Definition edge_three : world :=
  match Add_v9_output_record 1472 sample_codes mpls_record 100 edge_two with
  | Some (_, w) => w
  | None => sample_world
  end.
Definition edge_closed : world := snd (Close_v9_output edge_three).

(** A session on a buffer of 200 bytes: [tcp_record], then [v6_record],
    which is served the descriptor of [tcp_record]. *)
Definition mixed_world : world :=
  match Add_v9_output_record 1472 sample_codes v6_record 100 small_one with
  | Some (_, w) => w
  | None => sample_world
  end.

(** The session of [one_record_world] after a second record at time 200,
    more than [MAX_LIFETIME] behind the first, and after a third one at
    time 201. *)
Definition aged_world : world :=
  match Add_v9_output_record 1472 sample_codes tcp_record 200 one_record_world with
  | Some (_, w) => w
  | None => sample_world
  end.
Definition flagged_template : outTemplate_t := nth 0 (outTemplates aged_world) null_template.
Definition resent_world : world :=
  match Add_v9_output_record 1472 sample_codes tcp_record 201 aged_world with
  | Some (_, w) => w
  | None => sample_world
  end.

(** The server hello of the example in ja4s.c (ja4s
    t130200_1301_234ea6891581): TLS 1.3, cipher suite 0x1301, the extensions
    0x0033 and 0x002b, no ALPN; and the digest characters of that example. *)
Definition sample_hello : ssl_t := mkSsl 2 (49, 51) [4865] [51; 43] [].
(** The same server hello with a NUL as the first version character. *)
Definition nul_version_hello : ssl_t := mkSsl 2 (0, 51) [4865] [51; 43] [].

(** Records that repeat extension ids.  Four generic-flow groups and the
    two engine fields make 46 fields; with the MAC, VLAN and BGP next-hop
    groups the count reaches 53, with two MAC groups 54, with the MPLS group
    56. *)
Definition full_block_record : master_record_t :=
  sample_record 300 [EXgenericFlowID; EXgenericFlowID; EXgenericFlowID; EXgenericFlowID;
                     EXmacAddrID; EXvLanID; EXbgpNextHopV4ID] 6 4660 443 1000000000000.
Definition late_exit_record : master_record_t :=
  sample_record 300 [EXgenericFlowID; EXgenericFlowID; EXgenericFlowID; EXgenericFlowID;
                     EXmacAddrID; EXvLanID; EXbgpNextHopV4ID; EXvLanID] 6 4660 443 1000000000000.
Definition padding_behind_record : master_record_t :=
  sample_record 300 [EXgenericFlowID; EXgenericFlowID; EXgenericFlowID; EXgenericFlowID;
                     EXmacAddrID; EXmacAddrID] 6 4660 443 1000000000000.
Definition fields_behind_record : master_record_t :=
  sample_record 300 [EXgenericFlowID; EXgenericFlowID; EXgenericFlowID; EXgenericFlowID;
                     EXmplsLabelID] 6 4660 443 1000000000000.
(** A flow that starts exactly one day after the epoch. *)
Definition day_one_record : master_record_t :=
  sample_record 100 [EXgenericFlowID; EXipv4FlowID] 6 4660 443 86400000.
Definition sample_digest (s : list Z) : list Z :=
  [50; 51; 52; 101; 97; 54; 56; 57; 49; 53; 56; 49].

(* ------------------------------------------------------------------ *)
(** ** Bytes and memory                                                 *)
(* ------------------------------------------------------------------ *)

Lemma length_be_bytes (n : nat) (v : Z) : length (be_bytes n v) = n.
Proof. induction n; simpl; auto. Qed.

Lemma be_bytes_range (n : nat) (v : Z) : Forall (fun b => 0 <= b < 256) (be_bytes n v).
Proof.
  induction n; simpl; constructor; auto.
  apply Z.mod_pos_bound. lia.
Qed.

Lemma u8_small (b : Z) : 0 <= b < 256 -> u8 b = b.
Proof. intros H. unfold u8. apply Z.mod_small. simpl. lia. Qed.

Lemma map_u8_range (l : list Z) : Forall (fun b => 0 <= b < 256) l -> map u8 l = l.
Proof.
  induction 1; simpl; auto.
  rewrite u8_small by assumption. congruence.
Qed.

Lemma store_bytes_out (l : list Z) : forall (m : memory) (a x : Z),
  x < a \/ a + Z.of_nat (length l) <= x -> store_bytes m a l x = m x.
Proof.
  induction l as [|b l IH]; intros m a x H; simpl; auto.
  rewrite IH by (simpl length in H; lia).
  unfold store8. destruct (Z.eqb_spec x a); auto.
  simpl length in H. lia.
Qed.

Lemma store_bytes_in (l : list Z) : forall (m : memory) (a x : Z),
  a <= x < a + Z.of_nat (length l) ->
  store_bytes m a l x = u8 (nth (Z.to_nat (x - a)) l 0).
Proof.
  induction l as [|b l IH]; intros m a x H; simpl length in H.
  - lia.
  - simpl store_bytes. destruct (Z.eq_dec x a) as [->|Hne].
    + rewrite store_bytes_out by lia. unfold store8. rewrite Z.eqb_refl.
      rewrite Z.sub_diag. reflexivity.
    + rewrite IH by lia.
      replace (Z.to_nat (x - a)) with (S (Z.to_nat (x - (a + 1)))) by lia.
      reflexivity.
Qed.

Lemma store_bytes_app (l1 l2 : list Z) : forall (m : memory) (a : Z),
  store_bytes m a (l1 ++ l2) = store_bytes (store_bytes m a l1) (a + Z.of_nat (length l1)) l2.
Proof.
  induction l1 as [|b l1 IH]; intros m a.
  - simpl. rewrite Z.add_0_r. reflexivity.
  - simpl app. simpl store_bytes. rewrite IH. simpl length.
    replace (a + 1 + Z.of_nat (length l1)) with (a + Z.of_nat (S (length l1))) by lia.
    reflexivity.
Qed.

Lemma read_bytes_ext (m1 m2 : memory) (a : Z) (n : nat) :
  (forall x, a <= x < a + Z.of_nat n -> m1 x = m2 x) ->
  read_bytes m1 a n = read_bytes m2 a n.
Proof.
  intros H. unfold read_bytes. apply map_ext_in.
  intros i Hi. apply in_seq in Hi. apply H. lia.
Qed.

Lemma read_bytes_store_bytes (l : list Z) (m : memory) (a : Z) :
  read_bytes (store_bytes m a l) a (length l) = map u8 l.
Proof.
  apply nth_ext with (d := 0) (d' := u8 0).
  - unfold read_bytes. rewrite !length_map, length_seq. reflexivity.
  - unfold read_bytes. rewrite length_map, length_seq. intros i Hi.
    rewrite (map_nth u8).
    rewrite nth_indep with (d' := (fun i => store_bytes m a l (a + Z.of_nat i)) 0%nat)
      by (rewrite length_map, length_seq; exact Hi).
    rewrite (map_nth (fun i => store_bytes m a l (a + Z.of_nat i))).
    rewrite seq_nth by exact Hi. simpl.
    rewrite store_bytes_in by lia.
    do 2 f_equal. lia.
Qed.

Lemma read_be_bytes (n : nat) (v : Z) (m : memory) (a : Z) :
  read_bytes (store_bytes m a (be_bytes n v)) a n = be_bytes n v.
Proof.
  rewrite <- (length_be_bytes n v) at 2.
  rewrite read_bytes_store_bytes. apply map_u8_range, be_bytes_range.
Qed.

(* ------------------------------------------------------------------ *)
(** ** The serializer writes exactly the bytes of the record            *)
(* ------------------------------------------------------------------ *)

Lemma emit_emit (l1 l2 : list Z) (p : send_peer_t) :
  emit l2 (emit l1 p) = emit (l1 ++ l2) p.
Proof.
  unfold emit. simpl. rewrite store_bytes_app, length_app, Nat2Z.inj_add.
  f_equal. lia.
Qed.

Lemma emit_nil (p : send_peer_t) : emit [] p = p.
Proof. destruct p. unfold emit. simpl. f_equal. lia. Qed.

Lemma seq_puts_cons (f : send_peer_t -> send_peer_t) (fs : list (send_peer_t -> send_peer_t))
      (p : send_peer_t) :
  seq_puts (f :: fs) p = seq_puts fs (f p).
Proof. reflexivity. Qed.

(** Split a conjunction into its parts, without touching the parts. *)
Ltac splits := repeat match goal with |- _ /\ _ => split end.

Lemma Some_eq_inv {A : Type} (x y : A) : Some x = Some y -> x = y.
Proof. congruence. Qed.

Ltac fuse_emits :=
  unfold Put_val8, Put_val16, Put_val24, Put_val32, Put_val48, Put_val64;
  repeat rewrite seq_puts_cons; unfold seq_puts; simpl fold_left;
  repeat rewrite emit_emit; repeat rewrite <- app_assoc.

Lemma Append_extension_emit (r : master_record_t) (e : ext_id) (p : send_peer_t) :
  Append_extension r e p = emit (extension_bytes r e) p.
Proof.
  destruct e; unfold Append_extension, extension_bytes;
    try (symmetry; apply emit_nil).
  - destruct (is_icmp r); simpl app; fuse_emits; reflexivity.
  - fuse_emits; reflexivity.
  - fuse_emits; reflexivity.
  - fuse_emits; reflexivity.
  - fuse_emits; reflexivity.
  - fuse_emits; reflexivity.
  - fuse_emits; reflexivity.
  - fuse_emits; reflexivity.
  - fuse_emits; reflexivity.
  - fuse_emits; reflexivity.
  - fuse_emits; reflexivity.
  - simpl map. simpl flat_map. fuse_emits. reflexivity.
  - fuse_emits; reflexivity.
  - fuse_emits; reflexivity.
Qed.

Lemma fold_Append_extension (r : master_record_t) (l : list ext_id) : forall p : send_peer_t,
  fold_left (fun q e => Append_extension r e q) l p = emit (flat_map (extension_bytes r) l) p.
Proof.
  induction l as [|e l IH]; intros p; simpl.
  - symmetry. apply emit_nil.
  - rewrite IH, Append_extension_emit, emit_emit. reflexivity.
Qed.

Lemma Append_Record_peer_emit (r : master_record_t) (p : send_peer_t) :
  Append_Record_peer r p = emit (record_bytes r) p.
Proof.
  unfold Append_Record_peer, record_bytes, Put_val8.
  rewrite fold_Append_extension, !emit_emit. reflexivity.
Qed.

Lemma extension_bytes_range (r : master_record_t) (e : ext_id) :
  Forall (fun b => 0 <= b < 256) (extension_bytes r e).
Proof.
  destruct e; unfold extension_bytes; try destruct (is_icmp r);
    rewrite ?Forall_app; repeat split; try apply be_bytes_range; try apply Forall_nil.
  all: apply Forall_flat_map, Forall_forall; intros i _; apply be_bytes_range.
Qed.

Lemma record_bytes_range (r : master_record_t) : Forall (fun b => 0 <= b < 256) (record_bytes r).
Proof.
  unfold record_bytes. rewrite !Forall_app. repeat split; try apply be_bytes_range.
  apply Forall_flat_map, Forall_forall. intros e _. apply extension_bytes_range.
Qed.

(* ------------------------------------------------------------------ *)
(** ** The template builder                                             *)
(* ------------------------------------------------------------------ *)

Lemma spec_record_length_app (l1 l2 : list field_t) :
  spec_record_length (l1 ++ l2) = spec_record_length l1 + spec_record_length l2.
Proof.
  unfold spec_record_length. induction l1 as [|f l1 IH]; simpl; lia.
Qed.

Lemma u32_small (x : Z) : 0 <= x < 2 ^ 32 -> u32 x = x.
Proof. intros H. unfold u32. apply Z.mod_small. exact H. Qed.

(** What one iteration of the template loop adds: at most 11 fields, whose
    widths sum up to the number of bytes the serializer writes for the same
    extension. *)
Lemma template_extension_spec (r : master_record_t) (e : ext_id) (b : build_t) :
  0 <= b_record_length b -> b_record_length b + 42 < 2 ^ 32 ->
  exists F : list field_t,
    b_field (template_extension e b) = b_field b ++ F
    /\ b_count (template_extension e b) = b_count b + Z.of_nat (length F)
    /\ (length F <= 11)%nat
    /\ b_record_length (template_extension e b) = b_record_length b + spec_record_length F
    /\ spec_record_length F = Z.of_nat (length (extension_bytes r e))
    /\ 0 <= spec_record_length F <= 16 * Z.of_nat (length F).
Proof.
  intros H0 H1.
  destruct e;
    cbn [template_extension add_fields fold_left add_length add_field set_mask_types
         b_field b_count b_record_length b_srcMaskType b_dstMaskType fst snd];
    repeat rewrite <- app_assoc; simpl app;
    try (eexists; split; [reflexivity|]);
    try (exists []; split; [symmetry; apply app_nil_r|]);
    unfold extension_bytes; try destruct (is_icmp r);
    cbn [flat_map seq]; rewrite ?length_app, ?length_be_bytes;
    cbn [length spec_record_length fold_right f_length];
    rewrite ?u32_small by lia; repeat split; lia.
Qed.

(** An iteration of the template loop that goes on: the test at its head
    passed and its stores stayed inside the block. *)
Lemma template_loop_cons_returns (e : ext_id) (l : list ext_id) (b b' : build_t) :
  template_loop (e :: l) b = returns b' ->
  b_count b < numV9Elements
  /\ b_count (template_extension e b) <= field_slots
  /\ template_loop l (template_extension e b) = returns b'.
Proof.
  cbn [template_loop]. intros H.
  destruct (Z.leb_spec numV9Elements (b_count b)); [discriminate|].
  cbv zeta in H.
  destruct (Z.ltb_spec field_slots (b_count (template_extension e b))); [discriminate|].
  auto.
Qed.

Lemma returns_eq_inv {A : Type} (a b : A) : returns a = returns b -> a = b.
Proof. intros H. injection H as H. exact H. Qed.

Lemma template_loop_spec (r : master_record_t) : forall (l : list ext_id) (b b' : build_t),
  template_loop l b = returns b' ->
  0 <= b_count b -> 0 <= b_record_length b <= 16 * b_count b ->
  exists F : list field_t,
    b_field b' = b_field b ++ F
    /\ b_count b' = b_count b + Z.of_nat (length F)
    /\ b_record_length b' = b_record_length b + spec_record_length F
    /\ spec_record_length F = Z.of_nat (length (flat_map (extension_bytes r) l))
    /\ b_count b' <= Z.max (b_count b) 54.
Proof.
  induction l as [|e l IH]; intros b b' Hl Hc Hr.
  - injection Hl as <-. exists []. rewrite app_nil_r. simpl. repeat split; lia.
  - apply template_loop_cons_returns in Hl. destruct Hl as (Hhead & Hslot & Hl).
    unfold numV9Elements in Hhead. unfold field_slots, numV9Elements in Hslot.
    destruct (template_extension_spec r e b) as (F & HF & HcF & HlF & HrF & HbF & HwF); try lia.
    apply IH in Hl; try lia.
    destruct Hl as (F' & HF' & HcF' & HrF' & HbF' & Hmax).
    exists (F ++ F'). rewrite HF', HF, <- app_assoc.
    rewrite spec_record_length_app, length_app, Nat2Z.inj_add.
    simpl flat_map. rewrite length_app, Nat2Z.inj_add.
    repeat split; lia.
Qed.

Lemma build_init_fields :
  b_field build_init = [mkField (Some NF9_ENGINE_TYPE) 1; mkField (Some NF9_ENGINE_ID) 1]
  /\ b_count build_init = 2 /\ b_record_length build_init = 2.
Proof. repeat split. Qed.

(** A call of [new_template] that returns a descriptor: the loop ran to its
    end, the padding entry was stored inside the block and the flowset fits
    the packet size. *)
Lemma new_template_inv (U : Z) (r : master_record_t) (tid : Z) (t : outTemplate_t) :
  new_template U r tid = Some t ->
  exists b : build_t,
    template_loop (mr_exElementList r) build_init = returns b
    /\ b_count b < field_slots
    /\ (let id := if tid =? 0 then NF9_MIN_RECORD_FLOWSET_ID else u16 (u32 (tid + 1)) in
        let count := b_count b in
        let fields := b_field b ++ [mkField None 0] in
        let fl := u32 (4 * (2 + count)) in
        let fl := if Z.land fl 3 =? 0 then fl else u32 (fl + (4 - Z.land fl 3)) in
        if U <? fl then None
        else Some (mkOutTemplate (mr_size r) (numElements r) (mr_exElementList r)
                     0 0 (b_record_length b) fl id 0
                     (mkTemplateFlowset NF9_TEMPLATE_FLOWSET_ID (u16 fl) id (u16 count) fields)))
       = Some t.
Proof.
  unfold new_template, build_template. intros H.
  destruct (template_loop (mr_exElementList r) build_init) as [b| |]; try discriminate.
  exists b. cbv zeta in H |- *.
  destruct (Z.leb_spec field_slots (b_count b)); [discriminate|].
  split; [reflexivity|]. split; [assumption|].
  match type of H with
  | match (if ?c then _ else _) with _ => _ end = _ => destruct c; [discriminate|]
  end.
  exact H.
Qed.

(** A descriptor that [new_template] returns: its field list, counters and
    lengths. *)
Lemma new_template_spec (U : Z) (r : master_record_t) (tid : Z) (t : outTemplate_t) :
  new_template U r tid = Some t ->
  exists F : list field_t,
    tf_field (template_flowset t)
      = [mkField (Some NF9_ENGINE_TYPE) 1; mkField (Some NF9_ENGINE_ID) 1] ++ F ++ [mkField None 0]
    /\ spec_record_length F = Z.of_nat (length (flat_map (extension_bytes r) (mr_exElementList r)))
    /\ record_length t = 2 + spec_record_length F
    /\ flowset_length t = 4 * (4 + Z.of_nat (length F))
    /\ Z.of_nat (length F) <= 51
    /\ flowset_length t <= U
    /\ size t = mr_size r /\ numExtensions t = numElements r
    /\ exElementList t = mr_exElementList r
    /\ time_sent t = 0 /\ record_count t = 0 /\ needs_refresh t = 0
    /\ template_id t = (if tid =? 0 then NF9_MIN_RECORD_FLOWSET_ID else u16 (u32 (tid + 1)))
    /\ tf_template_id (template_flowset t) = template_id t
    /\ tf_length (template_flowset t) = u16 (flowset_length t)
    /\ tf_count (template_flowset t) = 2 + Z.of_nat (length F).
Proof.
  intros H. apply new_template_inv in H. destruct H as (b & Hl & Hslots & H).
  unfold field_slots, numV9Elements in Hslots.
  destruct build_init_fields as (Hf & Hc & Hr).
  apply (template_loop_spec r) in Hl; try lia.
  destruct Hl as (F & HF & HcF & HrF & HbF & Hmax).
  rewrite Hc in *. rewrite Hr in *. rewrite Hf in *.
  assert (Hfl : u32 (4 * (2 + b_count b)) = 4 * (4 + Z.of_nat (length F))).
  { rewrite u32_small by lia. lia. }
  assert (Hland : Z.land (4 * (4 + Z.of_nat (length F))) 3 = 0).
  { change 3 with (Z.ones 2). rewrite Z.land_ones by lia.
    change (2 ^ 2) with 4. rewrite Z.mul_comm, Z.mod_mul; lia. }
  cbv zeta in H. rewrite Hfl, Hland, Z.eqb_refl in H.
  destruct (Z.ltb_spec U (4 * (4 + Z.of_nat (length F)))); [discriminate|].
  apply Some_eq_inv in H. subst t. exists F. cbn [tf_field template_flowset record_length flowset_length
    size numExtensions exElementList time_sent record_count needs_refresh template_id
    tf_template_id tf_length tf_count].
  rewrite HF, <- app_assoc. splits; try reflexivity; try lia.
  rewrite HcF. unfold u16. apply Z.mod_small. change (2 ^ 16) with 65536. lia.
Qed.

(** C9: for every record whose template the builder completes, whatever the
    extension ids and their order, [Append_Record] moves the buffer cursor
    by exactly the [record_length] of that template, which is the sum of the
    byte widths of the template's fields (the two engine bytes and the
    fields of each extension); the bytes between the old and the new cursor
    are the record's bytes. *)
Theorem Append_Record_advances_by_record_length
        (U : Z) (r : master_record_t) (tid : Z) (t : outTemplate_t) (w : world) :
  new_template U r tid = Some t ->
  buff_ptr (peer (Append_Record r w)) = buff_ptr (peer w) + record_length t
  /\ record_length t = spec_record_length (tf_field (template_flowset t))
  /\ read_bytes (send_buffer (peer (Append_Record r w))) (buff_ptr (peer w))
                (Z.to_nat (record_length t)) = record_bytes r.
Proof.
  intros H. apply new_template_spec in H.
  destruct H as (F & Hf & Hb & Hr & _).
  assert (Hlen : Z.of_nat (length (record_bytes r)) = record_length t).
  { unfold record_bytes. rewrite !length_app, !length_be_bytes. lia. }
  unfold Append_Record. cbn [peer]. rewrite Append_Record_peer_emit.
  unfold emit. cbn [buff_ptr send_buffer]. splits.
  - lia.
  - rewrite Hf, !spec_record_length_app. cbn [spec_record_length fold_right f_length]. lia.
  - rewrite <- Hlen, Nat2Z.id, read_bytes_store_bytes.
    apply map_u8_range, record_bytes_range.
Qed.

Lemma tcp_template_built : new_template 1472 tcp_record 0 = Some tcp_template.
Proof. vm_compute. reflexivity. Qed.

Lemma Append_Record_advances_by_record_length_witness :
  buff_ptr (peer (Append_Record tcp_record sample_world))
  = buff_ptr (peer sample_world) + record_length tcp_template
  /\ record_length tcp_template = 52.
Proof.
  split.
  - exact (proj1 (Append_Record_advances_by_record_length 1472 tcp_record 0 tcp_template
                    sample_world tcp_template_built)).
  - vm_compute. reflexivity.
Defined.

(* ------------------------------------------------------------------ *)
(** ** Closing a data flowset and finalizing a packet                   *)
(* ------------------------------------------------------------------ *)

Lemma fill_padding_emit (n : nat) : forall p : send_peer_t,
  fill_padding n p = emit (repeat 0 n) p.
Proof.
  induction n as [|n IH]; intros p; simpl.
  - symmetry. apply emit_nil.
  - rewrite IH, emit_emit. reflexivity.
Qed.

Lemma land_3 (x : Z) : Z.land x 3 = x mod 4.
Proof. change 3 with (Z.ones 2). rewrite Z.land_ones by lia. reflexivity. Qed.

Lemma CloseDataFlowset_open (w : world) (start : Z) :
  data_flowset (sender_data w) = Some start ->
  CloseDataFlowset w =
    let n := u32 (buff_ptr (peer w) - start) in
    let pad := Z.to_nat (n mod 4) in
    mkWorld
      (mkPeer (store_bytes (store_bytes (send_buffer (peer w)) (buff_ptr (peer w)) (repeat 0 pad))
                           (start + 2) (be_bytes 2 (aligned_length n)))
              (buff_ptr (peer w) + n mod 4) (endp (peer w)) (flush (peer w)))
      (mkSender (hdr_record_count (sender_data w)) (hdr_template_count (sender_data w))
                (hdr_sequence (sender_data w)) None 0)
      (outTemplates w).
Proof.
  intros H. unfold CloseDataFlowset. rewrite H. cbv zeta.
  rewrite land_3. unfold aligned_length.
  assert (Hm : 0 <= u32 (buff_ptr (peer w) - start) mod 4 < 4) by (apply Z.mod_pos_bound; lia).
  destruct (Z.eqb_spec (u32 (buff_ptr (peer w) - start) mod 4) 0) as [E|E].
  - rewrite E. simpl repeat. simpl store_bytes. unfold set_buffer. rewrite Z.add_0_r. reflexivity.
  - rewrite fill_padding_emit. unfold set_buffer, emit. cbn [send_buffer buff_ptr endp flush].
    rewrite repeat_length, Z2Nat.id by lia. reflexivity.
Qed.

Lemma CloseDataFlowset_closed (w : world) :
  data_flowset (sender_data w) = None -> CloseDataFlowset w = w.
Proof. intros H. unfold CloseDataFlowset. rewrite H. reflexivity. Qed.

(** [CloseDataFlowset] leaves the flowset closed, and touches neither the
    counters nor the descriptors. *)
Lemma CloseDataFlowset_sender (w : world) :
  data_flowset (sender_data (CloseDataFlowset w)) = None
  /\ (data_flowset (sender_data w) <> None -> data_flowset_id (sender_data (CloseDataFlowset w)) = 0)
  /\ hdr_record_count (sender_data (CloseDataFlowset w)) = hdr_record_count (sender_data w)
  /\ hdr_template_count (sender_data (CloseDataFlowset w)) = hdr_template_count (sender_data w)
  /\ hdr_sequence (sender_data (CloseDataFlowset w)) = hdr_sequence (sender_data w)
  /\ outTemplates (CloseDataFlowset w) = outTemplates w
  /\ endp (peer (CloseDataFlowset w)) = endp (peer w)
  /\ flush (peer (CloseDataFlowset w)) = flush (peer w).
Proof.
  destruct (data_flowset (sender_data w)) as [start|] eqn:H.
  - rewrite (CloseDataFlowset_open w start H). cbv zeta.
    cbn [sender_data peer outTemplates data_flowset data_flowset_id hdr_record_count
         hdr_template_count hdr_sequence endp flush].
    splits; auto.
  - rewrite (CloseDataFlowset_closed w H). splits; auto. congruence.
Qed.

(** The only bytes [CloseDataFlowset] writes are the padding behind the
    cursor and the length field of the open flowset. *)
Lemma CloseDataFlowset_frame (w : world) (a : Z) :
  (forall start, data_flowset (sender_data w) = Some start ->
     (a < start + 2 \/ start + 4 <= a)
     /\ (a < buff_ptr (peer w) \/ buff_ptr (peer w) + 3 <= a)) ->
  send_buffer (peer (CloseDataFlowset w)) a = send_buffer (peer w) a.
Proof.
  intros H. destruct (data_flowset (sender_data w)) as [start|] eqn:Hs.
  - rewrite (CloseDataFlowset_open w start Hs). cbv zeta. cbn [peer send_buffer].
    destruct (H start eq_refl) as [H1 H2].
    assert (Hm : 0 <= u32 (buff_ptr (peer w) - start) mod 4 < 4) by (apply Z.mod_pos_bound; lia).
    rewrite !store_bytes_out; auto.
    + rewrite repeat_length. lia.
    + rewrite length_be_bytes. lia.
  - rewrite (CloseDataFlowset_closed w Hs). reflexivity.
Qed.

Lemma prepare_buffer_unfold (w : world) :
  prepare_buffer w =
    set_sender (mkSender 0 0 (hdr_sequence (sender_data (CloseDataFlowset (header_stamped w))))
                         (data_flowset (sender_data (CloseDataFlowset (header_stamped w))))
                         (data_flowset_id (sender_data (CloseDataFlowset (header_stamped w)))))
               (CloseDataFlowset (header_stamped w)).
Proof. reflexivity. Qed.

Lemma prepare_buffer_fields (w : world) :
  flush (peer (prepare_buffer w)) = 1
  /\ endp (peer (prepare_buffer w)) = endp (peer w)
  /\ hdr_sequence (sender_data (prepare_buffer w)) = u32 (hdr_sequence (sender_data w) + 1)
  /\ hdr_record_count (sender_data (prepare_buffer w)) = 0
  /\ hdr_template_count (sender_data (prepare_buffer w)) = 0
  /\ data_flowset (sender_data (prepare_buffer w)) = None
  /\ (data_flowset (sender_data w) <> None -> data_flowset_id (sender_data (prepare_buffer w)) = 0)
  /\ (data_flowset (sender_data w) = None ->
      data_flowset_id (sender_data (prepare_buffer w)) = data_flowset_id (sender_data w))
  /\ outTemplates (prepare_buffer w) = outTemplates w.
Proof.
  rewrite prepare_buffer_unfold.
  destruct (CloseDataFlowset_sender (header_stamped w)) as (H1 & H2 & H3 & H4 & H5 & H6 & H7 & H8).
  unfold set_sender.
  cbn [peer sender_data outTemplates hdr_sequence hdr_record_count hdr_template_count
       data_flowset data_flowset_id].
  splits; auto.
  intros Hn. rewrite CloseDataFlowset_closed; auto.
Qed.

(** The bytes [prepare_buffer] writes: the sequence and count fields of the
    header, and what closing the open flowset writes. *)
Lemma prepare_buffer_frame (w : world) (a : Z) :
  (a < off_count \/ off_count + 2 <= a) ->
  (a < off_sequence \/ off_sequence + 4 <= a) ->
  (forall start, data_flowset (sender_data w) = Some start ->
     (a < start + 2 \/ start + 4 <= a)
     /\ (a < buff_ptr (peer w) \/ buff_ptr (peer w) + 3 <= a)) ->
  send_buffer (peer (prepare_buffer w)) a = send_buffer (peer w) a.
Proof.
  intros Hc Hs Hf. rewrite prepare_buffer_unfold. unfold set_sender. cbn [peer].
  rewrite CloseDataFlowset_frame by exact Hf.
  unfold header_stamped. cbn [peer send_buffer].
  rewrite !store_bytes_out; auto; rewrite length_be_bytes; lia.
Qed.

Lemma prepare_buffer_buff_ptr (w : world) :
  buff_ptr (peer (prepare_buffer w)) = buff_ptr (peer (CloseDataFlowset w)).
Proof.
  rewrite prepare_buffer_unfold. unfold set_sender. cbn [peer].
  destruct (data_flowset (sender_data w)) as [start|] eqn:H.
  - rewrite (CloseDataFlowset_open w start H).
    rewrite (CloseDataFlowset_open (header_stamped w) start H). reflexivity.
  - rewrite !CloseDataFlowset_closed; auto.
Qed.




(* ------------------------------------------------------------------ *)
(** ** The template cache                                               *)
(* ------------------------------------------------------------------ *)

(** The search loop compares the declared size and the number of
    extensions only. *)
Lemma search_template_key (r1 r2 : master_record_t) (ts : list outTemplate_t) :
  mr_size r1 = mr_size r2 -> numElements r1 = numElements r2 ->
  forall (idx : nat) (tid : Z),
    search_template r1 ts idx tid = search_template r2 ts idx tid.
Proof.
  intros Hs Hn. induction ts as [|t ts IH]; intros idx tid; simpl; auto.
  rewrite Hs, Hn.
  destruct ((size t =? mr_size r2) && (numExtensions t =? numElements r2)).
  - destruct (list_eq_dec ext_id_eq_dec (exElementList t) (mr_exElementList r1));
      destruct (list_eq_dec ext_id_eq_dec (exElementList t) (mr_exElementList r2)); reflexivity.
  - apply IH.
Qed.

(** C1 (the code at the failing input): [tcp_record] and [swapped_record]
    declare the same size and carry the same two extensions in different
    order.  The first lookup creates the descriptor with id 256; the lookup
    of the second record returns that same descriptor and creates none, so
    both records get template id 256. *)
Theorem GetOutputTemplate_ignores_extension_order :
  mr_size swapped_record = mr_size tcp_record
  /\ mr_exElementList swapped_record <> mr_exElementList tcp_record
  /\ exists t : outTemplate_t,
       GetOutputTemplate 1472 tcp_record [] = Some (0%nat, [t])
       /\ template_id t = 256
       /\ exElementList t = mr_exElementList tcp_record
       /\ GetOutputTemplate 1472 swapped_record [t] = Some (0%nat, [t]).
Proof.
  split; [reflexivity|]. split; [discriminate|].
  eexists. split; [vm_compute; reflexivity|].
  split; [reflexivity|]. split; [reflexivity|].
  vm_compute. reflexivity.
Qed.

(* ------------------------------------------------------------------ *)
(** ** The paths through [Add_v9_output_record]                         *)
(* ------------------------------------------------------------------ *)

Lemma add_record_cases (r : master_record_t) (idx : nat) (t : outTemplate_t) (now : Z)
      (w : world) (ret : Z) (w' : world) :
  add_record r idx t now w = (ret, w') ->
  (endp (peer w) < buff_ptr (peer w) + record_length t
   /\ ret = 1 /\ w' = prepare_buffer w)
  \/ (buff_ptr (peer w) + record_length t <= endp (peer w)
      /\ ret = 0
      /\ w' = set_templates
                (update_nth idx (schedule_refresh now)
                   (update_nth idx count_record (outTemplates w)))
                (Append_Record r w)).
Proof.
  unfold add_record, CheckSendBufferSpace.
  destruct (Z.ltb_spec (endp (peer w)) (buff_ptr (peer w) + record_length t)) as [Hlt|Hge];
    cbn [Z.eqb]; intros H.
  - left. splits; auto; congruence.
  - right. splits; auto; try congruence.
    apply (f_equal snd) in H. cbn [snd] in H. rewrite <- H. reflexivity.
Qed.

Lemma Add_cases (U : Z) (tc : v9_field -> Z) (r : master_record_t) (now : Z)
      (w : world) (ret : Z) (w' : world) :
  Add_v9_output_record U tc r now w = Some (ret, w') ->
  (numElements r = 0 /\ ret = 0 /\ w' = w)
  \/ exists (idx : nat) (ts : list outTemplate_t) (t : outTemplate_t),
       numElements r <> 0
       /\ GetOutputTemplate U r (outTemplates w) = Some (idx, ts)
       /\ nth_error ts idx = Some t
       /\ ((starts_flowset t (entered r w) = true
            /\ endp (peer w) < buff_ptr (peer (CloseDataFlowset (set_templates ts (entered r w))))
                               + (record_length t + sizeof_data_flowset_t + flowset_length t)
            /\ ret = 1
            /\ w' = prepare_buffer (CloseDataFlowset (set_templates ts (entered r w))))
           \/ (starts_flowset t (entered r w) = true
               /\ buff_ptr (peer (CloseDataFlowset (set_templates ts (entered r w))))
                  + (record_length t + sizeof_data_flowset_t + flowset_length t) <= endp (peer w)
               /\ add_record r idx t now
                    (open_data_flowset tc idx t now
                       (CloseDataFlowset (set_templates ts (entered r w)))) = (ret, w'))
           \/ (starts_flowset t (entered r w) = false
               /\ add_record r idx t now (set_templates ts (entered r w)) = (ret, w'))).
Proof.
  unfold Add_v9_output_record. intros H.
  destruct (Z.eqb_spec (numElements r) 0) as [E|E].
  - left. splits; auto; congruence.
  - right. fold (entered r w) in H. cbv zeta in H.
    change (outTemplates (entered r w)) with (outTemplates w) in H.
    destruct (GetOutputTemplate U r (outTemplates w)) as [[idx ts]|] eqn:Hg; [|discriminate].
    destruct (nth_error ts idx) as [t|] eqn:Ht; [|discriminate].
    exists idx, ts, t. splits; auto.
    change (data_flowset_id (sender_data (set_templates ts (entered r w))))
      with (data_flowset_id (sender_data (entered r w))) in H.
    fold (starts_flowset t (entered r w)) in H.
    destruct (starts_flowset t (entered r w)) eqn:Hsw.
    + unfold CheckSendBufferSpace in H.
      destruct (CloseDataFlowset_sender (set_templates ts (entered r w)))
        as (_ & _ & _ & _ & _ & _ & He & _).
      cbn [set_templates entered set_peer peer] in He.
      assert (He' : endp (peer (CloseDataFlowset (set_templates ts (entered r w)))) = endp (peer w)).
      { rewrite He. unfold skip_header, first_time_setup, set_buffer, set_buff_ptr.
        repeat match goal with |- context [if ?c then _ else _] => destruct c end; reflexivity. }
      rewrite He' in H.
      destruct (Z.ltb_spec (endp (peer w))
                  (buff_ptr (peer (CloseDataFlowset (set_templates ts (entered r w))))
                   + (record_length t + sizeof_data_flowset_t + flowset_length t))) as [Hlt|Hge];
        cbn [Z.eqb] in H.
      * left. splits; auto; congruence.
      * right. left. splits; auto. congruence.
    + right. right. splits; auto. congruence.
Qed.

(* ------------------------------------------------------------------ *)
(** ** Invariants of a session                                          *)
(* ------------------------------------------------------------------ *)

Ltac mod_lia := Z.div_mod_to_equations; lia.

Lemma u32_mod_4 (x : Z) : u32 x mod 4 = x mod 4.
Proof.
  unfold u32. change (2 ^ 32) with 4294967296. mod_lia.
Qed.

Lemma update_nth_Forall {A : Type} (P : A -> Prop) (f : A -> A) :
  (forall x, P x -> P (f x)) ->
  forall (l : list A) (n : nat), Forall P l -> Forall P (update_nth n f l).
Proof.
  intros Hf. induction l as [|x l IH]; intros n H; destruct n; simpl; auto;
    inversion H; subst; constructor; auto.
Qed.

Lemma update_nth_map {A B : Type} (g : A -> B) (f : A -> A) :
  (forall x, g (f x) = g x) ->
  forall (l : list A) (n : nat), map g (update_nth n f l) = map g l.
Proof.
  intros Hf. induction l as [|x l IH]; intros n; destruct n; simpl; auto;
    rewrite ?Hf, ?IH; reflexivity.
Qed.

Lemma update_nth_nth_error {A : Type} (f : A -> A) :
  forall (l : list A) (n : nat) (x : A),
    nth_error l n = Some x -> nth_error (update_nth n f l) n = Some (f x).
Proof.
  induction l as [|y l IH]; intros n x H; destruct n; simpl in *; try discriminate.
  - congruence.
  - apply IH. exact H.
Qed.

Lemma extension_bytes_length_even (r : master_record_t) (e : ext_id) :
  Z.of_nat (length (extension_bytes r e)) mod 2 = 0.
Proof.
  destruct e; unfold extension_bytes; try destruct (is_icmp r);
    cbn [flat_map seq]; rewrite ?length_app, ?length_be_bytes; reflexivity.
Qed.

Lemma record_bytes_length_even (r : master_record_t) :
  Z.of_nat (length (record_bytes r)) mod 2 = 0.
Proof.
  unfold record_bytes. rewrite !length_app, !length_be_bytes.
  induction (mr_exElementList r) as [|e l IH]; simpl flat_map.
  - reflexivity.
  - rewrite length_app. pose proof (extension_bytes_length_even r e).
    rewrite !Nat2Z.inj_add in *. mod_lia.
Qed.

Lemma entered_fields (r : master_record_t) (w : world) :
  buff_ptr (peer (entered r w))
    = (if buff_ptr (peer w) =? 0 then sizeof_v9Header_t else buff_ptr (peer w))
  /\ endp (peer (entered r w)) = endp (peer w)
  /\ flush (peer (entered r w)) = flush (peer w)
  /\ sender_data (entered r w) = sender_data w
  /\ outTemplates (entered r w) = outTemplates w.
Proof.
  unfold entered, set_peer, skip_header, first_time_setup, set_buffer, set_buff_ptr.
  destruct (be_value (read_bytes (send_buffer (peer w)) off_unix_secs 4) =? 0);
    cbn [peer buff_ptr endp flush sender_data outTemplates];
    destruct (buff_ptr (peer w) =? 0); splits; reflexivity.
Qed.

Lemma last_cons_default {A : Type} (l : list A) : forall (x d d' : A),
  last (x :: l) d = last (x :: l) d'.
Proof.
  induction l as [|y l IH]; intros x d d'; [reflexivity|].
  change (last (y :: l) d = last (y :: l) d'). apply IH.
Qed.

(** The two outcomes of the search loop. *)
Lemma search_template_inl (r : master_record_t) : forall (ts : list outTemplate_t)
    (idx : nat) (tid : Z) (i : nat),
  search_template r ts idx tid = inl i ->
  (idx <= i)%nat
  /\ exists t, nth_error ts (i - idx) = Some t
               /\ size t = mr_size r /\ numExtensions t = numElements r.
Proof.
  induction ts as [|t ts IH]; intros idx tid i H; simpl in H; [discriminate|].
  destruct ((size t =? mr_size r) && (numExtensions t =? numElements r)) eqn:E.
  - assert (Hi : i = idx).
    { destruct (list_eq_dec ext_id_eq_dec (exElementList t) (mr_exElementList r)); congruence. }
    subst i. split; [lia|]. rewrite Nat.sub_diag. exists t.
    apply andb_true_iff in E. destruct E as [E1 E2].
    apply Z.eqb_eq in E1. apply Z.eqb_eq in E2. auto.
  - apply IH in H. destruct H as (Hle & t' & Hn & Hs).
    split; [lia|]. exists t'. split; auto.
    replace (i - idx)%nat with (S (i - S idx)) by lia. exact Hn.
Qed.

Lemma search_template_inr (r : master_record_t) : forall (ts : list outTemplate_t)
    (idx : nat) (tid tid' : Z),
  search_template r ts idx tid = inr tid' ->
  tid' = last (map template_id ts) tid
  /\ Forall (fun t => size t <> mr_size r \/ numExtensions t <> numElements r) ts.
Proof.
  induction ts as [|t ts IH]; intros idx tid tid' H; simpl in H.
  - split; [simpl; congruence|constructor].
  - destruct ((size t =? mr_size r) && (numExtensions t =? numElements r)) eqn:E.
    + destruct (list_eq_dec ext_id_eq_dec (exElementList t) (mr_exElementList r)); discriminate.
    + apply IH in H. destruct H as (H1 & H2). split.
      * rewrite H1. simpl map. destruct (map template_id ts) as [|z l] eqn:Em; [reflexivity|].
        change (last (template_id t :: z :: l) tid) with (last (z :: l) tid).
        apply last_cons_default.
      * constructor; auto.
        apply andb_false_iff in E. destruct E as [E|E]; apply Z.eqb_neq in E; auto.
Qed.

(** [GetOutputTemplate] either returns a descriptor of the list, or appends
    one new descriptor and returns it. *)
Lemma GetOutputTemplate_cases (U : Z) (r : master_record_t) (ts ts' : list outTemplate_t)
      (idx : nat) :
  GetOutputTemplate U r ts = Some (idx, ts') ->
  (ts' = ts /\ exists t, nth_error ts idx = Some t
                         /\ size t = mr_size r /\ numExtensions t = numElements r)
  \/ (exists t, ts' = ts ++ [t] /\ idx = length ts
                /\ new_template U r (last (map template_id ts) 0) = Some t
                /\ Forall (fun t => size t <> mr_size r \/ numExtensions t <> numElements r) ts).
Proof.
  unfold GetOutputTemplate. intros H.
  destruct (search_template r ts 0 0) as [i|tid] eqn:Hs.
  - left. apply search_template_inl in Hs. destruct Hs as (_ & t & Hn & Hk).
    rewrite Nat.sub_0_r in Hn. apply Some_eq_inv in H.
    assert (idx = i /\ ts' = ts) as [-> ->] by (split; congruence).
    split; auto. exists t. auto.
  - right. apply search_template_inr in Hs. destruct Hs as (-> & Hall).
    destruct (new_template U r (last (map template_id ts) 0)) as [t|] eqn:Hn; [|discriminate].
    apply Some_eq_inv in H. exists t.
    assert (idx = length ts /\ ts' = ts ++ [t]) as [-> ->] by (split; congruence).
    auto.
Qed.

(** The position [GetOutputTemplate] returns is a position of the list it
    leaves: the pointer it returns is never dangling. *)
Lemma GetOutputTemplate_nth_error (U : Z) (r : master_record_t) (ts ts' : list outTemplate_t)
      (idx : nat) :
  GetOutputTemplate U r ts = Some (idx, ts') -> exists t, nth_error ts' idx = Some t.
Proof.
  intros H. apply GetOutputTemplate_cases in H.
  destruct H as [(-> & t & Ht & _)|(t & -> & -> & _)].
  - exists t. exact Ht.
  - exists t. rewrite nth_error_app2, Nat.sub_diag by lia. reflexivity.
Qed.

Lemma new_template_wf (U : Z) (r : master_record_t) (tid : Z) (t : outTemplate_t) :
  new_template U r tid = Some t -> wf_template t.
Proof.
  intros H. apply new_template_spec in H.
  destruct H as (F & _ & Hb & Hr & Hfl & Hle & _ & _ & _ & _ & _ & _ & _ & _ & _ & Htl & _).
  unfold wf_template. rewrite Htl, Hr, Hfl, Hb. splits; try lia.
  - rewrite Z.mul_comm. apply Z.mod_mul. lia.
  - unfold u16. apply Z.mod_small. change (2 ^ 16) with 65536. lia.
Qed.

Lemma GetOutputTemplate_wf (U : Z) (r : master_record_t) (ts ts' : list outTemplate_t)
      (idx : nat) :
  GetOutputTemplate U r ts = Some (idx, ts') ->
  Forall wf_template ts -> Forall wf_template ts'.
Proof.
  intros H Hwf. apply GetOutputTemplate_cases in H.
  destruct H as [(-> & _)|(t & -> & _ & Hn & _)]; auto.
  apply Forall_app. split; auto. constructor; [|constructor].
  eapply new_template_wf. exact Hn.
Qed.

Lemma GetOutputTemplate_ids_ok (U : Z) (r : master_record_t) (ts ts' : list outTemplate_t)
      (idx : nat) :
  GetOutputTemplate U r ts = Some (idx, ts') -> ids_ok ts -> ids_ok ts'.
Proof.
  intros H Hok. apply GetOutputTemplate_cases in H.
  destruct H as [(-> & _)|(t & -> & _ & Hn & _)]; auto.
  apply new_template_spec in Hn.
  destruct Hn as (_ & _ & _ & _ & _ & _ & _ & _ & _ & _ & _ & _ & _ & Hid & _).
  intros i t' Hi Hlt.
  destruct (Nat.lt_ge_cases i (length ts)) as [Hin|Hout].
  - rewrite nth_error_app1 in Hi by exact Hin. apply Hok; auto.
  - rewrite nth_error_app2 in Hi by exact Hout.
    destruct (i - length ts)%nat as [|k] eqn:Ek; [|destruct k; discriminate].
    simpl in Hi. apply Some_eq_inv in Hi. subst t'.
    assert (i = length ts) by lia. subst i. rewrite Hid.
    destruct ts as [|t0 ts0] using rev_ind.
    + reflexivity.
    + clear IHts0. rewrite map_app. simpl map. rewrite last_last.
      rewrite length_app in *. simpl length in *.
      assert (Hl : template_id t0 = 256 + Z.of_nat (length ts0)).
      { apply Hok.
        - rewrite nth_error_app2, Nat.sub_diag by lia. reflexivity.
        - lia. }
      rewrite Hl.
      destruct (Z.eqb_spec (256 + Z.of_nat (length ts0)) 0); [lia|].
      unfold u16. rewrite u32_small by lia.
      rewrite Z.mod_small; [lia|]. change (2 ^ 16) with 65536. lia.
Qed.

Lemma open_data_flowset_fields (tc : v9_field -> Z) (idx : nat) (t : outTemplate_t) (now : Z)
      (w : world) :
  buff_ptr (peer (open_data_flowset tc idx t now w))
    = buff_ptr (peer w) + flowset_length t + offsetof_data
  /\ endp (peer (open_data_flowset tc idx t now w)) = endp (peer w)
  /\ flush (peer (open_data_flowset tc idx t now w)) = flush (peer w)
  /\ data_flowset (sender_data (open_data_flowset tc idx t now w))
     = Some (buff_ptr (peer w) + flowset_length t)
  /\ data_flowset_id (sender_data (open_data_flowset tc idx t now w)) = template_id t
  /\ hdr_record_count (sender_data (open_data_flowset tc idx t now w))
     = hdr_record_count (sender_data w)
  /\ hdr_template_count (sender_data (open_data_flowset tc idx t now w))
     = u32 (hdr_template_count (sender_data w) + 1)
  /\ hdr_sequence (sender_data (open_data_flowset tc idx t now w)) = hdr_sequence (sender_data w)
  /\ outTemplates (open_data_flowset tc idx t now w)
     = update_nth idx (set_time_sent now) (outTemplates w).
Proof. splits; reflexivity. Qed.

Lemma Append_Record_fields (r : master_record_t) (w : world) :
  buff_ptr (peer (Append_Record r w)) = buff_ptr (peer w) + Z.of_nat (length (record_bytes r))
  /\ endp (peer (Append_Record r w)) = endp (peer w)
  /\ flush (peer (Append_Record r w)) = flush (peer w)
  /\ data_flowset (sender_data (Append_Record r w)) = data_flowset (sender_data w)
  /\ data_flowset_id (sender_data (Append_Record r w)) = data_flowset_id (sender_data w)
  /\ hdr_record_count (sender_data (Append_Record r w)) = u32 (hdr_record_count (sender_data w) + 1)
  /\ hdr_template_count (sender_data (Append_Record r w)) = hdr_template_count (sender_data w)
  /\ hdr_sequence (sender_data (Append_Record r w)) = hdr_sequence (sender_data w)
  /\ outTemplates (Append_Record r w) = outTemplates w
  /\ send_buffer (peer (Append_Record r w))
     = store_bytes (send_buffer (peer w)) (buff_ptr (peer w)) (record_bytes r).
Proof.
  unfold Append_Record. cbn [peer sender_data outTemplates].
  rewrite Append_Record_peer_emit. splits; reflexivity.
Qed.

Lemma wf_schedule_refresh (now : Z) (t : outTemplate_t) :
  wf_template t -> wf_template (schedule_refresh now t).
Proof. unfold schedule_refresh. destruct (refresh_due now t); auto. Qed.

Lemma entered_pointers_ok (r : master_record_t) (w : world) :
  pointers_ok w ->
  pointers_ok (entered r w) /\ sizeof_v9Header_t <= buff_ptr (peer (entered r w)).
Proof.
  unfold pointers_ok. intros (Hp & He & Hs & Ht).
  destruct (entered_fields r w) as (E1 & _ & _ & E4 & E5).
  rewrite E1, E4, E5. unfold sizeof_v9Header_t, offsetof_data in *.
  destruct (Z.eqb_spec (buff_ptr (peer w)) 0); splits; auto; try lia.
  intros start Hst. specialize (Hs start Hst). lia.
Qed.

Lemma CloseDataFlowset_pointers_ok (w : world) :
  pointers_ok w ->
  pointers_ok (CloseDataFlowset w)
  /\ buff_ptr (peer w) <= buff_ptr (peer (CloseDataFlowset w)).
Proof.
  unfold pointers_ok. intros (Hp & He & Hs & Ht).
  destruct (data_flowset (sender_data w)) as [start|] eqn:Hd.
  - rewrite (CloseDataFlowset_open w start Hd). cbv zeta.
    cbn [peer buff_ptr sender_data data_flowset outTemplates].
    destruct (Hs start eq_refl) as (Hs1 & Hs2 & Hs3).
    rewrite u32_mod_4. unfold sizeof_v9Header_t, offsetof_data in *.
    assert (Hpad : (buff_ptr (peer w) - start) mod 4 = 0 \/ (buff_ptr (peer w) - start) mod 4 = 2)
      by mod_lia.
    splits; auto; try discriminate; try (right; lia); try lia.
    destruct Hpad as [-> | ->]; mod_lia.
  - rewrite (CloseDataFlowset_closed w Hd). splits; auto; try lia. intros; congruence.
Qed.

Lemma header_stamped_pointers_ok (w : world) :
  pointers_ok w -> pointers_ok (header_stamped w).
Proof. unfold pointers_ok, header_stamped. cbn. auto. Qed.

Lemma prepare_buffer_pointers_ok (w : world) :
  pointers_ok w ->
  pointers_ok (prepare_buffer w) /\ flush_closed (prepare_buffer w).
Proof.
  intros H. split.
  - rewrite prepare_buffer_unfold.
    destruct (CloseDataFlowset_pointers_ok (header_stamped w)) as ((Hp & He & Hs & Ht) & _).
    + apply header_stamped_pointers_ok. exact H.
    + unfold pointers_ok, set_sender. cbn [peer sender_data outTemplates data_flowset].
      splits; auto.
  - intros _. apply prepare_buffer_fields.
Qed.

Lemma open_data_flowset_pointers_ok (tc : v9_field -> Z) (idx : nat) (t : outTemplate_t)
      (now : Z) (w : world) :
  pointers_ok w -> sizeof_v9Header_t <= buff_ptr (peer w) -> wf_template t ->
  pointers_ok (open_data_flowset tc idx t now w)
  /\ sizeof_v9Header_t <= buff_ptr (peer (open_data_flowset tc idx t now w)).
Proof.
  unfold pointers_ok. intros (Hp & He & Hs & Ht) H20 (_ & Hf0 & Hf4 & _).
  destruct (open_data_flowset_fields tc idx t now w) as (E1 & _ & _ & E4 & _ & _ & _ & _ & E9).
  rewrite E1, E4, E9. unfold sizeof_v9Header_t, offsetof_data in *.
  splits; try (right; lia); try lia; try mod_lia.
  - intros start Hst. apply Some_eq_inv in Hst. subst start. splits; [lia|mod_lia|lia].
  - apply update_nth_Forall; auto.
Qed.

Lemma add_record_pointers_ok (r : master_record_t) (idx : nat) (t : outTemplate_t) (now : Z)
      (w : world) (ret : Z) (w' : world) :
  add_record r idx t now w = (ret, w') ->
  pointers_ok w -> sizeof_v9Header_t <= buff_ptr (peer w) -> flush (peer w) = 0 ->
  pointers_ok w' /\ flush_closed w'.
Proof.
  intros H Hok H20 Hfl. apply add_record_cases in H.
  destruct H as [(_ & _ & ->)|(_ & _ & ->)].
  - apply prepare_buffer_pointers_ok; auto.
  - destruct Hok as (Hp & He & Hs & Ht).
    destruct (Append_Record_fields r w) as (E1 & _ & E3 & E4 & _).
    unfold pointers_ok, flush_closed, set_templates. cbn [peer sender_data outTemplates].
    rewrite E1, E3, E4. pose proof (record_bytes_length_even r).
    unfold sizeof_v9Header_t, offsetof_data in *.
    splits; auto; try (right; lia); try mod_lia; try lia.
    + intros start Hst. specialize (Hs start Hst). lia.
    + apply update_nth_Forall; [apply wf_schedule_refresh|].
      apply update_nth_Forall; auto.
Qed.

Lemma set_templates_pointers_ok (ts : list outTemplate_t) (w : world) :
  pointers_ok w -> Forall wf_template ts -> pointers_ok (set_templates ts w).
Proof. unfold pointers_ok. intros (Hp & He & Hs & _) Ht. cbn. auto. Qed.

Lemma Add_pointers_ok (U : Z) (tc : v9_field -> Z) (r : master_record_t) (now : Z)
      (w : world) (ret : Z) (w' : world) :
  Add_v9_output_record U tc r now w = Some (ret, w') ->
  pointers_ok w -> flush (peer w) = 0 ->
  pointers_ok w' /\ flush_closed w'.
Proof.
  intros H Hok Hfl. apply Add_cases in H.
  destruct H as [(_ & _ & ->)|(idx & ts & t & _ & Hg & Hn & Hc)].
  { split; auto. intros Hne. contradiction. }
  destruct (entered_pointers_ok r w Hok) as (Hok1 & H20).
  destruct (entered_fields r w) as (_ & _ & Efl & _).
  assert (Hwf : Forall wf_template ts).
  { eapply GetOutputTemplate_wf; [exact Hg|]. apply Hok. }
  assert (Ht : wf_template t).
  { eapply Forall_forall; [exact Hwf|]. eapply nth_error_In. exact Hn. }
  pose proof (set_templates_pointers_ok ts _ Hok1 Hwf) as Hok2.
  destruct (CloseDataFlowset_pointers_ok _ Hok2) as (Hok3 & Hge).
  change (buff_ptr (peer (set_templates ts (entered r w))))
    with (buff_ptr (peer (entered r w))) in Hge.
  destruct (CloseDataFlowset_sender (set_templates ts (entered r w)))
    as (_ & _ & _ & _ & _ & _ & _ & Cfl).
  change (flush (peer (set_templates ts (entered r w)))) with (flush (peer (entered r w))) in Cfl.
  destruct Hc as [(_ & _ & _ & ->)|[(_ & _ & Ha)|(_ & Ha)]].
  - apply prepare_buffer_pointers_ok; auto.
  - destruct (open_data_flowset_pointers_ok tc idx t now _ Hok3 ltac:(lia) Ht) as (Hok4 & H20').
    eapply add_record_pointers_ok; eauto.
    destruct (open_data_flowset_fields tc idx t now
                (CloseDataFlowset (set_templates ts (entered r w)))) as (_ & _ & Ofl & _).
    congruence.
  - eapply add_record_pointers_ok; eauto.
    change (flush (peer (set_templates ts (entered r w)))) with (flush (peer (entered r w))).
    congruence.
Qed.

Lemma Init_pointers_ok (p : send_peer_t) : pointers_ok (Init_v9_output p).
Proof.
  unfold pointers_ok, Init_v9_output. cbn [peer sender_data outTemplates buff_ptr data_flowset].
  splits; auto; try discriminate. right. lia.
Qed.

Lemma Close_v9_output_pointers_ok (w : world) :
  pointers_ok w -> flush (peer w) = 0 ->
  pointers_ok (snd (Close_v9_output w)) /\ flush_closed (snd (Close_v9_output w)).
Proof.
  intros Hok Hfl. unfold Close_v9_output.
  destruct (0 <? u32 (hdr_record_count (sender_data w) + hdr_template_count (sender_data w)));
    cbn [snd].
  - apply prepare_buffer_pointers_ok. exact Hok.
  - split; auto. intros Hne. contradiction.
Qed.

Lemma flush_buffer_pointers_ok (w : world) :
  pointers_ok w -> data_flowset (sender_data w) = None ->
  pointers_ok (flush_buffer w) /\ flush_closed (flush_buffer w).
Proof.
  unfold pointers_ok, flush_closed, flush_buffer, set_peer.
  cbn [peer sender_data outTemplates buff_ptr flush]. intros (Hp & He & Hs & Ht) Hd.
  rewrite Hd. splits; auto; try discriminate.
Qed.

(** Every world of a session has well-placed pointers, and a raised flush
    flag comes with a closed data flowset. *)
Lemma Reachable_pointers_ok (U : Z) (tc : v9_field -> Z) (w : world) :
  Reachable U tc w -> pointers_ok w /\ flush_closed w.
Proof.
  induction 1 as [p|w r now ret w' Hr IH Hfl Ha|w Hr IH Hfl|w Hr IH Hfl].
  - split; [apply Init_pointers_ok|]. intros _. reflexivity.
  - destruct IH as (IH & _). eapply Add_pointers_ok; eauto.
  - destruct IH as (IH & _). apply Close_v9_output_pointers_ok; auto.
  - destruct IH as (IH & Hc). apply flush_buffer_pointers_ok; auto.
Qed.

(* ------------------------------------------------------------------ *)
(** ** Alignment of flowsets                                            *)
(* ------------------------------------------------------------------ *)




(** The padding loop of [CloseDataFlowset] runs (bytes mod 4) times, where
    the stored length needs 4 - (bytes mod 4) bytes.  The two agree at 2,
    the only remainder a session produces.  On a flowset of five bytes,
    which no session produces, the call would write one zero byte and store
    the length 8. *)
Remark CloseDataFlowset_odd_length :
  ~ Reachable 1472 sample_codes odd_world
  /\ buff_ptr (peer (CloseDataFlowset odd_world)) = 30
  /\ be_value (read_bytes (send_buffer (peer (CloseDataFlowset odd_world))) 26 2) = 8.
Proof.
  splits; try (vm_compute; reflexivity).
  intros H. apply Reachable_pointers_ok in H. destruct H as ((_ & He & _) & _).
  vm_compute in He. discriminate.
Qed.

Lemma mpls_world_reachable : Reachable 1472 sample_codes mpls_world.
Proof.
  apply (reach_add 1472 sample_codes sample_world mpls_record 100 0 mpls_world).
  - apply reach_init.
  - reflexivity.
  - vm_compute. reflexivity.
Qed.


(* ------------------------------------------------------------------ *)
(** ** Template ids                                                     *)
(* ------------------------------------------------------------------ *)

Lemma ids_ok_map (ts ts' : list outTemplate_t) :
  map template_id ts' = map template_id ts -> ids_ok ts -> ids_ok ts'.
Proof.
  intros Hm Hok i t' Hi Hlt.
  assert (Hi' : nth_error (map template_id ts') i = Some (template_id t'))
    by (apply map_nth_error; exact Hi).
  rewrite Hm, nth_error_map in Hi'.
  destruct (nth_error ts i) as [t|] eqn:Et; simpl in Hi'; [|discriminate].
  apply Some_eq_inv in Hi'. rewrite <- Hi'. apply Hok; auto.
Qed.

Lemma prepare_buffer_templates (w : world) : outTemplates (prepare_buffer w) = outTemplates w.
Proof. apply prepare_buffer_fields. Qed.

Lemma add_record_template_ids (r : master_record_t) (idx : nat) (t : outTemplate_t) (now : Z)
      (w : world) (ret : Z) (w' : world) :
  add_record r idx t now w = (ret, w') ->
  map template_id (outTemplates w') = map template_id (outTemplates w).
Proof.
  intros H. apply add_record_cases in H. destruct H as [(_ & _ & ->)|(_ & _ & ->)].
  - rewrite prepare_buffer_templates. reflexivity.
  - cbn [set_templates outTemplates].
    rewrite !update_nth_map; auto.
    intros x. unfold schedule_refresh. destruct (refresh_due now x); reflexivity.
Qed.

(** What a call of [Add_v9_output_record] does to the list of descriptors:
    the list the lookup left, with the ids as they were. *)
Lemma Add_template_ids (U : Z) (tc : v9_field -> Z) (r : master_record_t) (now : Z)
      (w : world) (ret : Z) (w' : world) :
  Add_v9_output_record U tc r now w = Some (ret, w') ->
  outTemplates w' = outTemplates w
  \/ exists idx ts, GetOutputTemplate U r (outTemplates w) = Some (idx, ts)
                    /\ map template_id (outTemplates w') = map template_id ts.
Proof.
  intros H. apply Add_cases in H.
  destruct H as [(_ & _ & ->)|(idx & ts & t & _ & Hg & Hn & Hc)]; auto.
  right. exists idx, ts. split; auto.
  destruct (CloseDataFlowset_sender (set_templates ts (entered r w)))
    as (_ & _ & _ & _ & _ & Ct & _).
  destruct Hc as [(_ & _ & _ & ->)|[(_ & _ & Ha)|(_ & Ha)]].
  - rewrite prepare_buffer_templates, Ct. reflexivity.
  - apply add_record_template_ids in Ha. rewrite Ha.
    destruct (open_data_flowset_fields tc idx t now
                (CloseDataFlowset (set_templates ts (entered r w))))
      as (_ & _ & _ & _ & _ & _ & _ & _ & Ot).
    rewrite Ot, update_nth_map, Ct; auto.
  - apply add_record_template_ids in Ha. rewrite Ha. reflexivity.
Qed.

Lemma Reachable_ids_ok (U : Z) (tc : v9_field -> Z) (w : world) :
  Reachable U tc w -> ids_ok (outTemplates w).
Proof.
  induction 1 as [p|w r now ret w' Hr IH Hfl Ha|w Hr IH Hfl|w Hr IH Hfl].
  - intros i t Hi. destruct i; discriminate.
  - apply Add_template_ids in Ha. destruct Ha as [->|(idx & ts & Hg & Hm)]; auto.
    eapply ids_ok_map; [exact Hm|]. eapply GetOutputTemplate_ids_ok; eauto.
  - unfold Close_v9_output.
    destruct (0 <? u32 (hdr_record_count (sender_data w) + hdr_template_count (sender_data w)));
      cbn [snd]; auto.
    rewrite prepare_buffer_templates. exact IH.
  - exact IH.
Qed.

(** C7 (amended): in every world of a session the descriptors carry, in the
    order of their creation, the ids 256, 257, 258, ... as long as their
    number does not exceed 65280, the ids that fit the 16-bit id field.  A
    call of [Add_v9_output_record] leaves the ids of the existing
    descriptors as they are and appends at most one descriptor;
    [Close_v9_output] and the flush of the buffer leave the list alone. *)
Theorem template_ids_count_up_from_256 (U : Z) (tc : v9_field -> Z) (w : world) :
  Reachable U tc w ->
  (forall (i : nat) (t : outTemplate_t),
      nth_error (outTemplates w) i = Some t -> Z.of_nat i < 65280 ->
      template_id t = 256 + Z.of_nat i)
  /\ (forall (r : master_record_t) (now ret : Z) (w' : world),
         Add_v9_output_record U tc r now w = Some (ret, w') ->
         exists new : list Z,
           map template_id (outTemplates w') = map template_id (outTemplates w) ++ new
           /\ (length new <= 1)%nat)
  /\ outTemplates (snd (Close_v9_output w)) = outTemplates w
  /\ outTemplates (flush_buffer w) = outTemplates w.
Proof.
  intros Hr. splits.
  - apply (Reachable_ids_ok U tc w Hr).
  - intros r now ret w' Ha. apply Add_template_ids in Ha.
    destruct Ha as [->|(idx & ts & Hg & Hm)].
    + exists []. rewrite app_nil_r. auto.
    + rewrite Hm. apply GetOutputTemplate_cases in Hg.
      destruct Hg as [(-> & _)|(t & -> & _)].
      * exists []. rewrite app_nil_r. auto.
      * exists [template_id t]. rewrite map_app. auto.
  - unfold Close_v9_output.
    destruct (0 <? u32 (hdr_record_count (sender_data w) + hdr_template_count (sender_data w)));
      cbn [snd]; auto.
    apply prepare_buffer_templates.
  - reflexivity.
Qed.

Lemma template_ids_count_up_from_256_witness :
  exists t : outTemplate_t,
    nth_error (outTemplates mpls_world) 0 = Some t /\ template_id t = 256 + Z.of_nat 0.
Proof.
  destruct (template_ids_count_up_from_256 1472 sample_codes mpls_world mpls_world_reachable)
    as (H & _).
  destruct (nth_error (outTemplates mpls_world) 0) as [t|] eqn:E.
  - exists t. split; [reflexivity|]. apply (H 0%nat t E). reflexivity.
  - vm_compute in E. discriminate.
Defined.

Lemma search_template_miss (r : master_record_t) (ts : list outTemplate_t) :
  Forall (fun t => size t <> mr_size r) ts ->
  forall (idx : nat) (tid : Z),
    search_template r ts idx tid = inr (last (map template_id ts) tid).
Proof.
  induction 1 as [|t ts Ht Hts IH]; intros idx tid; [reflexivity|].
  simpl search_template. apply Z.eqb_neq in Ht. rewrite Ht. cbn [andb].
  rewrite IH. simpl map. destruct (map template_id ts) as [|z l]; [reflexivity|].
  change (last (template_id t :: z :: l) tid) with (last (z :: l) tid).
  f_equal. apply last_cons_default.
Qed.

Lemma GetOutputTemplate_miss (U : Z) (r : master_record_t) (ts : list outTemplate_t)
      (t : outTemplate_t) :
  Forall (fun t => size t <> mr_size r) ts ->
  new_template U r (last (map template_id ts) 0) = Some t ->
  GetOutputTemplate U r ts = Some (length ts, ts ++ [t]).
Proof.
  intros Hs Hn. unfold GetOutputTemplate.
  rewrite search_template_miss by exact Hs. rewrite Hn. reflexivity.
Qed.

Lemma lookups_app (U : Z) (l1 l2 : list master_record_t) : forall ts : list outTemplate_t,
  lookups U (l1 ++ l2) ts
  = match lookups U l1 ts with
    | Some ts' => lookups U l2 ts'
    | None => None
    end.
Proof.
  induction l1 as [|r l1 IH]; intros ts; simpl; auto.
  destruct (GetOutputTemplate U r ts) as [[idx ts']|]; auto.
Qed.

Lemma new_template_sized (k tid : Z) : new_template 1472 (sized_record k) tid <> None.
Proof.
  unfold new_template, build_template.
  change (mr_exElementList (sized_record k)) with [EXgenericFlowID].
  assert (E : exists b, template_loop [EXgenericFlowID] build_init = returns b /\ b_count b = 13).
  { eexists. split; vm_compute; reflexivity. }
  destruct E as (b & -> & Hc). cbv zeta. rewrite Hc.
  change (field_slots <=? 13) with false. cbv iota.
  change (u32 (4 * (2 + 13))) with 60.
  change (Z.land 60 3 =? 0) with true. cbv iota.
  change (1472 <? 60) with false. cbv iota. discriminate.
Qed.

(** Lookups of [n] records of the declared sizes 0, 1, ..., n-1 create [n]
    descriptors. *)
Lemma lookups_sized (n : nat) :
  exists ts : list outTemplate_t,
    lookups 1472 (map (fun i => sized_record (Z.of_nat i)) (seq 0 n)) [] = Some ts
    /\ length ts = n
    /\ (forall i t, nth_error ts i = Some t -> size t = Z.of_nat i)
    /\ ids_ok ts.
Proof.
  induction n as [|n (ts & Hl & Hlen & Hsz & Hok)].
  - exists []. splits; auto.
    + intros i t Hi. destruct i; discriminate.
    + intros i t Hi. destruct i; discriminate.
  - rewrite seq_S, map_app, lookups_app, Hl. cbn [Nat.add map lookups].
    destruct (new_template 1472 (sized_record (Z.of_nat n)) (last (map template_id ts) 0))
      as [t|] eqn:Hn; [|exfalso; eapply new_template_sized; eauto].
    assert (Hmiss : Forall (fun t => size t <> mr_size (sized_record (Z.of_nat n))) ts).
    { apply Forall_forall. intros t' Hin. apply In_nth_error in Hin. destruct Hin as (i & Hi).
      rewrite (Hsz i t' Hi). cbn [sized_record sample_record mr_size].
      assert (i < length ts)%nat by (apply nth_error_Some; congruence). lia. }
    pose proof (GetOutputTemplate_miss 1472 _ ts t Hmiss Hn) as Hg.
    rewrite Hg. exists (ts ++ [t]). splits; auto.
    + rewrite length_app. simpl. lia.
    + intros i t' Hi. destruct (Nat.lt_ge_cases i (length ts)) as [Hin|Hout].
      * rewrite nth_error_app1 in Hi by exact Hin. apply Hsz; auto.
      * rewrite nth_error_app2 in Hi by exact Hout.
        destruct (i - length ts)%nat as [|k] eqn:Ek; [|destruct k; discriminate].
        simpl in Hi. apply Some_eq_inv in Hi. subst t'.
        apply new_template_spec in Hn.
        destruct Hn as (_ & _ & _ & _ & _ & _ & _ & Hs & _).
        rewrite Hs. cbn [sized_record sample_record mr_size]. f_equal. lia.
    + eapply GetOutputTemplate_ids_ok; eauto.
Qed.

Lemma last_nth_error {A : Type} (l : list A) (d : A) :
  l <> [] -> nth_error l (length l - 1) = Some (last l d).
Proof.
  destruct l as [|x l] using rev_ind; [congruence|]. intros _.
  rewrite last_last, length_app. simpl length.
  rewrite nth_error_app2 by lia.
  replace (length l + 1 - 1 - length l)%nat with 0%nat by lia. reflexivity.
Qed.

(** C7 (counterexample): after the lookups of 65280 records of pairwise
    different declared size, the largest id assigned is 65535; the next
    descriptor created gets the id 0, not 65536, and the one after it gets
    256 again. *)
Lemma template_id_wraps_after_65535 :
  exists (ts : list outTemplate_t) (t t' : outTemplate_t),
    lookups 1472 (map (fun i => sized_record (Z.of_nat i)) (seq 0 (Z.to_nat 65280))) [] = Some ts
    /\ last (map template_id ts) 0 = 65535
    /\ GetOutputTemplate 1472 (sized_record 65280) ts = Some (length ts, ts ++ [t])
    /\ template_id t = 0
    /\ GetOutputTemplate 1472 (sized_record 65281) (ts ++ [t])
       = Some (length (ts ++ [t]), (ts ++ [t]) ++ [t'])
    /\ template_id t' = 256.
Proof.
  destruct (lookups_sized (Z.to_nat 65280)) as (ts & Hl & Hlen & Hsz & Hok).
  assert (Hne : ts <> []).
  { intros ->. simpl in Hlen. lia. }
  assert (Hlast : last (map template_id ts) 0 = 65535).
  { pose proof (last_nth_error ts (hd (mkOutTemplate 0 0 [] 0 0 0 0 0 0
                                          (mkTemplateFlowset 0 0 0 0 [])) ts) Hne) as Hn.
    pose proof (Hok _ _ Hn) as Hid.
    assert (Hm : nth_error (map template_id ts) (length ts - 1)
                 = Some (template_id (last ts (hd (mkOutTemplate 0 0 [] 0 0 0 0 0 0
                                          (mkTemplateFlowset 0 0 0 0 [])) ts))))
      by (apply map_nth_error; exact Hn).
    assert (Hne' : map template_id ts <> []).
    { intros E. apply map_eq_nil in E. contradiction. }
    pose proof (last_nth_error (map template_id ts) 0 Hne') as Hn'.
    rewrite length_map in Hn'. rewrite Hn' in Hm. apply Some_eq_inv in Hm.
    rewrite Hm, Hid; lia. }
  destruct (new_template 1472 (sized_record 65280) (last (map template_id ts) 0))
    as [t|] eqn:Hn; [|exfalso; eapply new_template_sized; eauto].
  assert (Hmiss : Forall (fun t => size t <> mr_size (sized_record 65280)) ts).
  { apply Forall_forall. intros t0 Hin. apply In_nth_error in Hin. destruct Hin as (i & Hi).
    rewrite (Hsz i t0 Hi). cbn [sized_record sample_record mr_size].
    assert (i < length ts)%nat by (apply nth_error_Some; congruence). lia. }
  pose proof (new_template_spec _ _ _ _ Hn) as Hspec.
  destruct Hspec as (_ & _ & _ & _ & _ & _ & _ & Hsize & _ & _ & _ & _ & _ & Hid & _).
  rewrite Hlast in Hid. 
  assert (Hid0 : template_id t = 0) by (rewrite Hid; reflexivity).
  destruct (new_template 1472 (sized_record 65281) (last (map template_id (ts ++ [t])) 0))
    as [t'|] eqn:Hn'; [|exfalso; eapply new_template_sized; eauto].
  assert (Hmiss' : Forall (fun t => size t <> mr_size (sized_record 65281)) (ts ++ [t])).
  { apply Forall_app. split.
    - apply Forall_forall. intros t0 Hin. apply In_nth_error in Hin. destruct Hin as (i & Hi).
      rewrite (Hsz i t0 Hi). cbn [sized_record sample_record mr_size].
      assert (i < length ts)%nat by (apply nth_error_Some; congruence). lia.
    - constructor; [|constructor]. rewrite Hsize. discriminate. }
  pose proof (new_template_spec _ _ _ _ Hn') as Hspec'.
  destruct Hspec' as (_ & _ & _ & _ & _ & _ & _ & _ & _ & _ & _ & _ & _ & Hid' & _).
  rewrite map_app in Hid'. cbn [map] in Hid'. rewrite last_last, Hid0 in Hid'.
  exists ts, t, t'. splits; auto.
  - apply GetOutputTemplate_miss; auto.
  - apply GetOutputTemplate_miss; auto.
Qed.

(* ------------------------------------------------------------------ *)
(** ** The refresh flag                                                 *)
(* ------------------------------------------------------------------ *)

(** C3 (the code at the failing input): four TCP records of one template are
    added at the times 100, 200, 201 and 202.  The second call raises the
    refresh flag (200 - 100 > 60).  The third call writes the template again
    (template counter 2) and stamps it with 201, and the flag is still 1
    after it; so the fourth call, one second later, writes the template once
    more (template counter 3). *)
Theorem needs_refresh_stays_set :
  observe (then_add 1472 sample_codes tcp_record 200
             (Add_v9_output_record 1472 sample_codes tcp_record 100 sample_world))
    = Some (0, 2, 1, [(256, 2, 100, 1)])
  /\ observe (then_add 1472 sample_codes tcp_record 201
               (then_add 1472 sample_codes tcp_record 200
                  (Add_v9_output_record 1472 sample_codes tcp_record 100 sample_world)))
     = Some (0, 3, 2, [(256, 3, 201, 1)])
  /\ observe (then_add 1472 sample_codes tcp_record 202
               (then_add 1472 sample_codes tcp_record 201
                  (then_add 1472 sample_codes tcp_record 200
                     (Add_v9_output_record 1472 sample_codes tcp_record 100 sample_world))))
     = Some (0, 4, 3, [(256, 4, 202, 1)]).
Proof. splits; vm_compute; reflexivity. Qed.

(* ------------------------------------------------------------------ *)
(** ** Which bytes a call writes                                        *)
(* ------------------------------------------------------------------ *)

Lemma entered_frame (r : master_record_t) (w : world) (a : Z) :
  a < off_unix_secs \/ off_unix_secs + 4 <= a ->
  send_buffer (peer (entered r w)) a = send_buffer (peer w) a.
Proof.
  intros Ha. unfold entered, set_peer, skip_header, first_time_setup, set_buffer, set_buff_ptr.
  cbn [peer].
  destruct (be_value (read_bytes (send_buffer (peer w)) off_unix_secs 4) =? 0);
    cbn [buff_ptr send_buffer]; destruct (buff_ptr (peer w) =? 0); cbn [send_buffer]; auto;
    apply store_bytes_out; rewrite length_be_bytes; lia.
Qed.

Lemma entered_unix_secs (r : master_record_t) (w : world) :
  unix_secs (entered r w)
  = if be_value (unix_secs w) =? 0 then be_bytes 4 (anchor_of r) else unix_secs w.
Proof.
  unfold unix_secs, entered, set_peer, skip_header, first_time_setup, set_buffer, set_buff_ptr.
  cbn [peer].
  destruct (be_value (read_bytes (send_buffer (peer w)) off_unix_secs 4) =? 0);
    cbn [buff_ptr send_buffer]; destruct (buff_ptr (peer w) =? 0); cbn [send_buffer]; auto;
    apply read_be_bytes.
Qed.

Lemma open_data_flowset_frame (tc : v9_field -> Z) (idx : nat) (t : outTemplate_t) (now : Z)
      (w : world) (a : Z) :
  0 <= flowset_length t -> a < buff_ptr (peer w) ->
  send_buffer (peer (open_data_flowset tc idx t now w)) a = send_buffer (peer w) a.
Proof.
  intros Hf Ha. unfold open_data_flowset, Add_template_flowset, set_templates.
  cbn [peer send_buffer buff_ptr].
  rewrite !store_bytes_out; auto; lia.
Qed.

Lemma Append_Record_frame (r : master_record_t) (w : world) (a : Z) :
  a < buff_ptr (peer w) ->
  send_buffer (peer (Append_Record r w)) a = send_buffer (peer w) a.
Proof.
  intros Ha. destruct (Append_Record_fields r w) as (_ & _ & _ & _ & _ & _ & _ & _ & _ & ->).
  apply store_bytes_out. lia.
Qed.

(** Below the cursor, and outside the count and sequence fields of the
    header, [add_record] writes nothing but what closing the open flowset
    writes. *)
Lemma add_record_frame (r : master_record_t) (idx : nat) (t : outTemplate_t) (now : Z)
      (w : world) (ret : Z) (w' : world) (a : Z) :
  add_record r idx t now w = (ret, w') ->
  a < buff_ptr (peer w) ->
  (a < off_count \/ off_count + 2 <= a) ->
  (a < off_sequence \/ off_sequence + 4 <= a) ->
  (forall start, data_flowset (sender_data w) = Some start -> a < start + 2 \/ start + 4 <= a) ->
  send_buffer (peer w') a = send_buffer (peer w) a.
Proof.
  intros H Ha Hc Hs Hd. apply add_record_cases in H.
  destruct H as [(_ & _ & ->)|(_ & _ & ->)].
  - apply prepare_buffer_frame; auto.
  - cbn [set_templates peer]. apply Append_Record_frame. exact Ha.
Qed.

(** The bytes of the packet header that lie outside its count and sequence
    fields are, after a call, as the first-time setup left them. *)
Lemma Add_header_frame (U : Z) (tc : v9_field -> Z) (r : master_record_t) (now : Z)
      (w : world) (ret : Z) (w' : world) (a : Z) :
  Add_v9_output_record U tc r now w = Some (ret, w') ->
  numElements r <> 0 ->
  pointers_ok w ->
  a < sizeof_v9Header_t ->
  (a < off_count \/ off_count + 2 <= a) ->
  (a < off_sequence \/ off_sequence + 4 <= a) ->
  send_buffer (peer w') a = send_buffer (peer (entered r w)) a.
Proof.
  intros H Hne Hok Ha Hc Hs. apply Add_cases in H.
  destruct H as [(E & _)|(idx & ts & t & _ & Hg & Hn & Hcases)]; [contradiction|].
  destruct (entered_pointers_ok r w Hok) as (Hok1 & H20).
  assert (Hwf : Forall wf_template ts).
  { eapply GetOutputTemplate_wf; [exact Hg|]. apply Hok. }
  assert (Ht : wf_template t).
  { eapply Forall_forall; [exact Hwf|]. eapply nth_error_In. exact Hn. }
  pose proof (set_templates_pointers_ok ts _ Hok1 Hwf) as Hok2.
  destruct (CloseDataFlowset_pointers_ok _ Hok2) as (Hok3 & Hge).
  change (buff_ptr (peer (set_templates ts (entered r w))))
    with (buff_ptr (peer (entered r w))) in Hge.
  assert (Hclose : send_buffer (peer (CloseDataFlowset (set_templates ts (entered r w)))) a
                   = send_buffer (peer (entered r w)) a).
  { rewrite CloseDataFlowset_frame; [reflexivity|].
    intros start Hst. destruct Hok2 as (_ & _ & Hs2 & _).
    destruct (Hs2 start Hst) as (Hs21 & _ & _).
    change (buff_ptr (peer (set_templates ts (entered r w))))
      with (buff_ptr (peer (entered r w))). lia. }
  destruct Hcases as [(_ & _ & _ & ->)|[(_ & _ & Hadd)|(_ & Hadd)]].
  - rewrite prepare_buffer_frame; auto.
    intros start Hst. destruct Hok3 as (_ & _ & Hs3 & _).
    destruct (Hs3 start Hst) as (Hs31 & _ & _). lia.
  - destruct (open_data_flowset_pointers_ok tc idx t now _ Hok3 ltac:(lia) Ht) as (Hok4 & H20').
    rewrite (add_record_frame _ _ _ _ _ _ _ a Hadd); auto; try lia.
    + rewrite open_data_flowset_frame; auto; try lia. apply Ht.
    + intros start Hst. destruct Hok4 as (_ & _ & Hs4 & _).
      destruct (Hs4 start Hst) as (Hs41 & _ & _). lia.
  - rewrite (add_record_frame _ _ _ _ _ _ _ a Hadd); auto.
    + change (buff_ptr (peer (set_templates ts (entered r w))))
        with (buff_ptr (peer (entered r w))). lia.
    + intros start Hst. destruct Hok2 as (_ & _ & Hs2 & _).
      destruct (Hs2 start Hst) as (Hs21 & _ & _). lia.
Qed.

Lemma Close_v9_output_header_frame (w : world) (a : Z) :
  pointers_ok w ->
  a < sizeof_v9Header_t ->
  (a < off_count \/ off_count + 2 <= a) ->
  (a < off_sequence \/ off_sequence + 4 <= a) ->
  send_buffer (peer (snd (Close_v9_output w))) a = send_buffer (peer w) a.
Proof.
  intros Hok Ha Hc Hs. unfold Close_v9_output.
  destruct (0 <? u32 (hdr_record_count (sender_data w) + hdr_template_count (sender_data w)));
    cbn [snd]; auto.
  apply prepare_buffer_frame; auto.
  intros start Hst. destruct Hok as (_ & _ & Hs' & _).
  destruct (Hs' start Hst) as (H1 & _ & H3). unfold offsetof_data in H3. lia.
Qed.

(* ------------------------------------------------------------------ *)
(** ** The unix-seconds anchor                                          *)
(* ------------------------------------------------------------------ *)

Lemma Init_unix_secs (p : send_peer_t) : unix_secs (Init_v9_output p) = [0; 0; 0; 0].
Proof.
  unfold unix_secs, Init_v9_output. cbn [peer send_buffer].
  rewrite (read_bytes_ext _ (store_bytes
             (store_bytes (store_bytes (send_buffer p) off_version (be_bytes 2 9))
                          off_SysUptime (be_bytes 4 0))
             off_unix_secs (be_bytes 4 0))).
  - apply read_be_bytes.
  - intros x Hx. unfold off_source_id, off_count, off_unix_secs in *.
    do 2 (rewrite (store_bytes_out (be_bytes _ _) _ _ x) by (rewrite length_be_bytes; lia)).
    reflexivity.
Qed.

Lemma Later_Reachable (U : Z) (tc : v9_field -> Z) (w0 w : world) :
  Reachable U tc w0 -> Later U tc w0 w -> Reachable U tc w.
Proof.
  intros H0 H. induction H as [|w r now ret w' _ IH Hf Ha|w _ IH Hf|w _ IH Hf].
  - exact H0.
  - exact (reach_add U tc w r now ret w' IH Hf Ha).
  - exact (reach_close U tc w IH Hf).
  - exact (reach_flush U tc w IH Hf).
Qed.

(** A record without extensions leaves the world as it is. *)
Lemma Add_no_extensions (U : Z) (tc : v9_field -> Z) (r : master_record_t) (now ret : Z)
      (w w' : world) :
  numElements r = 0 ->
  Add_v9_output_record U tc r now w = Some (ret, w') -> ret = 0 /\ w' = w.
Proof.
  intros E H. unfold Add_v9_output_record in H. rewrite E in H.
  change (0 =? 0) with true in H. cbv iota in H.
  apply Some_eq_inv in H. split; congruence.
Qed.

(** What a call with a record that has extensions does to the anchor. *)
Lemma Add_unix_secs (U : Z) (tc : v9_field -> Z) (r : master_record_t) (now ret : Z)
      (w w' : world) :
  Reachable U tc w ->
  Add_v9_output_record U tc r now w = Some (ret, w') ->
  numElements r <> 0 ->
  unix_secs w'
  = if be_value (unix_secs w) =? 0 then be_bytes 4 (anchor_of r) else unix_secs w.
Proof.
  intros Hr Ha Hne. destruct (Reachable_pointers_ok U tc w Hr) as (Hok & _).
  rewrite <- entered_unix_secs.
  unfold unix_secs. apply read_bytes_ext. intros x Hx.
  eapply Add_header_frame; eauto;
    unfold off_unix_secs, sizeof_v9Header_t, off_count, off_sequence in *; lia.
Qed.

Lemma Close_unix_secs (U : Z) (tc : v9_field -> Z) (w : world) :
  Reachable U tc w -> unix_secs (snd (Close_v9_output w)) = unix_secs w.
Proof.
  intros Hr. destruct (Reachable_pointers_ok U tc w Hr) as (Hok & _).
  unfold unix_secs. apply read_bytes_ext. intros x Hx.
  apply Close_v9_output_header_frame; auto;
    unfold off_unix_secs, sizeof_v9Header_t, off_count, off_sequence in *; lia.
Qed.

(** An anchor that is not zero stays through the calls that follow. *)
Lemma Later_unix_secs (U : Z) (tc : v9_field -> Z) (w w' : world) :
  Reachable U tc w -> Later U tc w w' ->
  be_value (unix_secs w) <> 0 -> unix_secs w' = unix_secs w.
Proof.
  intros Hr Hl Hnz.
  induction Hl as [|w1 r now ret w2 Hl IH Hf Ha|w1 Hl IH Hf|w1 Hl IH Hf].
  - reflexivity.
  - pose proof (Later_Reachable U tc w w1 Hr Hl) as Hr1.
    destruct (Z.eq_dec (numElements r) 0) as [E|E].
    + destruct (Add_no_extensions U tc r now ret w1 w2 E Ha) as (_ & ->). exact IH.
    + rewrite (Add_unix_secs U tc r now ret w1 w2 Hr1 Ha E), IH.
      apply Z.eqb_neq in Hnz. rewrite Hnz. reflexivity.
  - pose proof (Later_Reachable U tc w w1 Hr Hl) as Hr1.
    rewrite (Close_unix_secs U tc w1 Hr1). exact IH.
  - exact IH.
Qed.

(** C6 (amended): the unix-seconds field of the header is zero after
    [Init_v9_output].  A call of [Add_v9_output_record] with a record that
    has extensions sets it, to the record's start time minus 86400 seconds,
    when and only when the field reads zero; a field that is not zero is
    left as it is, and a record without extensions changes nothing.
    [Close_v9_output] and the flush of the buffer never change the field.
    So an anchor that is not zero stays through every later call of the
    session: the packets that follow a closed packet keep it and take no
    anchor from their own first record. *)
Theorem unix_secs_set_while_zero (U : Z) (tc : v9_field -> Z) (w : world) :
  Reachable U tc w ->
  (forall p : send_peer_t, unix_secs (Init_v9_output p) = [0; 0; 0; 0])
  /\ (forall (r : master_record_t) (now ret : Z) (w' : world),
         Add_v9_output_record U tc r now w = Some (ret, w') ->
         (numElements r = 0 -> w' = w)
         /\ (numElements r <> 0 -> be_value (unix_secs w) = 0 ->
             unix_secs w' = be_bytes 4 (anchor_of r))
         /\ (numElements r <> 0 -> be_value (unix_secs w) <> 0 ->
             unix_secs w' = unix_secs w))
  /\ unix_secs (snd (Close_v9_output w)) = unix_secs w
  /\ unix_secs (flush_buffer w) = unix_secs w
  /\ (forall w' : world,
         Later U tc w w' -> be_value (unix_secs w) <> 0 -> unix_secs w' = unix_secs w).
Proof.
  intros Hr. splits.
  - apply Init_unix_secs.
  - intros r now ret w' Ha. splits.
    + intros E. apply (Add_no_extensions U tc r now ret w w' E Ha).
    + intros Hne Hz. rewrite (Add_unix_secs U tc r now ret w w' Hr Ha Hne).
      apply Z.eqb_eq in Hz. rewrite Hz. reflexivity.
    + intros Hne Hz. rewrite (Add_unix_secs U tc r now ret w w' Hr Ha Hne).
      apply Z.eqb_neq in Hz. rewrite Hz. reflexivity.
  - apply (Close_unix_secs U tc w Hr).
  - reflexivity.
  - intros w' Hl Hnz. apply (Later_unix_secs U tc w w' Hr Hl Hnz).
Qed.

Lemma tcp_record_added_first :
  Add_v9_output_record 1472 sample_codes tcp_record 100 sample_world = Some (0, one_record_world).
Proof. vm_compute. reflexivity. Qed.

Lemma second_packet_world_later : Later 1472 sample_codes one_record_world second_packet_world.
Proof.
  apply (later_add 1472 sample_codes one_record_world
           (flush_buffer (snd (Close_v9_output one_record_world))) late_record 200 0).
  - apply later_flush; [|vm_compute; discriminate].
    apply later_close; [apply later_now|reflexivity].
  - reflexivity.
  - vm_compute. reflexivity.
Qed.

(** The first record of the session sets the anchor, 1000000000 - 86400
    seconds; the record that opens the second packet, whose flow starts
    1000000000 seconds later, finds it set and leaves it. *)
Lemma unix_secs_set_while_zero_witness :
  be_value (unix_secs one_record_world) = 1000000000 - 86400
  /\ unix_secs second_packet_world = unix_secs one_record_world.
Proof.
  split.
  - destruct (unix_secs_set_while_zero 1472 sample_codes sample_world
                (reach_init 1472 sample_codes sample_peer)) as (_ & Hadd & _).
    destruct (Hadd tcp_record 100 0 one_record_world tcp_record_added_first) as (_ & Hset & _).
    rewrite Hset; vm_compute; [reflexivity|discriminate|reflexivity].
  - destruct (unix_secs_set_while_zero 1472 sample_codes one_record_world
                (reach_add 1472 sample_codes sample_world tcp_record 100 0 one_record_world
                   (reach_init 1472 sample_codes sample_peer) eq_refl tcp_record_added_first))
      as (_ & _ & _ & _ & Hlater).
    apply Hlater; [exact second_packet_world_later|].
    vm_compute. discriminate.
Defined.

(** The field reads zero again behind a record whose flow starts exactly one
    day after the epoch: its anchor is zero, and the record that follows
    sets the anchor of its own. *)
Remark unix_secs_zero_anchor :
  exists w1 w2 : world,
    Add_v9_output_record 1472 sample_codes day_one_record 100 sample_world = Some (0, w1)
    /\ unix_secs w1 = [0; 0; 0; 0]
    /\ Add_v9_output_record 1472 sample_codes tcp_record 101 w1 = Some (0, w2)
    /\ unix_secs w2 = be_bytes 4 (anchor_of tcp_record).
Proof.
  eexists. eexists. split; [vm_compute; reflexivity|].
  split; [vm_compute; reflexivity|].
  split; vm_compute; reflexivity.
Qed.

(** C6 (counterexample): a packet with one record (start time
    1000000000000 ms) is closed and flushed; the first record of the next
    packet starts at 2000000000000 ms.  The header of the second packet
    still carries the anchor of the first record, not the one of its own
    first record. *)
Lemma unix_secs_kept_by_next_packet :
  Close_v9_output one_record_world = (1, snd (Close_v9_output one_record_world))
  /\ Add_v9_output_record 1472 sample_codes late_record 200
       (flush_buffer (snd (Close_v9_output one_record_world)))
     = Some (0, second_packet_world)
  /\ hdr_sequence (sender_data second_packet_world) = 1
  /\ hdr_record_count (sender_data second_packet_world) = 1
  /\ unix_secs second_packet_world = be_bytes 4 (anchor_of tcp_record)
  /\ unix_secs second_packet_world <> be_bytes 4 (anchor_of late_record).
Proof.
  splits; try (vm_compute; reflexivity).
  vm_compute. discriminate.
Qed.

(* ------------------------------------------------------------------ *)
(** ** Ports and ICMP in the generic-flow group                         *)
(* ------------------------------------------------------------------ *)

Ltac build_fields :=
  cbn [template_extension add_fields fold_left add_length add_field set_mask_types
       b_field b_count b_record_length b_srcMaskType b_dstMaskType fst snd];
  repeat rewrite <- app_assoc; simpl app.

Lemma written_record_bytes (r : master_record_t) (w : world) :
  written_record r w = record_bytes r.
Proof.
  unfold written_record.
  destruct (Append_Record_fields r w) as (-> & _ & _ & _ & _ & _ & _ & _ & _ & ->).
  replace (buff_ptr (peer w) + Z.of_nat (length (record_bytes r)) - buff_ptr (peer w))
    with (Z.of_nat (length (record_bytes r))) by lia.
  rewrite Nat2Z.id, read_bytes_store_bytes.
  apply map_u8_range, record_bytes_range.
Qed.

Lemma template_extension_fields (e : ext_id) (b : build_t) :
  exists F : list field_t, b_field (template_extension e b) = b_field b ++ F.
Proof.
  destruct e; build_fields;
    try (eexists; reflexivity); exists []; symmetry; apply app_nil_r.
Qed.

Lemma template_loop_fields : forall (l : list ext_id) (b b' : build_t),
  template_loop l b = returns b' -> exists F : list field_t, b_field b' = b_field b ++ F.
Proof.
  induction l as [|e l IH]; intros b b' H.
  - apply returns_eq_inv in H. subst b'. exists []. symmetry. apply app_nil_r.
  - apply template_loop_cons_returns in H. destruct H as (_ & _ & H).
    apply IH in H. destruct H as (F' & HF').
    destruct (template_extension_fields e b) as (F & HF).
    exists (F ++ F'). rewrite HF', HF, app_assoc. reflexivity.
Qed.

Lemma template_extension_masks_ok (e : ext_id) (b : build_t) :
  masks_ok b -> masks_ok (template_extension e b).
Proof.
  unfold masks_ok. intros H.
  destruct e;
    cbn [template_extension add_fields fold_left add_length add_field set_mask_types
         b_srcMaskType b_dstMaskType]; auto.
Qed.

(** An extension other than the generic-flow group has no port field, and a
    collector that reads its fields skips exactly its bytes. *)
Lemma template_extension_other (r : master_record_t) (e : ext_id) (b : build_t)
      (ty : field_type) :
  e <> EXgenericFlowID -> is_port_type ty -> masks_ok b ->
  exists F : list field_t,
    b_field (template_extension e b) = b_field b ++ F
    /\ forall (L' : list field_t) (B' : list Z),
         wire_field ty (F ++ L') (extension_bytes r e ++ B') = wire_field ty L' B'.
Proof.
  intros He Hty (Hs & Hd).
  destruct e; try contradiction; build_fields;
    try (eexists; split; [reflexivity|]);
    try (exists []; split; [symmetry; apply app_nil_r|reflexivity]).
  all: destruct Hty as [Et|[Et|Et]]; subst ty.
  all: try (destruct Hs as [Es|[Es|Es]]; destruct Hd as [Ed|[Ed|Ed]]; rewrite Es, Ed).
  all: intros L' B'; simpl; reflexivity.
Qed.

(** The generic-flow group on the wire. *)
Lemma template_extension_generic (r : master_record_t) (b : build_t) :
  exists F : list field_t,
    b_field (template_extension EXgenericFlowID b) = b_field b ++ F
    /\ forall (L' : list field_t) (B' : list Z),
         wire_field (Some NF9_L4_SRC_PORT) (F ++ L') (extension_bytes r EXgenericFlowID ++ B')
         = Some (be_bytes 2 (srcPort r))
         /\ wire_field (Some NF9_L4_DST_PORT) (F ++ L') (extension_bytes r EXgenericFlowID ++ B')
            = Some (if is_icmp r then be_bytes 2 0 else be_bytes 2 (dstPort r))
         /\ wire_field (Some NF9_ICMP) (F ++ L') (extension_bytes r EXgenericFlowID ++ B')
            = Some (if is_icmp r then be_bytes 2 (dstPort r) else be_bytes 2 0).
Proof.
  build_fields. eexists. split; [reflexivity|].
  intros L' B'. unfold extension_bytes. destruct (is_icmp r); simpl; repeat split; reflexivity.
Qed.

Lemma template_loop_ports (r : master_record_t) : forall (l : list ext_id) (b b' : build_t),
  template_loop l b = returns b' -> masks_ok b -> In EXgenericFlowID l ->
  exists F : list field_t,
    b_field b' = b_field b ++ F
    /\ forall (L' : list field_t) (B' : list Z),
         wire_field (Some NF9_L4_SRC_PORT) (F ++ L') (flat_map (extension_bytes r) l ++ B')
         = Some (be_bytes 2 (srcPort r))
         /\ wire_field (Some NF9_L4_DST_PORT) (F ++ L') (flat_map (extension_bytes r) l ++ B')
            = Some (if is_icmp r then be_bytes 2 0 else be_bytes 2 (dstPort r))
         /\ wire_field (Some NF9_ICMP) (F ++ L') (flat_map (extension_bytes r) l ++ B')
            = Some (if is_icmp r then be_bytes 2 (dstPort r) else be_bytes 2 0).
Proof.
  induction l as [|e l IH]; intros b b' H Hm Hin; [contradiction|].
  apply template_loop_cons_returns in H. destruct H as (_ & _ & H).
  destruct (ext_id_eq_dec e EXgenericFlowID) as [->|Hne].
  - destruct (template_extension_generic r b) as (F & HF & Hw).
    apply template_loop_fields in H. destruct H as (F' & HF').
    exists (F ++ F'). split; [rewrite HF', HF, app_assoc; reflexivity|].
    intros L' B'. cbn [flat_map].
    rewrite <- (app_assoc F F' L'), <- (app_assoc (extension_bytes r EXgenericFlowID) _ B').
    apply Hw.
  - assert (Hin' : In EXgenericFlowID l) by (destruct Hin; [congruence|assumption]).
    destruct (IH _ _ H (template_extension_masks_ok e b Hm) Hin') as (F' & HF' & Hw').
    destruct (template_extension_other r e b (Some NF9_L4_SRC_PORT) Hne
                (or_introl eq_refl) Hm) as (F1 & HF1 & Hs1).
    destruct (template_extension_other r e b (Some NF9_L4_DST_PORT) Hne
                (or_intror (or_introl eq_refl)) Hm) as (F2 & HF2 & Hs2).
    destruct (template_extension_other r e b (Some NF9_ICMP) Hne
                (or_intror (or_intror eq_refl)) Hm) as (F3 & HF3 & Hs3).
    assert (F2 = F1) by (rewrite HF1 in HF2; apply app_inv_head in HF2; congruence).
    assert (F3 = F1) by (rewrite HF1 in HF3; apply app_inv_head in HF3; congruence).
    subst F2 F3.
    exists (F1 ++ F'). split; [rewrite HF', HF1, app_assoc; reflexivity|].
    intros L' B'. cbn [flat_map].
    rewrite <- (app_assoc F1 F' L'), <- (app_assoc (extension_bytes r e) _ B').
    rewrite Hs1, Hs2, Hs3. apply Hw'.
Qed.

Lemma new_template_fields (U : Z) (r : master_record_t) (tid : Z) (t : outTemplate_t) :
  new_template U r tid = Some t ->
  exists b : build_t,
    template_loop (mr_exElementList r) build_init = returns b
    /\ tf_field (template_flowset t) = b_field b ++ [mkField None 0].
Proof.
  intros H. apply new_template_inv in H. destruct H as (b & Hl & _ & H).
  cbv zeta in H.
  match type of H with (if ?c then _ else _) = _ => destruct c end; [discriminate|].
  apply Some_eq_inv in H. subst t. exists b. split; [exact Hl|reflexivity].
Qed.

(** C5 (amended): for every record with the generic-flow extension whose
    template the builder completes, the bytes [Append_Record] writes carry,
    at the wire position of the template's source-port field, the source
    port of the record whatever the protocol; for ICMP and ICMPv6 the
    destination-port position is zero and the position of the ICMP type
    field that follows it carries the record's [dstPort] (the ICMP type and
    code); for any other protocol the destination-port position carries the
    destination port and the ICMP position is zero. *)
Theorem generic_flow_ports_on_the_wire
        (U : Z) (r : master_record_t) (tid : Z) (t : outTemplate_t) (w : world) :
  new_template U r tid = Some t ->
  In EXgenericFlowID (mr_exElementList r) ->
  wire_field (Some NF9_L4_SRC_PORT) (tf_field (template_flowset t)) (written_record r w)
  = Some (be_bytes 2 (srcPort r))
  /\ wire_field (Some NF9_L4_DST_PORT) (tf_field (template_flowset t)) (written_record r w)
     = Some (if is_icmp r then be_bytes 2 0 else be_bytes 2 (dstPort r))
  /\ wire_field (Some NF9_ICMP) (tf_field (template_flowset t)) (written_record r w)
     = Some (if is_icmp r then be_bytes 2 (dstPort r) else be_bytes 2 0).
Proof.
  intros Hn Hin. rewrite written_record_bytes.
  apply new_template_fields in Hn. destruct Hn as (b & Hl & Hf).
  assert (Hm : masks_ok build_init) by (split; left; reflexivity).
  destruct (template_loop_ports r _ _ _ Hl Hm Hin) as (F & HF & Hw).
  rewrite Hf, HF. destruct build_init_fields as (-> & _ & _).
  unfold record_bytes.
  specialize (Hw [mkField None 0] []). rewrite app_nil_r in Hw.
  rewrite <- app_assoc. simpl. exact Hw.
Qed.

Lemma generic_flow_ports_on_the_wire_witness :
  wire_field (Some NF9_L4_DST_PORT) (tf_field (template_flowset tcp_template))
             (written_record tcp_record sample_world)
  = Some (if is_icmp tcp_record then be_bytes 2 0 else be_bytes 2 (dstPort tcp_record)).
Proof.
  assert (Hin : In EXgenericFlowID (mr_exElementList tcp_record)) by (left; reflexivity).
  exact (proj1 (proj2 (generic_flow_ports_on_the_wire 1472 tcp_record 0 tcp_template
                         sample_world tcp_template_built Hin))).
Defined.

(** C5 (counterexample): an ICMP record with source port 4660 (bytes 18 52)
    and type/code 2048 (bytes 8 0).  On the wire the source-port position
    holds 18 52, not zero, and the destination-port position holds zero,
    not the type and code; these sit in the ICMP type field. *)
Lemma icmp_record_ports_on_the_wire :
  is_icmp icmp_record = true
  /\ srcPort icmp_record = 4660 /\ dstPort icmp_record = 2048
  /\ exists t : outTemplate_t,
       new_template 1472 icmp_record 0 = Some t
       /\ wire_field (Some NF9_L4_SRC_PORT) (tf_field (template_flowset t))
                     (written_record icmp_record sample_world) = Some [18; 52]
       /\ wire_field (Some NF9_L4_DST_PORT) (tf_field (template_flowset t))
                     (written_record icmp_record sample_world) = Some [0; 0]
       /\ wire_field (Some NF9_ICMP) (tf_field (template_flowset t))
                     (written_record icmp_record sample_world) = Some [8; 0].
Proof.
  splits; try reflexivity.
  eexists. split; [vm_compute; reflexivity|].
  splits; vm_compute; reflexivity.
Qed.

(* ------------------------------------------------------------------ *)
(** ** Flush required                                                   *)
(* ------------------------------------------------------------------ *)

Lemma search_template_app_miss (r : master_record_t) (l : list outTemplate_t) :
  forall (ts : list outTemplate_t) (idx : nat) (tid : Z),
    Forall (fun t => size t <> mr_size r \/ numExtensions t <> numElements r) ts ->
    search_template r (ts ++ l) idx tid
    = search_template r l (idx + length ts) (last (map template_id ts) tid).
Proof.
  induction ts as [|t ts IH]; intros idx tid H.
  - simpl. rewrite Nat.add_0_r. reflexivity.
  - inversion H as [|? ? Ht Hts]; subst. simpl app. simpl search_template.
    assert (E : (size t =? mr_size r) && (numExtensions t =? numElements r) = false).
    { apply andb_false_iff. destruct Ht as [Ht|Ht]; [left|right]; apply Z.eqb_neq; exact Ht. }
    rewrite E, IH by exact Hts. simpl length.
    replace (S idx + length ts)%nat with (idx + S (length ts))%nat by lia.
    f_equal. simpl map. destruct (map template_id ts) as [|z zs]; [reflexivity|].
    change (last (template_id t :: z :: zs) tid) with (last (z :: zs) tid).
    apply last_cons_default.
Qed.

(** A second lookup of the same record returns the same descriptor and
    creates nothing. *)
Lemma GetOutputTemplate_again (U : Z) (r : master_record_t) (ts0 ts : list outTemplate_t)
      (idx : nat) :
  GetOutputTemplate U r ts0 = Some (idx, ts) -> GetOutputTemplate U r ts = Some (idx, ts).
Proof.
  intros H. pose proof H as H'. apply GetOutputTemplate_cases in H'.
  destruct H' as [(-> & _)|(t & -> & -> & Hn & Hall)]; [exact H|].
  unfold GetOutputTemplate. rewrite search_template_app_miss by exact Hall.
  apply new_template_spec in Hn.
  destruct Hn as (_ & _ & _ & _ & _ & _ & _ & Hs & Hne & _).
  simpl search_template. rewrite Hs, Hne, !Z.eqb_refl. cbn [andb].
  destruct (list_eq_dec ext_id_eq_dec (exElementList t) (mr_exElementList r)); reflexivity.
Qed.

(** The world a call leaves when it asks for a flush. *)
Lemma Add_flush_required (U : Z) (tc : v9_field -> Z) (r : master_record_t) (now : Z)
      (w : world) (ret : Z) (w' : world) :
  Add_v9_output_record U tc r now w = Some (ret, w') ->
  ret <> 0 -> Forall wf_template (outTemplates w) ->
  exists (idx : nat) (ts : list outTemplate_t) (t : outTemplate_t),
    numElements r <> 0
    /\ GetOutputTemplate U r (outTemplates w) = Some (idx, ts)
    /\ nth_error ts idx = Some t
    /\ wf_template t
    /\ ret = 1
    /\ (w' = prepare_buffer (CloseDataFlowset (set_templates ts (entered r w)))
        \/ w' = prepare_buffer (set_templates ts (entered r w))).
Proof.
  intros H Hret Hok. apply Add_cases in H.
  destruct H as [(_ & E & _)|(idx & ts & t & Hne & Hg & Hn & Hc)]; [contradiction|].
  assert (Hwf : Forall wf_template ts).
  { eapply GetOutputTemplate_wf; [exact Hg|]. exact Hok. }
  assert (Ht : wf_template t).
  { eapply Forall_forall; [exact Hwf|]. eapply nth_error_In. exact Hn. }
  exists idx, ts, t. splits; auto.
  - destruct Hc as [(_ & _ & -> & _)|[(_ & _ & Ha)|(_ & Ha)]]; auto;
      apply add_record_cases in Ha; destruct Ha as [(_ & -> & _)|(_ & -> & _)];
      auto; contradiction.
  - destruct Hc as [(_ & _ & _ & ->)|[(_ & Hcap & Ha)|(_ & Ha)]]; auto.
    + exfalso. apply add_record_cases in Ha.
      destruct Ha as [(Hlt & _ & _)|(_ & -> & _)]; [|contradiction].
      destruct (open_data_flowset_fields tc idx t now
                  (CloseDataFlowset (set_templates ts (entered r w))))
        as (E1 & E2 & _).
      rewrite E1, E2 in Hlt.
      destruct (CloseDataFlowset_sender (set_templates ts (entered r w)))
        as (_ & _ & _ & _ & _ & _ & He & _).
      destruct (entered_fields r w) as (_ & Ee & _).
      cbn [set_templates peer] in He. rewrite He, Ee in Hlt.
      destruct Ht as (Hr0 & Hf0 & _).
      unfold sizeof_data_flowset_t, offsetof_data in *. lia.
    + apply add_record_cases in Ha.
      destruct Ha as [(_ & _ & ->)|(_ & -> & _)]; [auto|contradiction].
Qed.

(** The retry after the flush: with room for the header, the template
    flowset, [sizeof(data_flowset_t)] and the record, the call appends the
    record. *)
Lemma Add_after_flush (U : Z) (tc : v9_field -> Z) (r : master_record_t) (now : Z)
      (w : world) (idx : nat) (t : outTemplate_t) :
  numElements r <> 0 ->
  GetOutputTemplate U r (outTemplates w) = Some (idx, outTemplates w) ->
  nth_error (outTemplates w) idx = Some t ->
  wf_template t ->
  buff_ptr (peer w) = 0 ->
  data_flowset (sender_data w) = None ->
  sizeof_v9Header_t + record_length t + sizeof_data_flowset_t + flowset_length t <= endp (peer w) ->
  exists w' : world,
    Add_v9_output_record U tc r now w = Some (0, w')
    /\ hdr_record_count (sender_data w') = u32 (hdr_record_count (sender_data w) + 1)
    /\ buff_ptr (peer w')
       = sizeof_v9Header_t
         + (if starts_flowset t w then flowset_length t + offsetof_data else 0)
         + Z.of_nat (length (record_bytes r)).
Proof.
  intros Hne Hg Hn (Hr0 & Hf0 & _) Hp Hd Hcap.
  unfold Add_v9_output_record.
  destruct (Z.eqb_spec (numElements r) 0) as [E|_]; [contradiction|].
  fold (entered r w). cbv zeta.
  change (outTemplates (entered r w)) with (outTemplates w). rewrite Hg, Hn.
  destruct (entered_fields r w) as (Ep & Ee & Ef & Es & Et).
  rewrite Hp in Ep. cbn [Z.eqb] in Ep.
  change (data_flowset_id (sender_data (set_templates (outTemplates w) (entered r w))))
    with (data_flowset_id (sender_data (entered r w))).
  rewrite Es. fold (starts_flowset t w).
  set (X := set_templates (outTemplates w) (entered r w)).
  assert (Xp : buff_ptr (peer X) = 20) by exact Ep.
  assert (Xe : endp (peer X) = endp (peer w)) by exact Ee.
  assert (Xs : sender_data X = sender_data w) by exact Es.
  unfold sizeof_v9Header_t, sizeof_data_flowset_t, offsetof_data in *.
  destruct (starts_flowset t w).
  - rewrite CloseDataFlowset_closed by (rewrite Xs; exact Hd).
    unfold CheckSendBufferSpace at 1. rewrite Xp, Xe.
    destruct (Z.ltb_spec (endp (peer w)) (20 + (record_length t + 8 + flowset_length t)));
      [lia|]. cbn [Z.eqb].
    destruct (open_data_flowset_fields tc idx t now X) as (O1 & O2 & _ & _ & _ & O6 & _).
    rewrite Xp in O1. rewrite Xe in O2. rewrite Xs in O6.
    unfold add_record, CheckSendBufferSpace. rewrite O1, O2.
    unfold offsetof_data.
    destruct (Z.ltb_spec (endp (peer w)) (20 + flowset_length t + 4 + record_length t));
      [lia|]. cbn [Z.eqb].
    eexists. split; [reflexivity|].
    cbn [set_templates sender_data peer].
    destruct (Append_Record_fields r (open_data_flowset tc idx t now X))
      as (A1 & _ & _ & _ & _ & A6 & _).
    rewrite A1, A6, O1, O6. unfold offsetof_data. split; [reflexivity|lia].
  - unfold add_record, CheckSendBufferSpace. rewrite Xp, Xe.
    destruct (Z.ltb_spec (endp (peer w)) (20 + record_length t)); [lia|]. cbn [Z.eqb].
    eexists. split; [reflexivity|].
    cbn [set_templates sender_data peer].
    destruct (Append_Record_fields r X) as (A1 & _ & _ & _ & _ & A6 & _).
    rewrite A1, A6, Xp, Xs. split; [reflexivity|lia].
Qed.

(** C4 (amended): in every world of a session, a call of
    [Add_v9_output_record] that finds too little room returns 1 with the
    flush flag raised and writes neither bytes of the record nor bytes of a
    template: the record is not counted, the descriptors are the ones the
    lookup left, the flowset is closed, the cursor has moved at most over the
    padding of the flowset that was open, and every byte of the buffer
    outside the header fields count, unix-seconds and sequence and outside
    the length field and the padding of that flowset is as before.  When the
    buffer has room for the header, the template flowset,
    [sizeof(data_flowset_t)] and the record, the same call after the
    caller's flush returns 0 and appends the record. *)
Theorem Add_flush_required_writes_no_record
        (U : Z) (tc : v9_field -> Z) (r : master_record_t) (now : Z)
        (w : world) (ret : Z) (w' : world) :
  Reachable U tc w ->
  Add_v9_output_record U tc r now w = Some (ret, w') ->
  ret <> 0 ->
  ret = 1
  /\ flush (peer w') = 1
  /\ hdr_record_count (sender_data w') = 0
  /\ hdr_template_count (sender_data w') = 0
  /\ data_flowset (sender_data w') = None
  /\ (exists idx, GetOutputTemplate U r (outTemplates w) = Some (idx, outTemplates w'))
  /\ buff_ptr (peer (entered r w)) <= buff_ptr (peer w') <= buff_ptr (peer (entered r w)) + 3
  /\ (data_flowset (sender_data w) = None -> buff_ptr (peer w') = buff_ptr (peer (entered r w)))
  /\ (forall a : Z,
        (a < off_count \/ off_count + 2 <= a) ->
        (a < off_unix_secs \/ off_sequence + 4 <= a) ->
        (forall start, data_flowset (sender_data w) = Some start ->
           (a < start + 2 \/ start + 4 <= a)
           /\ (a < buff_ptr (peer (entered r w)) \/ buff_ptr (peer (entered r w)) + 3 <= a)) ->
        send_buffer (peer w') a = send_buffer (peer w) a)
  /\ (forall (now' : Z) (idx : nat) (ts : list outTemplate_t) (t : outTemplate_t),
        GetOutputTemplate U r (outTemplates w) = Some (idx, ts) ->
        nth_error ts idx = Some t ->
        sizeof_v9Header_t + record_length t + sizeof_data_flowset_t + flowset_length t
          <= endp (peer w) ->
        exists w'' : world,
          Add_v9_output_record U tc r now' (flush_buffer w') = Some (0, w'')
          /\ hdr_record_count (sender_data w'') = 1).
Proof.
  intros Hr Ha Hret.
  destruct (Reachable_pointers_ok U tc w Hr) as (Hok & _).
  destruct (Add_flush_required U tc r now w ret w' Ha Hret ltac:(apply Hok))
    as (idx & ts & t & Hne & Hg & Hn & Hwf & E1 & Hw').
  set (X := set_templates ts (entered r w)) in *.
  destruct (entered_fields r w) as (Ep & Ee & Ef & Es & Et).
  assert (Xs : sender_data X = sender_data w) by exact Es.
  assert (Xp : buff_ptr (peer X) = buff_ptr (peer (entered r w))) by reflexivity.
  assert (Xb : send_buffer (peer X) = send_buffer (peer (entered r w))) by reflexivity.
  destruct (CloseDataFlowset_sender X) as (C1 & _ & C3 & C4 & C5 & C6 & C7 & C8).
  (* the cursor after closing *)
  assert (Hclose : buff_ptr (peer X) <= buff_ptr (peer (CloseDataFlowset X)) <= buff_ptr (peer X) + 3
                   /\ (data_flowset (sender_data w) = None ->
                       buff_ptr (peer (CloseDataFlowset X)) = buff_ptr (peer X))).
  { destruct (data_flowset (sender_data X)) as [start|] eqn:Hd.
    - rewrite (CloseDataFlowset_open X start Hd). cbv zeta. cbn [peer buff_ptr].
      assert (0 <= u32 (buff_ptr (peer X) - start) mod 4 < 4) by (apply Z.mod_pos_bound; lia).
      split; [lia|]. rewrite <- Xs, Hd. discriminate.
    - rewrite (CloseDataFlowset_closed X Hd). split; [lia|reflexivity]. }
  assert (Hptr : buff_ptr (peer w') = buff_ptr (peer (CloseDataFlowset X))).
  { destruct Hw' as [-> | ->]; rewrite prepare_buffer_buff_ptr; [|reflexivity].
    rewrite (CloseDataFlowset_closed (CloseDataFlowset X)) by exact C1. reflexivity. }
  assert (Hts : outTemplates w' = ts).
  { destruct Hw' as [-> | ->]; rewrite prepare_buffer_templates; [rewrite C6|]; reflexivity. }
  assert (Hflds : flush (peer w') = 1 /\ hdr_record_count (sender_data w') = 0
                  /\ hdr_template_count (sender_data w') = 0
                  /\ data_flowset (sender_data w') = None
                  /\ endp (peer w') = endp (peer w)).
  { destruct Hw' as [-> | ->].
    - destruct (prepare_buffer_fields (CloseDataFlowset X)) as (F1 & F2 & _ & F4 & F5 & F6 & _).
      splits; auto. rewrite F2, C7. exact Ee.
    - destruct (prepare_buffer_fields X) as (F1 & F2 & _ & F4 & F5 & F6 & _).
      splits; auto. rewrite F2. exact Ee. }
  destruct Hflds as (G1 & G2 & G3 & G4 & G5).
  splits; auto.
  - exists idx. rewrite Hts. exact Hg.
  - rewrite Hptr, <- Xp. apply Hclose.
  - rewrite Hptr, <- Xp. apply Hclose.
  - rewrite Hptr, <- Xp. apply Hclose.
  - intros a Hc Hu Hf.
    assert (Hx : send_buffer (peer X) a = send_buffer (peer w) a).
    { rewrite Xb. apply entered_frame. unfold off_unix_secs, off_sequence in *. lia. }
    assert (Hcl : send_buffer (peer (CloseDataFlowset X)) a = send_buffer (peer X) a).
    { apply CloseDataFlowset_frame. intros start Hst. rewrite Xs in Hst. rewrite Xp.
      apply Hf. exact Hst. }
    rewrite <- Hx. destruct Hw' as [-> | ->].
    + rewrite prepare_buffer_frame; auto;
        try (unfold off_unix_secs, off_sequence in *; lia);
        try (intros start Hst; rewrite C1 in Hst; discriminate).
    + rewrite prepare_buffer_frame; auto;
        try (unfold off_unix_secs, off_sequence in *; lia);
        try (intros start Hst; rewrite Xs in Hst; rewrite Xp; apply Hf; exact Hst).
  - intros now' idx' ts' t' Hg' Hn' Hcap.
    assert (idx' = idx /\ ts' = ts) as [-> ->] by (split; congruence).
    assert (t' = t) by congruence. subst t'.
    destruct (Add_after_flush U tc r now' (flush_buffer w') idx t) as (w'' & A1 & A2 & _); auto.
    + cbn [flush_buffer set_peer outTemplates]. rewrite Hts.
      eapply GetOutputTemplate_again. exact Hg.
    + cbn [flush_buffer set_peer outTemplates]. rewrite Hts. exact Hn.
    + cbn [flush_buffer set_peer peer endp]. rewrite G5. exact Hcap.
    + exists w''. split; [exact A1|].
      rewrite A2. cbn [flush_buffer set_peer sender_data]. rewrite G2. reflexivity.
Qed.

Lemma small_two_reachable : Reachable 1472 sample_codes small_two.
Proof.
  apply (reach_add 1472 sample_codes small_one tcp_record 100 0 small_two).
  - apply (reach_add 1472 sample_codes (Init_v9_output small_peer) tcp_record 100 0 small_one).
    + apply reach_init.
    + reflexivity.
    + vm_compute. reflexivity.
  - vm_compute. reflexivity.
  - vm_compute. reflexivity.
Qed.

Lemma small_three_flush_required :
  Add_v9_output_record 1472 sample_codes tcp_record 100 small_two = Some (1, small_three).
Proof. vm_compute. reflexivity. Qed.

Lemma Add_flush_required_writes_no_record_witness :
  flush (peer small_three) = 1
  /\ hdr_record_count (sender_data small_three) = 0
  /\ buff_ptr (peer small_three) = 196.
Proof.
  assert (Hret : 1 <> 0) by discriminate.
  destruct (Add_flush_required_writes_no_record 1472 sample_codes tcp_record 100
              small_two 1 small_three small_two_reachable small_three_flush_required Hret)
    as (_ & H1 & H2 & _).
  split; [exact H1|]. split; [exact H2|]. vm_compute. reflexivity.
Defined.

(** C4 (counterexample): with two records in a buffer of 200 bytes the third
    call finds too little room and returns 1.  It has written into the
    buffer: the header's count field now reads 3 and its sequence field 1.
    And on a buffer of 100 bytes, which cannot hold the template and the
    record, the call after the caller's flush asks for a flush again. *)
Lemma Add_flush_required_writes_header :
  Add_v9_output_record 1472 sample_codes tcp_record 100 small_two = Some (1, small_three)
  /\ read_bytes (send_buffer (peer small_two)) 0 20
     = [0; 9; 0; 0; 0; 0; 0; 0; 59; 153; 120; 128; 170; 170; 170; 170; 0; 0; 0; 1]
  /\ read_bytes (send_buffer (peer small_three)) 0 20
     = [0; 9; 0; 3; 0; 0; 0; 0; 59; 153; 120; 128; 0; 0; 0; 1; 0; 0; 0; 1]
  /\ send_buffer (peer small_three) 3 <> send_buffer (peer small_two) 3
  /\ observe (Add_v9_output_record 1472 sample_codes tcp_record 100 (Init_v9_output tiny_peer))
     = Some (1, 0, 0, [(256, 0, 0, 0)])
  /\ observe (Add_v9_output_record 1472 sample_codes tcp_record 100 (flush_buffer tiny_one))
     = Some (1, 0, 0, [(256, 0, 0, 0)]).
Proof.
  splits; try (vm_compute; reflexivity).
  vm_compute. discriminate.
Qed.

(* ------------------------------------------------------------------ *)
(** ** The refresh of a template                                        *)
(* ------------------------------------------------------------------ *)

Lemma add_record_unfold (r : master_record_t) (idx : nat) (t : outTemplate_t) (now : Z)
      (w : world) :
  add_record r idx t now w
  = if endp (peer w) <? buff_ptr (peer w) + record_length t
    then (1, prepare_buffer w)
    else (0, set_templates
               (update_nth idx (schedule_refresh now)
                  (update_nth idx count_record (outTemplates w)))
               (Append_Record r w)).
Proof.
  unfold add_record, CheckSendBufferSpace.
  destruct (endp (peer w) <? buff_ptr (peer w) + record_length t); reflexivity.
Qed.

Lemma Add_unfold (U : Z) (tc : v9_field -> Z) (r : master_record_t) (now : Z) (w : world)
      (idx : nat) (ts : list outTemplate_t) (t : outTemplate_t) :
  numElements r <> 0 ->
  GetOutputTemplate U r (outTemplates w) = Some (idx, ts) ->
  nth_error ts idx = Some t ->
  Add_v9_output_record U tc r now w
  = Some (if starts_flowset t (entered r w)
          then if endp (peer w)
                  <? buff_ptr (peer (CloseDataFlowset (set_templates ts (entered r w))))
                     + (record_length t + sizeof_data_flowset_t + flowset_length t)
               then (1, prepare_buffer (CloseDataFlowset (set_templates ts (entered r w))))
               else add_record r idx t now
                      (open_data_flowset tc idx t now
                         (CloseDataFlowset (set_templates ts (entered r w))))
          else add_record r idx t now (set_templates ts (entered r w))).
Proof.
  intros Hne Hg Hn. unfold Add_v9_output_record.
  destruct (Z.eqb_spec (numElements r) 0) as [E|_]; [contradiction|].
  fold (entered r w). cbv zeta.
  change (outTemplates (entered r w)) with (outTemplates w). rewrite Hg, Hn.
  change (data_flowset_id (sender_data (set_templates ts (entered r w))))
    with (data_flowset_id (sender_data (entered r w))).
  fold (starts_flowset t (entered r w)).
  destruct (starts_flowset t (entered r w)); [|reflexivity].
  unfold CheckSendBufferSpace.
  destruct (CloseDataFlowset_sender (set_templates ts (entered r w)))
    as (_ & _ & _ & _ & _ & _ & He & _).
  destruct (entered_fields r w) as (_ & Ee & _).
  cbn [set_templates peer] in He. rewrite He, Ee.
  destruct (endp (peer w)
            <? buff_ptr (peer (CloseDataFlowset (set_templates ts (entered r w))))
               + (record_length t + sizeof_data_flowset_t + flowset_length t)); reflexivity.
Qed.

Lemma Forall_firstn_keeps {A : Type} (P : A -> Prop) (n : nat) : forall l : list A,
  Forall P l -> Forall P (firstn n l).
Proof.
  induction n as [|n IH]; intros l H; [constructor|].
  destruct H; simpl; constructor; auto.
Qed.

Lemma length_template_flowset_bytes (tc : v9_field -> Z) (tf : template_flowset_t) :
  Z.of_nat (length (template_flowset_bytes tc tf)) = 8 + 4 * Z.of_nat (length (tf_field tf)).
Proof.
  unfold template_flowset_bytes. rewrite !length_app, !length_be_bytes.
  assert (H : forall l : list field_t,
             Z.of_nat (length (flat_map (fun f => be_bytes 2 (htons_type tc (f_type f))
                                                  ++ be_bytes 2 (f_length f)) l))
             = 4 * Z.of_nat (length l)).
  { induction l as [|f l IH]; [reflexivity|].
    cbn [flat_map]. rewrite !length_app, !length_be_bytes. cbn [length]. lia. }
  rewrite !Nat2Z.inj_add, H. lia.
Qed.

Lemma template_flowset_bytes_range (tc : v9_field -> Z) (tf : template_flowset_t) :
  Forall (fun b => 0 <= b < 256) (template_flowset_bytes tc tf).
Proof.
  unfold template_flowset_bytes. rewrite !Forall_app. splits; try apply be_bytes_range.
  apply Forall_flat_map, Forall_forall. intros f _.
  rewrite Forall_app. split; apply be_bytes_range.
Qed.

Lemma new_template_flowset_ok (U : Z) (tc : v9_field -> Z) (r : master_record_t) (tid : Z)
      (t : outTemplate_t) :
  new_template U r tid = Some t -> flowset_ok tc t.
Proof.
  intros H. apply new_template_spec in H.
  destruct H as (F & Hf & _ & _ & Hfl & _ & _ & _ & _ & _ & _ & _ & _ & _ & Hid & _).
  unfold flowset_ok. rewrite length_template_flowset_bytes, Hf, Hfl, !length_app.
  simpl length. splits; auto; lia.
Qed.

(** The buffer after a template flowset, the head of a data flowset and a
    record were written behind the cursor of [c]. *)
Lemma open_then_append_layout (tc : v9_field -> Z) (idx : nat) (t : outTemplate_t)
      (now : Z) (r : master_record_t) (c : world) (ts : list outTemplate_t) :
  flowset_ok tc t ->
  template_before_record tc t r
    (set_templates ts (Append_Record r (open_data_flowset tc idx t now c)))
  /\ buff_ptr (peer (set_templates ts (Append_Record r (open_data_flowset tc idx t now c))))
     = buff_ptr (peer c) + flowset_length t + offsetof_data + Z.of_nat (length (record_bytes r)).
Proof.
  intros (Hf0 & Hfl & Hid).
  destruct (Append_Record_fields r (open_data_flowset tc idx t now c))
    as (A1 & _ & _ & A4 & _ & _ & _ & _ & _ & A10).
  destruct (open_data_flowset_fields tc idx t now c) as (O1 & _ & _ & O4 & _).
  set (tb := firstn (Z.to_nat (flowset_length t)) (template_flowset_bytes tc (template_flowset t))).
  assert (Htb : Z.of_nat (length tb) = flowset_length t).
  { unfold tb. rewrite length_firstn. lia. }
  assert (Hob : send_buffer (peer (open_data_flowset tc idx t now c))
                = store_bytes (store_bytes (send_buffer (peer c)) (buff_ptr (peer c)) tb)
                              (buff_ptr (peer c) + flowset_length t)
                              (be_bytes 2 (tf_template_id (template_flowset t)))) by reflexivity.
  unfold template_before_record. cbv zeta. cbn [set_templates peer sender_data].
  rewrite A1, A4, A10, O1, O4, Hob. unfold offsetof_data in *.
  set (p := buff_ptr (peer c)) in *.
  set (n := Z.of_nat (length (record_bytes r))) in *.
  replace (p + flowset_length t + 4 + n - n - 4) with (p + flowset_length t) by lia.
  replace (p + flowset_length t - flowset_length t) with p by lia.
  splits; auto.
  - rewrite (read_bytes_ext _ (store_bytes (send_buffer (peer c)) p tb)).
    + fold tb. replace (Z.to_nat (flowset_length t)) with (length tb) by lia.
      rewrite read_bytes_store_bytes.
      apply map_u8_range. unfold tb. apply Forall_firstn_keeps, template_flowset_bytes_range.
    + intros x Hx. do 2 (rewrite store_bytes_out by lia). reflexivity.
  - rewrite (read_bytes_ext _ (store_bytes (store_bytes (send_buffer (peer c)) p tb)
                                 (p + flowset_length t)
                                 (be_bytes 2 (tf_template_id (template_flowset t))))).
    + rewrite read_be_bytes, Hid. reflexivity.
    + intros x Hx. apply store_bytes_out. lia.
  - rewrite read_bytes_store_bytes. apply map_u8_range, record_bytes_range.
Qed.

Lemma land_4095 (x : Z) : Z.land x 4095 = x mod 4096.
Proof. change 4095 with (Z.ones 12). rewrite Z.land_ones by lia. reflexivity. Qed.

(** Counting one more record and testing for the refresh, for a template
    sent not longer than [MAX_LIFETIME] ago. *)
Lemma schedule_refresh_aged (t : outTemplate_t) (now sent k : Z) :
  0 <= k <= 4096 -> now - sent <= MAX_LIFETIME ->
  schedule_refresh now (count_record (aged t sent k (flag_after k)))
  = aged t sent (k + 1) (flag_after (k + 1)).
Proof.
  intros Hk Hs. unfold schedule_refresh, refresh_due, count_record, aged, flag_after.
  cbn [record_count time_sent needs_refresh size numExtensions exElementList record_length
       flowset_length template_id template_flowset].
  assert (Hu : u64 (k + 1) = k + 1).
  { unfold u64. apply Z.mod_small. change (2 ^ 64) with 18446744073709551616. lia. }
  rewrite Hu, land_4095.
  destruct (Z.ltb_spec MAX_LIFETIME (now - sent)) as [Hlt|_]; [lia|].
  rewrite orb_false_r.
  destruct (Z.eqb_spec ((k + 1) mod 4096) 0) as [E|E];
    destruct (Z.ltb_spec k 4096); destruct (Z.ltb_spec (k + 1) 4096);
    unfold set_needs_refresh;
    cbn [record_count time_sent needs_refresh size numExtensions exElementList record_length
         flowset_length template_id template_flowset];
    try reflexivity; exfalso; mod_lia.
Qed.

Section LongStream.

Variable U : Z.
Variable tc : v9_field -> Z.
Variable r : master_record_t.
Variable t : outTemplate_t.
Variable E t0 : Z.

Hypothesis Hnew : new_template U r 0 = Some t.
Hypothesis Hne : numElements r <> 0.
Hypothesis Hcap :
  sizeof_v9Header_t + record_length t + sizeof_data_flowset_t + flowset_length t <= E.

Lemma stream_template :
  template_id t = 256 /\ size t = mr_size r /\ numExtensions t = numElements r
  /\ record_length t = Z.of_nat (length (record_bytes r))
  /\ time_sent t = 0 /\ record_count t = 0 /\ needs_refresh t = 0.
Proof.
  destruct (new_template_spec U r 0 t Hnew)
    as (F & _ & Hb & Hr & _ & _ & _ & Hs & Hn & _ & Ht & Hc & Hf & Hid & _).
  splits; auto.
  unfold record_bytes. rewrite !length_app, !length_be_bytes. lia.
Qed.

Lemma aged_fresh : t = aged t 0 0 (flag_after 0).
Proof.
  destruct stream_template as (_ & _ & _ & _ & Ht & Hc & Hf).
  destruct t. unfold aged. cbn in *. subst. reflexivity.
Qed.

(** The world of the session after [k] records, [k >= 1]: one descriptor,
    stamped inside the window, and an open data flowset with its id. *)
Definition steady (k : Z) (w : world) : Prop :=
  exists sent : Z,
    outTemplates w = [aged t sent k (flag_after k)]
    /\ t0 <= sent <= t0 + MAX_LIFETIME
    /\ endp (peer w) = E
    /\ sizeof_v9Header_t <= buff_ptr (peer w)
    /\ data_flowset_id (sender_data w) = 256
    /\ data_flowset (sender_data w) <> None.

Lemma lookup_aged (sent k f : Z) :
  GetOutputTemplate U r [aged t sent k f] = Some (0%nat, [aged t sent k f]).
Proof.
  destruct stream_template as (_ & Hs & Hn & _).
  unfold GetOutputTemplate. cbn [search_template aged size numExtensions].
  rewrite Hs, Hn, !Z.eqb_refl. cbn [andb].
  destruct (list_eq_dec ext_id_eq_dec _ _); reflexivity.
Qed.

(** A call that writes the template first: the record is appended, and the
    world is steady with one record more. *)
Lemma emit_step (w : world) (now sent k : Z) :
  GetOutputTemplate U r (outTemplates w)
    = Some (0%nat, [aged t sent k (flag_after k)]) ->
  starts_flowset (aged t sent k (flag_after k)) (entered r w) = true ->
  buff_ptr (peer (CloseDataFlowset (set_templates [aged t sent k (flag_after k)] (entered r w))))
  + (record_length t + sizeof_data_flowset_t + flowset_length t) <= E ->
  buff_ptr (peer w) = 0 \/ sizeof_v9Header_t <= buff_ptr (peer w) ->
  endp (peer w) = E ->
  t0 <= now <= t0 + MAX_LIFETIME ->
  0 <= k <= 4096 ->
  exists w' : world,
    Add_v9_output_record U tc r now w = Some (0, w')
    /\ steady (k + 1) w'
    /\ template_before_record tc t r w'.
Proof.
  intros Hg Hst Hroom Hp He Hnow Hk.
  set (tt := aged t sent k (flag_after k)) in *.
  set (C := CloseDataFlowset (set_templates [tt] (entered r w))) in *.
  destruct stream_template as (Hid & _ & _ & Hrl & _).
  pose proof (new_template_wf U r 0 t Hnew) as (Hr0 & Hf0 & _).
  pose proof (new_template_flowset_ok U tc r 0 t Hnew) as Hfok.
  rewrite (Add_unfold U tc r now w 0%nat [tt] tt Hne Hg eq_refl), Hst.
  change (record_length tt) with (record_length t).
  change (flowset_length tt) with (flowset_length t).
  fold C. rewrite He.
  destruct (Z.ltb_spec E (buff_ptr (peer C)
                          + (record_length t + sizeof_data_flowset_t + flowset_length t)));
    [lia|].
  rewrite add_record_unfold.
  change (record_length tt) with (record_length t).
  destruct (open_data_flowset_fields tc 0%nat tt now C)
    as (O1 & O2 & _ & O4 & O5 & _ & _ & _ & O9).
  change (flowset_length tt) with (flowset_length t) in O1, O4.
  destruct (CloseDataFlowset_sender (set_templates [tt] (entered r w)))
    as (_ & _ & _ & _ & _ & C6 & C7 & _).
  fold C in C6, C7.
  destruct (entered_fields r w) as (Ep & Ee & _).
  cbn [set_templates peer outTemplates] in C6, C7.
  rewrite O1, O2, C7, Ee, He.
  unfold sizeof_data_flowset_t, offsetof_data, sizeof_v9Header_t in *.
  destruct (Z.ltb_spec E (buff_ptr (peer C) + flowset_length t + 4 + record_length t));
    [lia|].
  eexists. split; [reflexivity|].
  assert (Hflowset_ok : flowset_ok tc tt) by exact Hfok.
  destruct (open_then_append_layout tc 0%nat tt now r C
              (update_nth 0 (schedule_refresh now)
                 (update_nth 0 count_record (outTemplates (open_data_flowset tc 0 tt now C))))
              Hflowset_ok) as (Hlay & Hptr).
  assert (HC20 : 20 <= buff_ptr (peer C)).
  { assert (Hin : 20 <= buff_ptr (peer (entered r w))).
    { rewrite Ep. destruct (Z.eqb_spec (buff_ptr (peer w)) 0); unfold sizeof_v9Header_t; lia. }
    unfold C.
    destruct (data_flowset (sender_data (set_templates [tt] (entered r w)))) as [start|] eqn:Hd.
    - rewrite (CloseDataFlowset_open _ start Hd). cbv zeta. cbn [peer buff_ptr].
      assert (0 <= u32 (buff_ptr (peer (set_templates [tt] (entered r w))) - start) mod 4 < 4)
        by (apply Z.mod_pos_bound; lia).
      change (buff_ptr (peer (set_templates [tt] (entered r w))))
        with (buff_ptr (peer (entered r w))) in *. lia.
    - rewrite (CloseDataFlowset_closed _ Hd). exact Hin. }
  split; [|exact Hlay].
  exists now.
  destruct (Append_Record_fields r (open_data_flowset tc 0 tt now C))
    as (A1 & A2 & _ & A4 & A5 & _).
  cbn [set_templates outTemplates peer sender_data].
  rewrite A1, A2, A4, A5, O1, O2, O4, O5, O9, C6, C7, Ee.
  cbn [update_nth]. unfold offsetof_data, sizeof_v9Header_t.
  splits; auto; try lia; try discriminate.
  f_equal.
  change (set_time_sent now tt) with (aged t now k (flag_after k)).
  apply schedule_refresh_aged; auto. lia.
Qed.

(** A call that appends to the open flowset. *)
Lemma plain_step (w : world) (now k : Z) :
  steady k w -> 1 <= k < 4096 ->
  buff_ptr (peer w) + record_length t <= E ->
  t0 <= now <= t0 + MAX_LIFETIME ->
  exists w' : world,
    Add_v9_output_record U tc r now w = Some (0, w') /\ steady (k + 1) w'.
Proof.
  intros (sent & Hts & Hsent & He & Hp & Hid & Hopen) Hk Hroom Hnow.
  set (tt := aged t sent k (flag_after k)) in *.
  destruct stream_template as (Htid & _).
  destruct (entered_fields r w) as (Ep & Ee & _ & Es & _).
  assert (Ep' : buff_ptr (peer (entered r w)) = buff_ptr (peer w)).
  { rewrite Ep. destruct (Z.eqb_spec (buff_ptr (peer w)) 0); unfold sizeof_v9Header_t in *; lia. }
  assert (Hg : GetOutputTemplate U r (outTemplates w) = Some (0%nat, [tt])).
  { rewrite Hts. apply lookup_aged. }
  assert (Hst : starts_flowset tt (entered r w) = false).
  { unfold starts_flowset. rewrite Es, Hid. unfold tt, flag_after.
    cbn [aged template_id needs_refresh]. rewrite Htid.
    destruct (Z.ltb_spec k 4096); [reflexivity|lia]. }
  rewrite (Add_unfold U tc r now w 0%nat [tt] tt Hne Hg eq_refl), Hst, add_record_unfold.
  change (record_length tt) with (record_length t).
  set (X := set_templates [tt] (entered r w)).
  assert (Xp : buff_ptr (peer X) = buff_ptr (peer w)) by exact Ep'.
  assert (Xe : endp (peer X) = E) by (rewrite <- He; exact Ee).
  assert (Xs : sender_data X = sender_data w) by exact Es.
  rewrite Xp, Xe.
  destruct (Z.ltb_spec E (buff_ptr (peer w) + record_length t)); [lia|].
  eexists. split; [reflexivity|].
  exists sent.
  destruct (Append_Record_fields r X) as (A1 & A2 & _ & A4 & A5 & _).
  cbn [set_templates outTemplates peer sender_data].
  rewrite A1, A2, A4, A5, Xp, Xe, Xs.
  change (outTemplates X) with [tt]. cbn [update_nth].
  splits; auto; try lia.
  f_equal. apply schedule_refresh_aged; lia.
Qed.

(** The call after a flush: the template is written first. *)
Lemma retry_step (z : world) (now sent k : Z) :
  outTemplates z = [aged t sent k (flag_after k)] ->
  endp (peer z) = E ->
  (data_flowset (sender_data z) = None -> data_flowset_id (sender_data z) = 0) ->
  t0 <= now <= t0 + MAX_LIFETIME ->
  0 <= k <= 4096 ->
  exists w' : world,
    Add_v9_output_record U tc r now (flush_buffer (prepare_buffer z)) = Some (0, w')
    /\ steady (k + 1) w'
    /\ template_before_record tc t r w'.
Proof.
  intros Hts He Hid Hnow Hk.
  set (tt := aged t sent k (flag_after k)) in *.
  set (y := flush_buffer (prepare_buffer z)).
  destruct (prepare_buffer_fields z) as (_ & F2 & _ & _ & _ & F6 & F7 & F8 & F9).
  assert (Yt : outTemplates y = [tt]) by (unfold y; cbn [flush_buffer set_peer outTemplates]; congruence).
  assert (Yp : buff_ptr (peer y) = 0) by reflexivity.
  assert (Ye : endp (peer y) = E) by (unfold y; cbn [flush_buffer set_peer peer endp]; congruence).
  assert (Yd : data_flowset (sender_data y) = None) by exact F6.
  assert (Yi : data_flowset_id (sender_data y) = 0).
  { unfold y. cbn [flush_buffer set_peer sender_data].
    destruct (data_flowset (sender_data z)) eqn:Hd.
    - apply F7. discriminate.
    - rewrite F8 by reflexivity. apply Hid. reflexivity. }
  destruct (entered_fields r y) as (Ep & Ee & _ & Es & _).
  rewrite Yp in Ep. cbn [Z.eqb] in Ep.
  destruct stream_template as (Htid & _).
  apply (emit_step y now sent k); auto.
  - rewrite Yt. apply lookup_aged.
  - unfold starts_flowset. rewrite Es, Yi. cbn [aged template_id]. rewrite Htid. reflexivity.
  - rewrite CloseDataFlowset_closed
      by (cbn [set_templates sender_data]; rewrite Es; exact Yd).
    cbn [set_templates peer]. rewrite Ep. lia.
Qed.

(** One record of a steady session. *)
Lemma send_record_step (w : world) (now k : Z) :
  steady k w -> 1 <= k <= 4096 ->
  t0 <= now <= t0 + MAX_LIFETIME ->
  exists w' : world,
    send_record U tc r now w = Some w'
    /\ steady (k + 1) w'
    /\ (4096 <= k -> template_before_record tc t r w').
Proof.
  intros Hsteady Hk Hnow. pose proof Hsteady as (sent & Hts & Hsent & He & Hp & Hid & Hopen).
  set (tt := aged t sent k (flag_after k)) in *.
  destruct stream_template as (Htid & _).
  destruct (entered_fields r w) as (Ep & Ee & _ & Es & _).
  assert (Ep' : buff_ptr (peer (entered r w)) = buff_ptr (peer w)).
  { rewrite Ep. destruct (Z.eqb_spec (buff_ptr (peer w)) 0); unfold sizeof_v9Header_t in *; lia. }
  assert (Hg : GetOutputTemplate U r (outTemplates w) = Some (0%nat, [tt])).
  { rewrite Hts. apply lookup_aged. }
  set (X := set_templates [tt] (entered r w)).
  assert (Xs : sender_data X = sender_data w) by exact Es.
  assert (Xe : endp (peer X) = E) by (rewrite <- He; exact Ee).
  unfold send_record.
  destruct (Z.ltb_spec k 4096) as [Hlt|Hge].
  - (* the flag is down: the record goes into the open flowset *)
    assert (Hst : starts_flowset tt (entered r w) = false).
    { unfold starts_flowset. rewrite Es, Hid. unfold tt, flag_after.
      cbn [aged template_id needs_refresh]. rewrite Htid.
      destruct (Z.ltb_spec k 4096); [reflexivity|lia]. }
    destruct (Z.le_gt_cases (buff_ptr (peer w) + record_length t) E) as [Hroom|Hfull].
    + destruct (plain_step w now k Hsteady ltac:(lia) Hroom Hnow) as (w' & Ha & Hs').
      rewrite Ha. cbn [Z.eqb]. exists w'. splits; auto. lia.
    + rewrite (Add_unfold U tc r now w 0%nat [tt] tt Hne Hg eq_refl), Hst, add_record_unfold.
      change (record_length tt) with (record_length t). fold X.
      change (buff_ptr (peer X)) with (buff_ptr (peer (entered r w))). rewrite Ep', Xe.
      destruct (Z.ltb_spec E (buff_ptr (peer w) + record_length t)); [|lia].
      cbn [Z.eqb].
      assert (Xt : outTemplates X = [tt]) by reflexivity.
      assert (Xi : data_flowset (sender_data X) = None -> data_flowset_id (sender_data X) = 0).
      { intros Hd. rewrite Xs in Hd. contradiction. }
      destruct (retry_step X now sent k Xt Xe Xi Hnow ltac:(lia)) as (w' & Ha & Hs' & Hl').
      rewrite Ha. cbn [Z.eqb]. exists w'. splits; auto.
  - (* the flag is up: the template is written again *)
    assert (Hst : starts_flowset tt (entered r w) = true).
    { unfold starts_flowset. unfold tt, flag_after. cbn [aged needs_refresh].
      destruct (Z.ltb_spec k 4096); [lia|]. apply orb_true_r. }
    set (C := CloseDataFlowset X).
    destruct (Z.le_gt_cases
                (buff_ptr (peer C) + (record_length t + sizeof_data_flowset_t + flowset_length t))
                E) as [Hroom|Hfull].
    + destruct (emit_step w now sent k Hg Hst Hroom ltac:(right; exact Hp) He Hnow ltac:(lia))
        as (w' & Ha & Hs' & Hl').
      rewrite Ha. cbn [Z.eqb]. exists w'. splits; auto.
    + rewrite (Add_unfold U tc r now w 0%nat [tt] tt Hne Hg eq_refl), Hst.
      change (record_length tt) with (record_length t).
      change (flowset_length tt) with (flowset_length t).
      fold X. fold C. rewrite He.
      destruct (Z.ltb_spec E (buff_ptr (peer C)
                              + (record_length t + sizeof_data_flowset_t + flowset_length t)));
        [|lia].
      cbn [Z.eqb].
      destruct (CloseDataFlowset_sender X) as (C1 & C2 & _ & _ & _ & C6 & C7 & _).
      fold C in C1, C2, C6, C7.
      assert (Ct : outTemplates C = [tt]) by (rewrite C6; reflexivity).
      assert (Ce : endp (peer C) = E) by (rewrite C7; exact Xe).
      assert (Ci : data_flowset (sender_data C) = None -> data_flowset_id (sender_data C) = 0).
      { intros _. apply C2. rewrite Xs. exact Hopen. }
      destruct (retry_step C now sent k Ct Ce Ci Hnow ltac:(lia)) as (w' & Ha & Hs' & Hl').
      rewrite Ha. cbn [Z.eqb]. exists w'. splits; auto.
Qed.

(** The first record of the session. *)
Lemma send_record_first (p : send_peer_t) (now : Z) :
  endp p = E -> t0 <= now <= t0 + MAX_LIFETIME ->
  exists w' : world,
    send_record U tc r now (Init_v9_output p) = Some w' /\ steady 1 w'.
Proof.
  intros He Hnow.
  destruct stream_template as (Htid & _).
  assert (Hg : GetOutputTemplate U r (outTemplates (Init_v9_output p))
               = Some (0%nat, [aged t 0 0 (flag_after 0)])).
  { rewrite <- aged_fresh. unfold GetOutputTemplate. cbn [Init_v9_output outTemplates
      search_template map last]. rewrite Hnew. reflexivity. }
  destruct (entered_fields r (Init_v9_output p)) as (Ep & Ee & _ & Es & _).
  destruct (emit_step (Init_v9_output p) now 0 0) as (w' & Ha & Hs' & _); auto; try lia.
  - unfold starts_flowset. rewrite Es. cbn [Init_v9_output sender_data data_flowset_id
      aged template_id]. rewrite Htid. reflexivity.
  - rewrite CloseDataFlowset_closed by (cbn [set_templates sender_data]; rewrite Es; reflexivity).
    cbn [set_templates peer]. rewrite Ep. cbn [Init_v9_output peer buff_ptr].
    unfold sizeof_v9Header_t in *. cbn [Z.eqb]. lia.
  - right. cbn. lia.
  - unfold send_record. rewrite Ha. cbn [Z.eqb]. exists w'. auto.
Qed.

Lemma send_records_steady : forall (nows : list Z) (w : world) (k : Z),
  steady k w -> 1 <= k -> k + Z.of_nat (length nows) <= 4097 ->
  (forall now, In now nows -> t0 <= now <= t0 + MAX_LIFETIME) ->
  exists w' : world,
    send_records U tc r nows w = Some w'
    /\ steady (k + Z.of_nat (length nows)) w'
    /\ (nows <> [] -> 4097 <= k + Z.of_nat (length nows) -> template_before_record tc t r w').
Proof.
  induction nows as [|now rest IH]; intros w k Hs Hk Hlen Hwin.
  - exists w. simpl. rewrite Z.add_0_r. splits; auto. congruence.
  - simpl length in *. rewrite Nat2Z.inj_succ in *.
    destruct (send_record_step w now k Hs ltac:(lia) ltac:(apply Hwin; left; reflexivity))
      as (w1 & H1 & Hs1 & Hl1).
    destruct (IH w1 (k + 1) Hs1 ltac:(lia) ltac:(lia)
                ltac:(intros n Hn; apply Hwin; right; exact Hn))
      as (w' & H' & Hs' & Hl').
    exists w'. simpl send_records. rewrite H1. splits; auto.
    + replace (k + Z.succ (Z.of_nat (length rest))) with (k + 1 + Z.of_nat (length rest)) by lia.
      exact Hs'.
    + intros _ Hfull. destruct rest as [|now' rest'].
      * simpl in H'. apply Some_eq_inv in H'. subst w'. apply Hl1. simpl in Hfull. lia.
      * apply Hl'; [discriminate|lia].
Qed.

End LongStream.

(** The descriptor of the record after a call that appended the record. *)
Lemma Add_appended_template (U : Z) (tc : v9_field -> Z) (r : master_record_t) (now : Z)
      (w : world) (idx : nat) (ts : list outTemplate_t) (t : outTemplate_t) (w' : world) :
  numElements r <> 0 ->
  GetOutputTemplate U r (outTemplates w) = Some (idx, ts) ->
  nth_error ts idx = Some t ->
  Add_v9_output_record U tc r now w = Some (0, w') ->
  nth_error (outTemplates w') idx
  = Some (schedule_refresh now
            (count_record (if starts_flowset t (entered r w) then set_time_sent now t else t))).
Proof.
  intros Hne Hg Hn Ha.
  rewrite (Add_unfold U tc r now w idx ts t Hne Hg Hn) in Ha.
  apply Some_eq_inv in Ha.
  destruct (CloseDataFlowset_sender (set_templates ts (entered r w)))
    as (_ & _ & _ & _ & _ & C6 & _).
  destruct (starts_flowset t (entered r w)).
  - destruct (endp (peer w) <? _) in Ha; [discriminate|].
    rewrite add_record_unfold in Ha.
    destruct (endp _ <? _) in Ha; [discriminate|].
    apply (f_equal snd) in Ha. cbn [snd] in Ha. subst w'.
    cbn [set_templates outTemplates].
    destruct (open_data_flowset_fields tc idx t now
                (CloseDataFlowset (set_templates ts (entered r w))))
      as (_ & _ & _ & _ & _ & _ & _ & _ & O9).
    destruct (Append_Record_fields r (open_data_flowset tc idx t now
                (CloseDataFlowset (set_templates ts (entered r w)))))
      as (_ & _ & _ & _ & _ & _ & _ & _ & A9 & _).
    change (outTemplates (open_data_flowset tc idx t now
              (CloseDataFlowset (set_templates ts (entered r w)))))
      with (update_nth idx (set_time_sent now)
              (outTemplates (CloseDataFlowset (set_templates ts (entered r w))))).
    rewrite C6. cbn [set_templates outTemplates].
    repeat apply update_nth_nth_error. exact Hn.
  - rewrite add_record_unfold in Ha.
    destruct (endp _ <? _) in Ha; [discriminate|].
    apply (f_equal snd) in Ha. cbn [snd] in Ha. subst w'.
    cbn [set_templates outTemplates].
    repeat apply update_nth_nth_error. exact Hn.
Qed.

(** C8 (divergence): the session of [tcp_record] with calls at the times
    100, 200 and 201.  The second call, more than 60 seconds behind the
    first, marks the template.  The third call sends the template again,
    stamps it with 201, appends the record and counts it: the counter is 3,
    no multiple of 4096, and no second has passed since the template was
    sent.  The template is marked all the same, because the one store to
    [needs_refresh] sets it and none clears it (the defect of C3). *)
Lemma marked_with_neither_condition :
  Add_v9_output_record 1472 sample_codes tcp_record 200 one_record_world = Some (0, aged_world)
  /\ Add_v9_output_record 1472 sample_codes tcp_record 201 aged_world = Some (0, resent_world)
  /\ exists t' : outTemplate_t,
       outTemplates resent_world = [t']
       /\ record_count t' = 3
       /\ time_sent t' = 201
       /\ needs_refresh t' = 1
       /\ record_count t' mod 4096 <> 0
       /\ ~ MAX_LIFETIME < 201 - time_sent t'.
Proof.
  split; [vm_compute; reflexivity|]. split; [vm_compute; reflexivity|].
  exists (nth 0 (outTemplates resent_world) null_template).
  splits; try (vm_compute; reflexivity); vm_compute; discriminate.
Qed.

(** X19: a call of [Add_v9_output_record] that appends a record counts it
    on the record's template; when the template's refresh flag was down
    before the call, it is up afterwards exactly when the counter has
    reached a multiple of 4096 or the current time minus the template's
    time stamp exceeds 60 seconds, and a flag that was up stays up.  And in
    a session that sends one record 4097 times, all within 60 seconds, on a
    buffer with room for header, template and record: after each of the
    first 4095 records the flag is down, after the 4096th and the 4097th it
    is up, and the 4097th record sits in the buffer behind a template
    flowset and the head of a new data flowset. *)
Theorem refresh_after_4096_records :
  (forall (U : Z) (tc : v9_field -> Z) (r : master_record_t) (now : Z) (w : world)
          (idx : nat) (ts : list outTemplate_t) (t : outTemplate_t) (w' : world),
      numElements r <> 0 ->
      GetOutputTemplate U r (outTemplates w) = Some (idx, ts) ->
      nth_error ts idx = Some t ->
      Add_v9_output_record U tc r now w = Some (0, w') ->
      exists t' : outTemplate_t,
        nth_error (outTemplates w') idx = Some t'
        /\ record_count t' = u64 (record_count t + 1)
        /\ time_sent t' = (if starts_flowset t (entered r w) then now else time_sent t)
        /\ (needs_refresh t = 0 ->
            (needs_refresh t' <> 0 <->
             record_count t' mod 4096 = 0 \/ MAX_LIFETIME < now - time_sent t'))
        /\ (needs_refresh t <> 0 -> needs_refresh t' <> 0))
  /\ (forall (U : Z) (tc : v9_field -> Z) (r : master_record_t) (t : outTemplate_t)
             (p : send_peer_t) (t0 : Z) (nows : list Z),
         new_template U r 0 = Some t ->
         numElements r <> 0 ->
         sizeof_v9Header_t + record_length t + sizeof_data_flowset_t + flowset_length t
           <= endp p ->
         (forall now, In now nows -> t0 <= now <= t0 + MAX_LIFETIME) ->
         (1 <= length nows <= 4097)%nat ->
         exists (w : world) (t' : outTemplate_t),
           send_records U tc r nows (Init_v9_output p) = Some w
           /\ outTemplates w = [t']
           /\ record_count t' = Z.of_nat (length nows)
           /\ needs_refresh t' = (if Z.of_nat (length nows) <? 4096 then 0 else 1)
           /\ (length nows = 4097%nat -> template_before_record tc t r w)).
Proof.
  split.
  - intros U tc r now w idx ts t w' Hne Hg Hn Ha.
    pose proof (Add_appended_template U tc r now w idx ts t w' Hne Hg Hn Ha) as Ht'.
    eexists. split; [exact Ht'|].
    set (t1 := if starts_flowset t (entered r w) then set_time_sent now t else t).
    assert (H1 : record_count t1 = record_count t /\ needs_refresh t1 = needs_refresh t
                  /\ time_sent t1
                     = (if starts_flowset t (entered r w) then now else time_sent t)).
    { unfold t1. destruct (starts_flowset t (entered r w)); splits; reflexivity. }
    destruct H1 as (Hc1 & Hf1 & Hs1).
    unfold schedule_refresh, refresh_due.
    cbn [count_record record_count time_sent]. rewrite land_4095, Hc1, Hs1.
    set (c' := u64 (record_count t + 1)).
    set (s' := if starts_flowset t (entered r w) then now else time_sent t).
    destruct (Z.eqb_spec (c' mod 4096) 0) as [Em|Em];
      destruct (Z.ltb_spec MAX_LIFETIME (now - s')) as [Hl|Hl]; cbn [orb];
      cbn [set_needs_refresh count_record record_count time_sent needs_refresh];
      rewrite ?Hc1, ?Hs1, ?Hf1; fold c'; fold s'; splits; auto;
      try (intros _; discriminate);
      try (intros _; split; [intros _; auto|intros _; discriminate]).
    intros Hz. rewrite Hz. split; [intros Hx; contradiction|].
    intros [Hx|Hx]; [contradiction|lia].
  - intros U tc r t p t0 nows Hnew Hne Hcap Hwin Hlen.
    destruct nows as [|now rest]; [simpl in Hlen; lia|].
    destruct (send_record_first U tc r t (endp p) t0 Hnew Hne Hcap p now eq_refl
                ltac:(apply Hwin; left; reflexivity)) as (w1 & H1 & Hs1).
    simpl length in Hlen.
    destruct (send_records_steady U tc r t (endp p) t0 Hnew Hne Hcap rest w1 1 Hs1
                ltac:(lia) ltac:(lia) ltac:(intros n Hn; apply Hwin; right; exact Hn))
      as (w & Hw & (sent & Hts & _) & Hlay).
    exists w. eexists. simpl send_records. rewrite H1.
    simpl length. rewrite Nat2Z.inj_succ.
    replace (Z.succ (Z.of_nat (length rest))) with (1 + Z.of_nat (length rest)) by lia.
    splits; [exact Hw|exact Hts|reflexivity|reflexivity|].
    intros H4097. destruct rest as [|now' rest']; [discriminate|].
    apply Hlay; [discriminate|]. simpl length in *. lia.
Qed.

Lemma one_record_world_added :
  Add_v9_output_record 1472 sample_codes tcp_record 100 sample_world = Some (0, one_record_world).
Proof. vm_compute. reflexivity. Qed.

Lemma tcp_template_looked_up :
  GetOutputTemplate 1472 tcp_record (outTemplates sample_world) = Some (0%nat, [tcp_template]).
Proof. vm_compute. reflexivity. Qed.

Lemma refresh_after_4096_records_witness :
  (exists t' : outTemplate_t,
      nth_error (outTemplates one_record_world) 0 = Some t'
      /\ record_count t' = u64 (record_count tcp_template + 1))
  /\ (exists (w : world) (t' : outTemplate_t),
         send_records 1472 sample_codes tcp_record (repeat 100 4097) sample_world = Some w
         /\ outTemplates w = [t']
         /\ record_count t' = 4097
         /\ needs_refresh t' = 1
         /\ template_before_record sample_codes tcp_template tcp_record w).
Proof.
  assert (Hne : numElements tcp_record <> 0) by (vm_compute; discriminate).
  split.
  - destruct (proj1 refresh_after_4096_records 1472 sample_codes tcp_record 100 sample_world
                0%nat [tcp_template] tcp_template one_record_world Hne
                tcp_template_looked_up eq_refl one_record_world_added)
      as (t' & H1 & H2 & _).
    exists t'. split; assumption.
  - assert (Hcap : sizeof_v9Header_t + record_length tcp_template + sizeof_data_flowset_t
                   + flowset_length tcp_template <= endp sample_peer)
      by (vm_compute; discriminate).
    assert (Hwin : forall now, In now (repeat 100 4097) -> 100 <= now <= 100 + MAX_LIFETIME).
    { intros now Hin. apply repeat_spec in Hin. subst now. unfold MAX_LIFETIME. lia. }
    assert (Hlen : (1 <= length (repeat 100 4097) <= 4097)%nat)
      by (rewrite repeat_length; lia).
    destruct (proj2 refresh_after_4096_records 1472 sample_codes tcp_record tcp_template
                sample_peer 100 (repeat 100 4097) tcp_template_built Hne Hcap Hwin Hlen)
      as (w & t' & H1 & H2 & H3 & H4 & H5).
    exists w, t'. rewrite repeat_length in H3, H4, H5.
    splits; auto.
Defined.

(* ------------------------------------------------------------------ *)
(** * Further properties of the code                                  *)
(* ------------------------------------------------------------------ *)

(* ------------------------------------------------------------------ *)
(** ** Closing twice, and the template cache                           *)
(* ------------------------------------------------------------------ *)

(** X1: [Close_v9_output] finalizes a packet once.  A second call without a
    record in between returns 0 and leaves the world as it is, whatever the
    first call did; and so does a call on the world [Init_v9_output]
    leaves.  The sequence number advances once per packet. *)
Theorem Close_v9_output_twice (w : world) (p : send_peer_t) :
  Close_v9_output (snd (Close_v9_output w)) = (0, snd (Close_v9_output w))
  /\ Close_v9_output (Init_v9_output p) = (0, Init_v9_output p).
Proof.
  split; [|reflexivity].
  assert (H : (0 <? u32 (hdr_record_count (sender_data (snd (Close_v9_output w)))
                        + hdr_template_count (sender_data (snd (Close_v9_output w))))) = false).
  { unfold Close_v9_output.
    destruct (0 <? u32 (hdr_record_count (sender_data w) + hdr_template_count (sender_data w)))
      eqn:E; cbn [snd]; [|exact E].
    destruct (prepare_buffer_fields w) as (_ & _ & _ & F4 & F5 & _).
    rewrite F4, F5. reflexivity. }
  unfold Close_v9_output at 1. rewrite H. reflexivity.
Qed.

(** X2: the search loop of [GetOutputTemplate] returns the first descriptor
    of the list whose size and number of extensions equal those of the
    record, whatever extension list that descriptor was built for, and
    leaves the list as it is. *)
Theorem GetOutputTemplate_first_match (U : Z) (r : master_record_t)
        (ts1 ts2 : list outTemplate_t) (t : outTemplate_t) :
  Forall (fun t' => size t' <> mr_size r \/ numExtensions t' <> numElements r) ts1 ->
  size t = mr_size r -> numExtensions t = numElements r ->
  GetOutputTemplate U r (ts1 ++ t :: ts2) = Some (length ts1, ts1 ++ t :: ts2).
Proof.
  intros Hmiss Hs Hn. unfold GetOutputTemplate.
  rewrite search_template_app_miss by exact Hmiss.
  cbn [search_template]. rewrite Hs, Hn, !Z.eqb_refl. cbn [andb].
  destruct (list_eq_dec ext_id_eq_dec (exElementList t) (mr_exElementList r)); reflexivity.
Qed.

(** X3: a call of [GetOutputTemplate] keeps the descriptors of the list in
    place and appends at most one.  The descriptor it returns carries the
    declared size and the number of extensions of the record, and every
    later lookup of a record with that size and that number of extensions
    returns the same position and appends nothing. *)
Theorem GetOutputTemplate_cache_round_trip (U : Z) (r : master_record_t)
        (ts ts' : list outTemplate_t) (idx : nat) :
  GetOutputTemplate U r ts = Some (idx, ts') ->
  (exists l, ts' = ts ++ l /\ (length l <= 1)%nat)
  /\ (exists t, nth_error ts' idx = Some t /\ size t = mr_size r
                /\ numExtensions t = numElements r)
  /\ (forall r' : master_record_t,
         mr_size r' = mr_size r -> numElements r' = numElements r ->
         GetOutputTemplate U r' ts' = Some (idx, ts')).
Proof.
  intros H. pose proof (GetOutputTemplate_again U r ts ts' idx H) as Hagain.
  splits.
  - apply GetOutputTemplate_cases in H.
    destruct H as [(-> & _)|(t & -> & _)].
    + exists []. rewrite app_nil_r. split; [reflexivity|simpl; lia].
    + exists [t]. split; [reflexivity|simpl; lia].
  - apply GetOutputTemplate_cases in H.
    destruct H as [(-> & t & Ht & Hk)|(t & -> & -> & Hn & _)].
    + exists t. tauto.
    + exists t. rewrite nth_error_app2, Nat.sub_diag by lia.
      apply new_template_spec in Hn.
      destruct Hn as (_ & _ & _ & _ & _ & _ & _ & Hs & Hn & _). auto.
  - intros r' Hs Hn. unfold GetOutputTemplate in *.
    rewrite (search_template_key r' r ts' Hs Hn). 
    destruct (search_template r ts' 0 0) as [i|tid] eqn:E.
    + exact Hagain.
    + destruct (new_template U r tid); [|discriminate].
      apply Some_eq_inv in Hagain. apply (f_equal snd) in Hagain. cbn [snd] in Hagain.
      apply (f_equal (@length _)) in Hagain. rewrite length_app in Hagain. simpl in Hagain. lia.
Qed.

(* ------------------------------------------------------------------ *)
(** ** How many fields the template builder declares                   *)
(* ------------------------------------------------------------------ *)

Lemma template_extension_count (e : ext_id) (b : build_t) :
  b_count (template_extension e b) = b_count b + fields_added e
  /\ 0 <= fields_added e <= 11.
Proof.
  destruct e; unfold fields_added;
    cbn [template_extension add_fields fold_left add_length add_field set_mask_types
         b_field b_count b_record_length b_srcMaskType b_dstMaskType fst snd]; lia.
Qed.

Lemma fields_declared_nonneg (l : list ext_id) : 0 <= fields_declared l.
Proof.
  induction l as [|e l IH]; simpl; [lia|].
  pose proof (template_extension_count e build_init). lia.
Qed.

Lemma fields_declared_app (l1 l2 : list ext_id) :
  fields_declared (l1 ++ l2) = fields_declared l1 + fields_declared l2.
Proof. induction l1 as [|e l1 IH]; simpl; lia. Qed.

(** The count the template loop ends with when it runs to its end. *)
Lemma template_loop_Some : forall (l : list ext_id) (b b' : build_t),
  template_loop l b = returns b' -> b_count b' = b_count b + fields_declared l.
Proof.
  induction l as [|e l IH]; intros b b' H.
  - apply returns_eq_inv in H. subst b'. simpl. lia.
  - apply template_loop_cons_returns in H. destruct H as (_ & _ & H).
    apply IH in H. rewrite H. destruct (template_extension_count e b) as [-> _].
    simpl. lia.
Qed.

(** One iteration of the template loop, by the count at its head and the
    number of fields its extension declares. *)
Lemma template_loop_cons (e : ext_id) (l : list ext_id) (b : build_t) :
  template_loop (e :: l) b
  = if numV9Elements <=? b_count b then exits
    else if field_slots <? b_count b + fields_added e then out_of_bounds
    else template_loop l (template_extension e b).
Proof.
  cbn [template_loop]. cbv zeta.
  destruct (template_extension_count e b) as [-> _]. reflexivity.
Qed.

(** The template loop ends in [exit(255)] at the head of the iteration of
    [e] when the count is [numV9Elements] or more there; the iterations
    before it kept their stores inside the block. *)
Lemma template_loop_exits : forall (l : list ext_id) (b : build_t),
  template_loop l b = exits <->
  exists (p : list ext_id) (e : ext_id) (rest : list ext_id),
    l = p ++ e :: rest
    /\ numV9Elements <= b_count b + fields_declared p
    /\ (p = [] \/ b_count b + fields_declared p <= field_slots).
Proof.
  induction l as [|e l IH]; intros b.
  - split; [discriminate|]. intros (p & e & rest & H & _). destruct p; discriminate.
  - rewrite template_loop_cons.
    destruct (template_extension_count e b) as [Hc Ha].
    destruct (Z.leb_spec numV9Elements (b_count b)) as [Hle|Hlt].
    + split; [|reflexivity]. intros _. exists [], e, l. simpl.
      split; [reflexivity|]. split; [lia|]. left. reflexivity.
    + destruct (Z.ltb_spec field_slots (b_count b + fields_added e)) as [Hov|Hin].
      * split; [discriminate|]. intros (p & e' & rest & Hl & Hp & Hq).
        destruct p as [|e0 p]; [simpl in Hp; lia|].
        simpl in Hl. injection Hl as <- ->. simpl in Hp, Hq.
        pose proof (fields_declared_nonneg p).
        destruct Hq as [Hq|Hq]; [discriminate|lia].
      * rewrite IH, Hc. split.
        -- intros (p & e' & rest & -> & Hp & Hq). exists (e :: p), e', rest. simpl.
           split; [reflexivity|]. split; [lia|]. right.
           destruct Hq as [->|Hq]; simpl; lia.
        -- intros (p & e' & rest & Hl & Hp & Hq). destruct p as [|e0 p]; [simpl in Hp; lia|].
           simpl in Hl. injection Hl as <- ->. exists p, e', rest. simpl in Hp, Hq.
           split; [reflexivity|]. split; [lia|]. right.
           destruct Hq as [Hq|Hq]; [discriminate|lia].
Qed.

(** The template loop stores behind the block in the iteration of [e] when
    the test at its head passes and the fields [e] declares take the count
    above [field_slots]. *)
Lemma template_loop_out_of_bounds : forall (l : list ext_id) (b : build_t),
  template_loop l b = out_of_bounds <->
  exists (p : list ext_id) (e : ext_id) (rest : list ext_id),
    l = p ++ e :: rest
    /\ b_count b + fields_declared p < numV9Elements
    /\ field_slots < b_count b + fields_declared p + fields_added e.
Proof.
  induction l as [|e l IH]; intros b.
  - split; [discriminate|]. intros (p & e & rest & H & _). destruct p; discriminate.
  - rewrite template_loop_cons.
    destruct (template_extension_count e b) as [Hc Ha].
    destruct (Z.leb_spec numV9Elements (b_count b)) as [Hle|Hlt].
    + split; [discriminate|]. intros (p & e' & rest & _ & Hp & _).
      pose proof (fields_declared_nonneg p). lia.
    + destruct (Z.ltb_spec field_slots (b_count b + fields_added e)) as [Hov|Hin].
      * split; [|reflexivity]. intros _. exists [], e, l. simpl.
        split; [reflexivity|]. lia.
      * rewrite IH, Hc. split.
        -- intros (p & e' & rest & -> & Hp & Hq). exists (e :: p), e', rest. simpl.
           split; [reflexivity|]. lia.
        -- intros (p & e' & rest & Hl & Hp & Hq). destruct p as [|e0 p].
           ++ simpl in Hl. injection Hl as <- ->. simpl in Hq. lia.
           ++ simpl in Hl. injection Hl as <- ->. exists p, e', rest. simpl in Hp, Hq.
              split; [reflexivity|]. lia.
Qed.

(** In a run of the template loop that reaches its end every iteration
    passed the test at its head and kept its stores inside the block. *)
Lemma template_loop_heads : forall (p : list ext_id) (e : ext_id) (rest : list ext_id)
                                   (b b' : build_t),
  template_loop (p ++ e :: rest) b = returns b' ->
  b_count b + fields_declared p < numV9Elements
  /\ b_count b + fields_declared p + fields_added e <= field_slots.
Proof.
  induction p as [|x p IH]; intros e rest b b' H.
  - simpl app in H. apply template_loop_cons_returns in H. destruct H as (Hh & Hs & _).
    destruct (template_extension_count e b) as [Hc _]. simpl. lia.
  - simpl app in H. apply template_loop_cons_returns in H. destruct H as (_ & _ & H).
    apply IH in H. destruct (template_extension_count x b) as [Hc _]. simpl. lia.
Qed.

(** The template loop runs to its end when the count is below
    [numV9Elements] at the head of the last iteration and not above
    [field_slots] behind it. *)
Lemma template_loop_snoc : forall (p : list ext_id) (e : ext_id) (b : build_t),
  b_count b + fields_declared p < numV9Elements ->
  b_count b + fields_declared p + fields_added e <= field_slots ->
  exists b' : build_t, template_loop (p ++ [e]) b = returns b'.
Proof.
  induction p as [|x p IH]; intros e b Hp Hq.
  - simpl app. rewrite template_loop_cons. simpl in Hp, Hq.
    destruct (Z.leb_spec numV9Elements (b_count b)); [lia|].
    destruct (Z.ltb_spec field_slots (b_count b + fields_added e)); [lia|].
    eexists. reflexivity.
  - simpl app. rewrite template_loop_cons. simpl in Hp, Hq.
    pose proof (fields_declared_nonneg p).
    destruct (template_extension_count x b) as [Hc Ha].
    destruct (Z.leb_spec numV9Elements (b_count b)); [lia|].
    destruct (Z.ltb_spec field_slots (b_count b + fields_added x));
      [unfold field_slots, numV9Elements in *; lia|].
    apply IH; lia.
Qed.

Lemma template_loop_total : forall (l : list ext_id) (b : build_t),
  b_count b + fields_declared l < numV9Elements ->
  exists b', template_loop l b = returns b'.
Proof.
  induction l as [|e l IH]; intros b H.
  - eexists. reflexivity.
  - rewrite template_loop_cons. simpl in H.
    pose proof (fields_declared_nonneg l).
    destruct (template_extension_count e b) as [Hc Ha].
    destruct (Z.leb_spec numV9Elements (b_count b)); [lia|].
    destruct (Z.ltb_spec field_slots (b_count b + fields_added e));
      [unfold field_slots, numV9Elements in *; lia|].
    apply IH. lia.
Qed.

(** The fields a list of extension ids adds, counted id by id. *)
Lemma fields_declared_count_occ (l : list ext_id) :
  fields_declared l
  = fold_right (fun k acc => fields_added k * Z.of_nat (count_occ ext_id_eq_dec l k) + acc)
               0 listed_ids.
Proof.
  induction l as [|e l IH].
  - reflexivity.
  - cbn [fields_declared fold_right]. fold (fields_declared l). rewrite IH.
    unfold listed_ids. cbn [fold_right].
    destruct e;
      repeat match goal with
        | |- context [count_occ ext_id_eq_dec (?a :: _) ?k] =>
            first [ rewrite (count_occ_cons_eq ext_id_eq_dec _ (eq_refl : a = k))
                  | rewrite (count_occ_cons_neq ext_id_eq_dec _ (x := a) (y := k)) by discriminate ]
        end;
      rewrite ?Nat2Z.inj_succ; unfold fields_added;
      cbn [template_extension add_fields fold_left add_length add_field set_mask_types
           b_field b_count b_record_length b_srcMaskType b_dstMaskType fst snd]; lia.
Qed.

Lemma fields_declared_NoDup (l : list ext_id) : NoDup l -> fields_declared l <= 48.
Proof.
  intros H. rewrite fields_declared_count_occ.
  rewrite (NoDup_count_occ ext_id_eq_dec) in H.
  unfold listed_ids. cbn [fold_right].
  repeat match goal with
    | |- context [count_occ ext_id_eq_dec l ?k] =>
        let n := fresh "n" in let Hn := fresh "Hn" in
        pose proof (H k) as Hn; set (n := count_occ ext_id_eq_dec l k) in *; clearbody n
    end.
  unfold fields_added;
    cbn [template_extension add_fields fold_left add_length add_field set_mask_types
         b_field b_count b_record_length b_srcMaskType b_dstMaskType fst snd]. lia.
Qed.

(** [build_template] by the outcome of the loop: behind a loop that ran to
    its end the flowset length is 4 * (2 + count), a multiple of four that
    needs no rounding. *)
Lemma build_template_unfold (U : Z) (r : master_record_t) (tid : Z) :
  build_template U r tid
  = match template_loop (mr_exElementList r) build_init with
    | exits => exits
    | out_of_bounds => out_of_bounds
    | returns b =>
        if field_slots <=? b_count b then out_of_bounds
        else if U <? 4 * (2 + b_count b) then exits
        else
          let id := if tid =? 0 then NF9_MIN_RECORD_FLOWSET_ID else u16 (u32 (tid + 1)) in
          returns (mkOutTemplate (mr_size r) (numElements r) (mr_exElementList r)
                     0 0 (b_record_length b) (4 * (2 + b_count b)) id 0
                     (mkTemplateFlowset NF9_TEMPLATE_FLOWSET_ID (u16 (4 * (2 + b_count b))) id
                        (b_count b) (b_field b ++ [mkField None 0])))
    end.
Proof.
  unfold build_template.
  destruct (template_loop (mr_exElementList r) build_init) as [b| |] eqn:Hl; try reflexivity.
  pose proof (template_loop_Some _ _ _ Hl) as Hc.
  change (b_count build_init) with 2 in Hc.
  pose proof (fields_declared_nonneg (mr_exElementList r)) as Hn.
  cbv zeta.
  destruct (Z.leb_spec field_slots (b_count b)) as [Hov|Hin]; [reflexivity|].
  unfold field_slots, numV9Elements in Hin.
  assert (Hfl : u32 (4 * (2 + b_count b)) = 4 * (2 + b_count b)).
  { apply u32_small. lia. }
  assert (Hland : Z.land (4 * (2 + b_count b)) 3 = 0).
  { rewrite land_3. rewrite Z.mul_comm. apply Z.mod_mul. lia. }
  assert (Hcnt : u16 (b_count b) = b_count b).
  { unfold u16. apply Z.mod_small. change (2 ^ 16) with 65536. lia. }
  rewrite Hfl, Hland, Z.eqb_refl, Hcnt. reflexivity.
Qed.

(** The builder returns a descriptor for a list that declares fewer than
    [numV9Elements] fields, the engine fields included, when the flowset
    fits the packet size. *)
Lemma new_template_total (U : Z) (r : master_record_t) (tid : Z) :
  2 + fields_declared (mr_exElementList r) < numV9Elements ->
  4 * (4 + fields_declared (mr_exElementList r)) <= U ->
  exists t : outTemplate_t, new_template U r tid = Some t.
Proof.
  intros Hc HU. unfold new_template. rewrite build_template_unfold.
  destruct (template_loop_total (mr_exElementList r) build_init Hc) as (b & Hl).
  rewrite Hl. pose proof (template_loop_Some _ _ _ Hl) as Hb.
  change (b_count build_init) with 2 in Hb.
  destruct (Z.leb_spec field_slots (b_count b));
    [unfold field_slots, numV9Elements in *; lia|].
  destruct (Z.ltb_spec U (4 * (2 + b_count b))); [lia|].
  eexists. reflexivity.
Qed.

(** X5: the three ways the template builder ends.  It ends in [exit(255)]
    exactly when the head of an iteration finds [numV9Elements] (53) or
    [numV9Elements] + 1 fields declared, the two engine fields included, or
    when at most [numV9Elements] fields are declared in all and the flowset
    of 4 * (2 + count) bytes is longer than [UDP_PACKET_SIZE].  It stores
    behind the block of [field_slots] (54) entries exactly when an extension
    whose iteration starts below [numV9Elements] takes the count above
    [field_slots], or when the last extension takes it to [field_slots], so
    that the padding entry falls behind the block.  A descriptor it returns
    declares the two engine fields and the fields of every extension of the
    list, at most [numV9Elements] in all, in a field array that fills at most
    the block. *)
Theorem build_template_outcomes (U : Z) (r : master_record_t) (tid : Z) :
  (build_template U r tid = exits <->
   (exists (p : list ext_id) (e : ext_id) (rest : list ext_id),
       mr_exElementList r = p ++ e :: rest
       /\ numV9Elements <= 2 + fields_declared p <= field_slots)
   \/ (2 + fields_declared (mr_exElementList r) <= numV9Elements
       /\ U < 4 * (4 + fields_declared (mr_exElementList r))))
  /\ (build_template U r tid = out_of_bounds <->
      exists (p : list ext_id) (e : ext_id) (rest : list ext_id),
        mr_exElementList r = p ++ e :: rest
        /\ 2 + fields_declared p < numV9Elements
        /\ (field_slots < 2 + fields_declared p + fields_added e
            \/ (rest = [] /\ 2 + fields_declared p + fields_added e = field_slots)))
  /\ (forall t : outTemplate_t,
        build_template U r tid = returns t ->
        tf_count (template_flowset t) = 2 + fields_declared (mr_exElementList r)
        /\ tf_count (template_flowset t) <= numV9Elements
        /\ Z.of_nat (length (tf_field (template_flowset t))) = tf_count (template_flowset t) + 1
        /\ flowset_length t = 4 * (2 + tf_count (template_flowset t))
        /\ flowset_length t <= U).
Proof.
  rewrite build_template_unfold.
  pose proof (fields_declared_nonneg (mr_exElementList r)) as Hn.
  destruct (template_loop (mr_exElementList r) build_init) as [b| |] eqn:Hl.
  - pose proof (template_loop_Some _ _ _ Hl) as Hc.
    change (b_count build_init) with 2 in Hc.
    assert (Hnx : ~ exists (p : list ext_id) (e : ext_id) (rest : list ext_id),
               mr_exElementList r = p ++ e :: rest
               /\ numV9Elements <= 2 + fields_declared p <= field_slots).
    { intros (p & e & rest & Hs & Hp). rewrite Hs in Hl.
      apply template_loop_heads in Hl. change (b_count build_init) with 2 in Hl. lia. }
    assert (Hno : ~ exists (p : list ext_id) (e : ext_id) (rest : list ext_id),
               mr_exElementList r = p ++ e :: rest
               /\ 2 + fields_declared p < numV9Elements
               /\ field_slots < 2 + fields_declared p + fields_added e).
    { intros (p & e & rest & Hs & Hp & Hq). rewrite Hs in Hl.
      apply template_loop_heads in Hl. change (b_count build_init) with 2 in Hl. lia. }
    destruct (Z.leb_spec field_slots (b_count b)) as [Hov|Hin].
    + split; [|split].
      * split; [discriminate|]. intros [Hex|(Hle & _)]; [contradiction|].
        unfold field_slots in Hov. lia.
      * split; [|reflexivity]. intros _.
        destruct (mr_exElementList r) as [|x0 l0].
        { simpl in Hc. unfold field_slots, numV9Elements in Hov. lia. }
        destruct (@exists_last _ (x0 :: l0)) as (l' & x & Hlast); [discriminate|].
        rewrite Hlast in *.
        pose proof (template_loop_heads l' x [] _ _ Hl) as (Hp & Hq).
        change (b_count build_init) with 2 in Hp, Hq.
        rewrite fields_declared_app in Hc.
        change (fields_declared [x]) with (fields_added x + 0) in Hc.
        exists l', x, []. split; [reflexivity|]. split; [exact Hp|].
        right. split; [reflexivity|lia].
      * intros t Ht. discriminate.
    + destruct (Z.ltb_spec U (4 * (2 + b_count b))) as [Hlt|Hge].
      * split; [|split].
        -- split; [|reflexivity]. intros _. right. unfold field_slots in Hin. lia.
        -- split; [discriminate|]. intros (p & e & rest & Hs & Hp & [Hq|(-> & Hq)]); exfalso.
           ++ apply Hno. exists p, e, rest. auto.
           ++ rewrite Hs, fields_declared_app in Hc.
              change (fields_declared [e]) with (fields_added e + 0) in Hc.
              unfold field_slots in *. lia.
        -- intros t Ht. discriminate.
      * split; [|split].
        -- split; [discriminate|]. intros [Hex|(_ & HU)]; [contradiction|lia].
        -- split; [discriminate|]. intros (p & e & rest & Hs & Hp & [Hq|(-> & Hq)]); exfalso.
           ++ apply Hno. exists p, e, rest. auto.
           ++ rewrite Hs, fields_declared_app in Hc.
              change (fields_declared [e]) with (fields_added e + 0) in Hc.
              unfold field_slots in *. lia.
        -- intros t Ht. cbv zeta in Ht. apply returns_eq_inv in Ht. subst t.
           cbn [template_flowset tf_count tf_field flowset_length].
           rewrite length_app. cbn [length].
           assert (Hlen : Z.of_nat (length (b_field b)) = b_count b).
           { destruct build_init_fields as (Hi & Hci & Hri).
             destruct (template_loop_spec r _ _ _ Hl) as (F & HF & HcF & _); try lia.
             rewrite HF, Hi, length_app. cbn [length]. lia. }
           unfold field_slots in Hin. splits; lia.
  - apply template_loop_exits in Hl. change (b_count build_init) with 2 in Hl.
    destruct Hl as (p & e & rest & Hs & Hp & Hq).
    assert (Hq' : 2 + fields_declared p <= field_slots).
    { destruct Hq as [->|Hq]; [simpl in Hp; unfold numV9Elements in Hp; lia|exact Hq]. }
    split; [|split].
    + split; [|reflexivity]. intros _. left. exists p, e, rest. split; [exact Hs|lia].
    + split; [discriminate|]. intros (p' & e' & rest' & Hs' & Hp' & Hq'').
      exfalso.
      assert (Hex : template_loop (mr_exElementList r) build_init = exits).
      { apply template_loop_exits. exists p, e, rest. auto. }
      destruct Hq'' as [Hov|(-> & Hlast)].
      * assert (Hob : template_loop (mr_exElementList r) build_init = out_of_bounds).
        { apply template_loop_out_of_bounds. exists p', e', rest'. auto. }
        congruence.
      * destruct (template_loop_snoc p' e' build_init) as (b' & Hb'); try (change (b_count build_init) with 2; lia).
        rewrite <- Hs' in Hb'. congruence.
    + intros t Ht. discriminate.
  - apply template_loop_out_of_bounds in Hl. change (b_count build_init) with 2 in Hl.
    destruct Hl as (p & e & rest & Hs & Hp & Hq).
    split; [|split].
    + split; [discriminate|]. intros Hex. exfalso.
      assert (Hob : template_loop (mr_exElementList r) build_init = out_of_bounds).
      { apply template_loop_out_of_bounds. exists p, e, rest. auto. }
      destruct Hex as [(p' & e' & rest' & Hs' & Hp')|(Hle & _)].
      * assert (Hexi : template_loop (mr_exElementList r) build_init = exits).
        { apply template_loop_exits. exists p', e', rest'.
          change (b_count build_init) with 2. split; [exact Hs'|]. split; [lia|]. right. lia. }
        congruence.
      * rewrite Hs, fields_declared_app in Hle.
        change (fields_declared (e :: rest)) with (fields_added e + fields_declared rest) in Hle.
        pose proof (fields_declared_nonneg rest). unfold field_slots in Hq. lia.
    + split; [|reflexivity]. intros _. exists p, e, rest. auto.
    + intros t Ht. discriminate.
Qed.

(* ------------------------------------------------------------------ *)
(** ** Templates of duplicate-free records; the template flowset       *)
(* ------------------------------------------------------------------ *)

(** The bytes a list of extension ids puts on the wire, counted id by id. *)
Lemma extension_bytes_count_occ (r : master_record_t) (l : list ext_id) :
  Z.of_nat (length (flat_map (extension_bytes r) l))
  = fold_right (fun k acc => Z.of_nat (length (extension_bytes r k))
                             * Z.of_nat (count_occ ext_id_eq_dec l k) + acc)
               0 listed_ids.
Proof.
  induction l as [|e l IH].
  - reflexivity.
  - cbn [flat_map]. rewrite length_app, Nat2Z.inj_add, IH.
    unfold listed_ids. cbn [fold_right].
    destruct e;
      repeat match goal with
        | |- context [count_occ ext_id_eq_dec (?a :: _) ?k] =>
            first [ rewrite (count_occ_cons_eq ext_id_eq_dec _ (eq_refl : a = k))
                  | rewrite (count_occ_cons_neq ext_id_eq_dec _ (x := a) (y := k)) by discriminate ]
        end;
      rewrite ?Nat2Z.inj_succ; cbn [extension_bytes length]; lia.
Qed.

Lemma extension_bytes_NoDup (r : master_record_t) (l : list ext_id) :
  NoDup l -> Z.of_nat (length (flat_map (extension_bytes r) l)) <= 232.
Proof.
  intros H. rewrite extension_bytes_count_occ.
  rewrite (NoDup_count_occ ext_id_eq_dec) in H.
  unfold listed_ids. cbn [fold_right].
  repeat match goal with
    | |- context [count_occ ext_id_eq_dec l ?k] =>
        let n := fresh "n" in let Hn := fresh "Hn" in
        pose proof (H k) as Hn; set (n := count_occ ext_id_eq_dec l k) in *; clearbody n
    end.
  unfold extension_bytes; destruct (is_icmp r);
    cbn [flat_map seq]; rewrite ?length_app, ?length_be_bytes; cbn [length Nat.add]; lia.
Qed.

(** X4: for a record whose extension list has no duplicates, and a
    [UDP_PACKET_SIZE] of at least 208, the template builder reaches neither
    of its exits.  The template has 2 + (the fields of the extensions)
    fields, at most 50, so that they and the padding slot lie in the 54
    slots [calloc] sized; its flowset is 4 * (2 + count) <= 208 bytes and
    its record at most 234 bytes long. *)
Theorem new_template_duplicate_free (U : Z) (r : master_record_t) (tid : Z) :
  NoDup (mr_exElementList r) -> 208 <= U ->
  exists t : outTemplate_t,
    new_template U r tid = Some t
    /\ tf_count (template_flowset t) = 2 + fields_declared (mr_exElementList r)
    /\ tf_count (template_flowset t) <= 50
    /\ flowset_length t = 4 * (2 + tf_count (template_flowset t))
    /\ flowset_length t <= 208
    /\ record_length t <= 234.
Proof.
  intros Hnd HU.
  pose proof (fields_declared_NoDup _ Hnd) as H48.
  pose proof (fields_declared_nonneg (mr_exElementList r)) as H0.
  destruct (new_template U r tid) as [t|] eqn:Hn.
  - exists t. split; [reflexivity|].
    pose proof Hn as Hspec. apply new_template_spec in Hspec.
    destruct Hspec as (F & Hf & Hb & Hr & Hfl & _ & _ & _ & _ & _ & _ & _ & _ & _ & _ & _ & Hcnt).
    destruct (new_template_fields U r tid t Hn) as (b & Hl & Hfb).
    pose proof (template_loop_Some _ _ _ Hl) as Hc.
    change (b_count build_init) with 2 in Hc.
    destruct build_init_fields as (Hi & _ & _).
    destruct (template_loop_spec r _ _ _ Hl) as (F' & HF' & HcF' & _); try (cbn; lia).
    assert (HFF : F = F').
    { rewrite Hf, HF', Hi in Hfb. rewrite <- app_assoc in Hfb.
      apply app_inv_head in Hfb. apply app_inv_tail in Hfb. exact Hfb. }
    subst F'. change (b_count build_init) with 2 in HcF'.
    pose proof (extension_bytes_NoDup r _ Hnd) as H232.
    splits; lia.
  - exfalso. destruct (new_template_total U r tid) as (t & Ht);
      [unfold numV9Elements; lia | lia | congruence].
Qed.

Lemma firstn_app_exact {A : Type} (l1 l2 : list A) (n : nat) :
  n = length l1 -> firstn n (l1 ++ l2) = l1.
Proof.
  intros ->. rewrite firstn_app, Nat.sub_diag, firstn_all. simpl. apply app_nil_r.
Qed.

(** X6: the template flowset on the wire.  For a descriptor the builder
    completes, [Add_template_flowset] writes at the cursor the flowset id 0,
    the flowset length, the template id, the field count, and one (type,
    length) pair per declared field, all as 16-bit numbers in network byte
    order; these are 8 + 4 * count bytes, a multiple of 4, so the padding
    slot the builder appends is never sent.  The cursor moves behind them
    and the template counter of the packet grows by one. *)
Theorem template_flowset_on_the_wire (U : Z) (tc : v9_field -> Z) (r : master_record_t)
        (tid : Z) (t : outTemplate_t) (w : world) :
  new_template U r tid = Some t ->
  exists F : list field_t,
    tf_field (template_flowset t) = F ++ [mkField None 0]
    /\ flowset_length t = 8 + 4 * Z.of_nat (length F)
    /\ read_bytes (send_buffer (peer (Add_template_flowset tc t w))) (buff_ptr (peer w))
                  (Z.to_nat (flowset_length t))
       = be_bytes 2 NF9_TEMPLATE_FLOWSET_ID ++ be_bytes 2 (flowset_length t)
         ++ be_bytes 2 (template_id t) ++ be_bytes 2 (Z.of_nat (length F))
         ++ flat_map (fun f => be_bytes 2 (htons_type tc (f_type f)) ++ be_bytes 2 (f_length f)) F
    /\ buff_ptr (peer (Add_template_flowset tc t w)) = buff_ptr (peer w) + flowset_length t
    /\ hdr_template_count (sender_data (Add_template_flowset tc t w))
       = u32 (hdr_template_count (sender_data w) + 1).
Proof.
  intros Hn. pose proof Hn as Hspec. apply new_template_spec in Hspec.
  destruct Hspec as (F & Hf & _ & _ & Hfl & H61 & _ & _ & _ & _ & _ & _ & _ & _ & Hid & Hlen & Hcnt).
  exists ([mkField (Some NF9_ENGINE_TYPE) 1; mkField (Some NF9_ENGINE_ID) 1] ++ F).
  assert (Hu : u16 (flowset_length t) = flowset_length t).
  { unfold u16. apply Z.mod_small. change (2 ^ 16) with 65536. lia. }
  rewrite length_app. cbn [length]. splits.
  - rewrite Hf, <- app_assoc. reflexivity.
  - lia.
  - set (wire := be_bytes 2 NF9_TEMPLATE_FLOWSET_ID ++ be_bytes 2 (flowset_length t)
         ++ be_bytes 2 (template_id t) ++ be_bytes 2 (Z.of_nat (2 + length F))
         ++ flat_map (fun f => be_bytes 2 (htons_type tc (f_type f)) ++ be_bytes 2 (f_length f))
              ([mkField (Some NF9_ENGINE_TYPE) 1; mkField (Some NF9_ENGINE_ID) 1] ++ F)).
    assert (Hlw : Z.of_nat (length wire) = flowset_length t).
    { unfold wire. rewrite !length_app, !length_be_bytes.
      rewrite (flat_map_constant_length (c := 4%nat)).
      - rewrite length_app. cbn [length]. lia.
      - intros f _. rewrite length_app, !length_be_bytes. reflexivity. }
    assert (Hcut : firstn (Z.to_nat (flowset_length t))
                     (template_flowset_bytes tc (template_flowset t)) = wire).
    { unfold template_flowset_bytes. rewrite Hf, Hid, Hlen, Hcnt, Hu.
      replace (2 + Z.of_nat (length F)) with (Z.of_nat (2 + length F)) by lia.
      replace ([mkField (Some NF9_ENGINE_TYPE) 1; mkField (Some NF9_ENGINE_ID) 1] ++ F
               ++ [mkField None 0])
        with (([mkField (Some NF9_ENGINE_TYPE) 1; mkField (Some NF9_ENGINE_ID) 1] ++ F)
              ++ [mkField None 0]) by (rewrite <- app_assoc; reflexivity).
      rewrite flat_map_app.
      replace (tf_flowset_id (template_flowset t)) with NF9_TEMPLATE_FLOWSET_ID.
      2:{ apply new_template_inv in Hn. destruct Hn as (b0 & _ & _ & Hn).
          cbv zeta in Hn.
          match type of Hn with (if ?c then _ else _) = _ => destruct c; [discriminate|] end.
          apply Some_eq_inv in Hn. subst t. reflexivity. }
      rewrite !app_assoc. apply firstn_app_exact.
      lia. }
    unfold Add_template_flowset. cbn [peer send_buffer]. rewrite Hcut.
    rewrite <- Hlw, Nat2Z.id, read_bytes_store_bytes.
    apply map_u8_range. rewrite <- Hcut. apply Forall_firstn_keeps, template_flowset_bytes_range.
  - reflexivity.
  - reflexivity.
Qed.

(* ------------------------------------------------------------------ *)
(** ** Reading a record against its template                           *)
(* ------------------------------------------------------------------ *)

Lemma fold_be_value (l : list Z) : forall acc : Z,
  fold_left (fun a b => a * 256 + b) l acc = acc * 256 ^ Z.of_nat (length l) + be_value l.
Proof.
  unfold be_value. induction l as [|x l IH]; intros acc.
  - simpl. lia.
  - cbn [fold_left length]. rewrite IH, (IH (0 * 256 + x)).
    rewrite Nat2Z.inj_succ, Z.pow_succ_r by lia. lia.
Qed.

(** Reading back what [htons], [htonl] and [htonll] stored gives the value
    truncated to the width of the store. *)
Lemma be_value_be_bytes (n : nat) (v : Z) :
  be_value (be_bytes n v) = v mod 2 ^ (8 * Z.of_nat n).
Proof.
  induction n as [|n IH].
  - simpl. rewrite Z.mod_1_r. reflexivity.
  - cbn [be_bytes]. unfold be_value. cbn [fold_left]. rewrite fold_be_value, IH.
    rewrite length_be_bytes.
    replace (8 * Z.of_nat (S n)) with (8 * Z.of_nat n + 8) by lia.
    rewrite Z.pow_add_r by lia.
    replace (256 ^ Z.of_nat n) with (2 ^ (8 * Z.of_nat n)).
    2:{ change 256 with (2 ^ 8). rewrite <- Z.pow_mul_r by lia. reflexivity. }
    change (2 ^ 8) with 256.
    assert (Hp : 0 < 2 ^ (8 * Z.of_nat n)) by (apply Z.pow_pos_nonneg; lia).
    rewrite (Z.rem_mul_r v (2 ^ (8 * Z.of_nat n)) 256) by lia. lia.
Qed.


Lemma be_bytes_add_multiple (n : nat) : forall v k : Z,
  be_bytes n (v + 2 ^ (8 * Z.of_nat n) * k) = be_bytes n v.
Proof.
  induction n as [|n IH]; intros v k; [reflexivity|].
  cbn [be_bytes].
  assert (Hp : 0 < 2 ^ (8 * Z.of_nat n)) by (apply Z.pow_pos_nonneg; lia).
  replace (2 ^ (8 * Z.of_nat (S n))) with (2 ^ (8 * Z.of_nat n) * 256).
  2:{ replace (8 * Z.of_nat (S n)) with (8 * Z.of_nat n + 8) by lia.
      rewrite Z.pow_add_r by lia. reflexivity. }
  f_equal.
  - replace (v + 2 ^ (8 * Z.of_nat n) * 256 * k) with (v + (256 * k) * 2 ^ (8 * Z.of_nat n)) by lia.
    rewrite Z.div_add by lia.
    replace (v / 2 ^ (8 * Z.of_nat n) + 256 * k) with (v / 2 ^ (8 * Z.of_nat n) + k * 256) by lia.
    apply Z.mod_add. lia.
  - replace (v + 2 ^ (8 * Z.of_nat n) * 256 * k) with (v + 2 ^ (8 * Z.of_nat n) * (256 * k)) by lia.
    apply IH.
Qed.

Lemma be_bytes_app (n m : nat) (v : Z) :
  be_bytes (n + m) v = be_bytes n (v / 2 ^ (8 * Z.of_nat m)) ++ be_bytes m v.
Proof.
  induction n as [|n IH]; [reflexivity|].
  cbn [Nat.add be_bytes app]. rewrite IH. f_equal.
  assert (Hm : 0 < 2 ^ (8 * Z.of_nat m)) by (apply Z.pow_pos_nonneg; lia).
  assert (Hn : 0 < 2 ^ (8 * Z.of_nat n)) by (apply Z.pow_pos_nonneg; lia).
  rewrite Z.div_div by lia.
  rewrite <- Z.pow_add_r by lia. do 3 f_equal. lia.
Qed.

(** The 16 bytes of a 128-bit address are the two stores of its words. *)
Lemma be_bytes_v128 (a : Z * Z) :
  be_bytes 16 (v128 a) = be_bytes 8 (fst a) ++ be_bytes 8 (snd a).
Proof.
  change 16%nat with (8 + 8)%nat. rewrite be_bytes_app. unfold v128, u64.
  change (8 * Z.of_nat 8) with 64. f_equal.
  - rewrite Z.div_add_l by lia. rewrite Z.div_small by (apply Z.mod_pos_bound; lia).
    rewrite Z.add_0_r. rewrite (Z.mod_eq (fst a) (2 ^ 64)) by lia.
    replace (fst a - 2 ^ 64 * (fst a / 2 ^ 64))
      with (fst a + 2 ^ (8 * Z.of_nat 8) * (- (fst a / 2 ^ 64))) by (change (8 * Z.of_nat 8) with 64; lia).
    apply be_bytes_add_multiple.
  - rewrite (Z.mod_eq (snd a) (2 ^ 64)) by lia.
    replace (fst a mod 2 ^ 64 * 2 ^ 64 + (snd a - 2 ^ 64 * (snd a / 2 ^ 64)))
      with (snd a + 2 ^ (8 * Z.of_nat 8) * (fst a mod 2 ^ 64 - snd a / 2 ^ 64))
      by (change (8 * Z.of_nat 8) with 64; lia).
    apply be_bytes_add_multiple.
Qed.

(** The bytes of an extension are its values one after the other. *)
Lemma extension_bytes_values (r : master_record_t) (e : ext_id) :
  extension_bytes r e = flat_map value_bytes (extension_values r e).
Proof.
  destruct e; unfold extension_bytes, extension_values, value_bytes, stored;
    try destruct (is_icmp r); cbn [flat_map map seq app fst snd];
    rewrite ?be_bytes_v128; rewrite <- ?app_assoc, ?app_nil_r; reflexivity.
Qed.

Lemma record_bytes_values (r : master_record_t) :
  record_bytes r = flat_map value_bytes (record_values r).
Proof.
  unfold record_bytes, record_values. cbn [flat_map]. unfold value_bytes at 1 2, stored.
  cbn [fst snd]. do 2 f_equal.
  induction (mr_exElementList r) as [|e l IH]; [reflexivity|].
  cbn [flat_map]. rewrite flat_map_app, IH, extension_bytes_values. reflexivity.
Qed.


(** The widths the template loop declares for an extension are the widths
    of the stores of the serializer for it, store by store. *)
Lemma template_extension_widths (r : master_record_t) (e : ext_id) (b : build_t) :
  exists F : list field_t,
    b_field (template_extension e b) = b_field b ++ F
    /\ map f_length F = map value_width (extension_values r e).
Proof.
  destruct e;
    cbn [template_extension add_fields fold_left add_length add_field set_mask_types
         b_field b_count b_record_length b_srcMaskType b_dstMaskType fst snd];
    repeat rewrite <- app_assoc; cbn [app];
    try (eexists; split; [reflexivity|]);
    try (exists []; split; [symmetry; apply app_nil_r|]);
    unfold extension_values, stored, value_width; try destruct (is_icmp r); reflexivity.
Qed.

Lemma template_loop_widths (r : master_record_t) : forall (l : list ext_id) (b b' : build_t),
  template_loop l b = returns b' ->
  exists F : list field_t,
    b_field b' = b_field b ++ F
    /\ map f_length F = map value_width (flat_map (extension_values r) l).
Proof.
  induction l as [|e l IH]; intros b b' H.
  - apply returns_eq_inv in H. subst b'. exists []. rewrite app_nil_r. split; reflexivity.
  - apply template_loop_cons_returns in H. destruct H as (_ & _ & H).
    apply IH in H. destruct H as (F' & HF' & HW').
    destruct (template_extension_widths r e b) as (F & HF & HW).
    exists (F ++ F'). rewrite HF', HF, <- app_assoc. split; [reflexivity|].
    cbn [flat_map]. rewrite !map_app, HW, HW'. reflexivity.
Qed.

Lemma skipn_app_exact {A : Type} (l1 l2 : list A) (n : nat) :
  n = length l1 -> skipn n (l1 ++ l2) = l2.
Proof.
  intros ->. rewrite skipn_app, Nat.sub_diag, skipn_all. reflexivity.
Qed.


Lemma decode_record_values : forall (V : list (nat * Z)) (F : list field_t),
  map f_length F = map value_width V ->
  decode_record F (flat_map value_bytes V) = map value_read V.
Proof.
  induction V as [|nv V IH]; intros F H; destruct F as [|f F]; try discriminate.
  - reflexivity.
  - cbn [map] in H. injection H as Hw HF.
    cbn [decode_record flat_map map]. rewrite Hw. unfold value_width. rewrite Nat2Z.id.
    assert (Hl : length (value_bytes nv) = fst nv) by apply length_be_bytes.
    rewrite firstn_app_exact by (symmetry; exact Hl).
    rewrite skipn_app_exact by (symmetry; exact Hl).
    rewrite IH by exact HF. unfold value_bytes, value_read. rewrite be_value_be_bytes. reflexivity.
Qed.

(** X7: a record decodes against its template.  For a descriptor built
    from a record, the widths of the declared fields are, field by field,
    the widths of the values [Append_Record] stores; cutting the bytes the
    serializer wrote at these widths and reading every piece as a number in
    network byte order gives back each stored value, truncated to the width
    of its field. *)
Theorem record_decodes_against_template (U : Z) (r : master_record_t) (tid : Z)
        (t : outTemplate_t) (w : world) :
  new_template U r tid = Some t ->
  map f_length (declared_fields (template_flowset t))
  = map (fun nv => Z.of_nat (fst nv)) (record_values r)
  /\ decode_record (declared_fields (template_flowset t)) (written_record r w)
     = map (fun nv => snd nv mod 2 ^ (8 * Z.of_nat (fst nv))) (record_values r).
Proof.
  intros Hn. pose proof Hn as Hspec. apply new_template_spec in Hspec.
  destruct Hspec as (F & Hf & _ & _ & _ & _ & _ & _ & _ & _ & _ & _ & _ & _ & _ & _ & Hcnt).
  destruct (new_template_fields U r tid t Hn) as (b & Hl & Hfb).
  destruct (template_loop_widths r _ _ _ Hl) as (F' & HF' & HW).
  destruct build_init_fields as (Hi & _ & _).
  assert (HFF : F = F').
  { rewrite Hf, HF', Hi in Hfb. rewrite <- app_assoc in Hfb.
    apply app_inv_head in Hfb. apply app_inv_tail in Hfb. exact Hfb. }
  subst F'.
  assert (Hd : declared_fields (template_flowset t)
               = [mkField (Some NF9_ENGINE_TYPE) 1; mkField (Some NF9_ENGINE_ID) 1] ++ F).
  { unfold declared_fields. rewrite Hf, Hcnt, app_assoc. apply firstn_app_exact.
    rewrite length_app. cbn [length]. lia. }
  assert (Hw : map f_length (declared_fields (template_flowset t)) = map value_width (record_values r)).
  { rewrite Hd. unfold record_values. cbn [map app]. rewrite HW. reflexivity. }
  split.
  - exact Hw.
  - rewrite written_record_bytes, record_bytes_values.
    apply decode_record_values. exact Hw.
Qed.

(* ------------------------------------------------------------------ *)
(** ** The outcomes of a call                                          *)
(* ------------------------------------------------------------------ *)

(** The four ways through [Add_v9_output_record] for a record with
    extensions, in a world with well-formed descriptors: with and without a
    new flowset, each with the capacity check failing or passing. *)
Lemma Add_outcomes (U : Z) (tc : v9_field -> Z) (r : master_record_t) (now : Z)
      (w : world) (ret : Z) (w' : world) :
  Add_v9_output_record U tc r now w = Some (ret, w') ->
  numElements r <> 0 ->
  Forall wf_template (outTemplates w) ->
  exists (idx : nat) (ts : list outTemplate_t) (t : outTemplate_t),
    GetOutputTemplate U r (outTemplates w) = Some (idx, ts)
    /\ nth_error ts idx = Some t
    /\ Forall wf_template ts
    /\ ((starts_flowset t (entered r w) = true
         /\ endp (peer w) < buff_ptr (peer (CloseDataFlowset (set_templates ts (entered r w))))
                            + (record_length t + sizeof_data_flowset_t + flowset_length t)
         /\ ret = 1
         /\ w' = prepare_buffer (CloseDataFlowset (set_templates ts (entered r w))))
        \/ (starts_flowset t (entered r w) = true
            /\ buff_ptr (peer (CloseDataFlowset (set_templates ts (entered r w))))
               + (record_length t + sizeof_data_flowset_t + flowset_length t) <= endp (peer w)
            /\ ret = 0
            /\ w' = appended r idx now
                      (open_data_flowset tc idx t now
                         (CloseDataFlowset (set_templates ts (entered r w)))))
        \/ (starts_flowset t (entered r w) = false
            /\ endp (peer w) < buff_ptr (peer (entered r w)) + record_length t
            /\ ret = 1
            /\ w' = prepare_buffer (set_templates ts (entered r w)))
        \/ (starts_flowset t (entered r w) = false
            /\ buff_ptr (peer (entered r w)) + record_length t <= endp (peer w)
            /\ ret = 0
            /\ w' = appended r idx now (set_templates ts (entered r w)))).
Proof.
  intros H Hne Hwf0. apply Add_cases in H.
  destruct H as [(E & _)|(idx & ts & t & _ & Hg & Hn & Hc)]; [contradiction|].
  exists idx, ts, t.
  assert (Hwf : Forall wf_template ts).
  { eapply GetOutputTemplate_wf; [exact Hg|exact Hwf0]. }
  assert (Ht : wf_template t).
  { eapply Forall_forall; [exact Hwf|]. eapply nth_error_In. exact Hn. }
  destruct (entered_fields r w) as (_ & Ee & _).
  splits; auto.
  destruct Hc as [(Hs & Hlt & -> & ->)|[(Hs & Hle & Ha)|(Hs & Ha)]].
  - left. auto.
  - right. left. apply add_record_cases in Ha.
    destruct (open_data_flowset_fields tc idx t now
                (CloseDataFlowset (set_templates ts (entered r w)))) as (O1 & O2 & _).
    destruct (CloseDataFlowset_sender (set_templates ts (entered r w)))
      as (_ & _ & _ & _ & _ & _ & C7 & _).
    rewrite O1, O2, C7 in Ha. cbn [set_templates peer] in Ha. rewrite Ee in Ha.
    destruct Ht as (Hr0 & _). unfold sizeof_data_flowset_t, offsetof_data in *.
    destruct Ha as [(Hlt & _)|(_ & -> & ->)]; [cbn [set_templates peer] in Hle; lia|].
    auto.
  - right. right. apply add_record_cases in Ha. cbn [set_templates peer] in Ha.
    rewrite Ee in Ha.
    destruct Ha as [(Hlt & -> & ->)|(Hle & -> & ->)]; [left|right]; auto.
Qed.

Lemma appended_fields (r : master_record_t) (idx : nat) (now : Z) (w : world) :
  peer (appended r idx now w) = peer (Append_Record r w)
  /\ sender_data (appended r idx now w) = sender_data (Append_Record r w)
  /\ outTemplates (appended r idx now w)
     = update_nth idx (schedule_refresh now) (update_nth idx count_record (outTemplates w)).
Proof. splits; reflexivity. Qed.

Lemma add_record_appended (r : master_record_t) (idx : nat) (t : outTemplate_t) (now : Z)
      (w : world) (ret : Z) (w' : world) :
  add_record r idx t now w = (ret, w') ->
  (ret = 1 /\ w' = prepare_buffer w) \/ (ret = 0 /\ w' = appended r idx now w).
Proof.
  intros H. apply add_record_cases in H.
  destruct H as [(_ & -> & ->)|(_ & -> & ->)]; [left|right]; auto.
Qed.

(** X8: what the return value of [Add_v9_output_record] tells the caller.
    Result 0: the flush flag and the sequence number are as before; a record
    without extensions changed nothing, any other record was counted once
    and brought at most one template flowset with it.  Result 1, which a
    record without extensions never gets: the flush flag is 1, the sequence
    number has advanced by one, both per-packet counters are 0 and no data
    flowset is open. *)
Theorem Add_v9_output_record_return (U : Z) (tc : v9_field -> Z) (r : master_record_t)
        (now : Z) (w : world) (ret : Z) (w' : world) :
  Add_v9_output_record U tc r now w = Some (ret, w') ->
  (ret = 0
   /\ flush (peer w') = flush (peer w)
   /\ hdr_sequence (sender_data w') = hdr_sequence (sender_data w)
   /\ (numElements r = 0 -> w' = w)
   /\ (numElements r <> 0 ->
       hdr_record_count (sender_data w') = u32 (hdr_record_count (sender_data w) + 1)
       /\ (hdr_template_count (sender_data w') = hdr_template_count (sender_data w)
           \/ hdr_template_count (sender_data w')
              = u32 (hdr_template_count (sender_data w) + 1))))
  \/ (ret = 1
      /\ numElements r <> 0
      /\ flush (peer w') = 1
      /\ hdr_sequence (sender_data w') = u32 (hdr_sequence (sender_data w) + 1)
      /\ hdr_record_count (sender_data w') = 0
      /\ hdr_template_count (sender_data w') = 0
      /\ data_flowset (sender_data w') = None).
Proof.
  intros H. apply Add_cases in H.
  destruct H as [(E & -> & ->)|(idx & ts & t & Hne & Hg & Hn & Hc)].
  { left. splits; auto. intros; contradiction. }
  destruct (entered_fields r w) as (_ & _ & Ef & Es & _).
  set (X := set_templates ts (entered r w)) in *.
  assert (Xf : flush (peer X) = flush (peer w)) by exact Ef.
  assert (Xs : sender_data X = sender_data w) by exact Es.
  destruct (CloseDataFlowset_sender X) as (_ & _ & C3 & C4 & C5 & _ & _ & C8).
  assert (Hprep : forall z : world,
            hdr_sequence (sender_data z) = hdr_sequence (sender_data w) ->
            flush (peer (prepare_buffer z)) = 1
            /\ hdr_sequence (sender_data (prepare_buffer z)) = u32 (hdr_sequence (sender_data w) + 1)
            /\ hdr_record_count (sender_data (prepare_buffer z)) = 0
            /\ hdr_template_count (sender_data (prepare_buffer z)) = 0
            /\ data_flowset (sender_data (prepare_buffer z)) = None).
  { intros z Hz. destruct (prepare_buffer_fields z) as (F1 & _ & F3 & F4 & F5 & F6 & _).
    rewrite F3, Hz. auto. }
  assert (Happ : forall z : world,
            flush (peer (appended r idx now z)) = flush (peer z)
            /\ hdr_sequence (sender_data (appended r idx now z)) = hdr_sequence (sender_data z)
            /\ hdr_record_count (sender_data (appended r idx now z))
               = u32 (hdr_record_count (sender_data z) + 1)
            /\ hdr_template_count (sender_data (appended r idx now z))
               = hdr_template_count (sender_data z)).
  { intros z. destruct (appended_fields r idx now z) as (-> & -> & _).
    destruct (Append_Record_fields r z) as (_ & _ & A3 & _ & _ & A6 & A7 & A8 & _). auto. }
  destruct Hc as [(_ & _ & -> & ->)|[(_ & _ & Ha)|(_ & Ha)]].
  - right. destruct (Hprep (CloseDataFlowset X)) as (P1 & P2 & P3 & P4 & P5).
    { rewrite C5, Xs. reflexivity. }
    splits; auto.
  - destruct (open_data_flowset_fields tc idx t now (CloseDataFlowset X))
      as (_ & _ & O3 & _ & _ & O6 & O7 & O8 & _).
    apply add_record_appended in Ha. destruct Ha as [(-> & ->)|(-> & ->)].
    + right. destruct (Hprep (open_data_flowset tc idx t now (CloseDataFlowset X)))
        as (P1 & P2 & P3 & P4 & P5).
      { rewrite O8, C5, Xs. reflexivity. }
      splits; auto.
    + left. destruct (Happ (open_data_flowset tc idx t now (CloseDataFlowset X)))
        as (A1 & A2 & A3 & A4).
      split; [reflexivity|]. split; [rewrite A1, O3, C8, Xf; reflexivity|].
      split; [rewrite A2, O8, C5, Xs; reflexivity|].
      split; [intros; contradiction|]. intros _. split.
      * rewrite A3, O6, C3, Xs. reflexivity.
      * right. rewrite A4, O7, C4, Xs. reflexivity.
  - apply add_record_appended in Ha. destruct Ha as [(-> & ->)|(-> & ->)].
    + right. destruct (Hprep X) as (P1 & P2 & P3 & P4 & P5).
      { rewrite Xs. reflexivity. }
      splits; auto.
    + left. destruct (Happ X) as (A1 & A2 & A3 & A4).
      split; [reflexivity|]. split; [rewrite A1, Xf; reflexivity|].
      split; [rewrite A2, Xs; reflexivity|].
      split; [intros; contradiction|]. intros _. split.
      * rewrite A3, Xs. reflexivity.
      * left. rewrite A4, Xs. reflexivity.
Qed.

(* ------------------------------------------------------------------ *)
(** ** What a session never overwrites                                 *)
(* ------------------------------------------------------------------ *)

(** What a call leaves of the header outside its unix-seconds, count and
    sequence fields. *)
Lemma Add_fixed_header (U : Z) (tc : v9_field -> Z) (r : master_record_t) (now : Z)
      (w : world) (ret : Z) (w' : world) (a : Z) :
  Add_v9_output_record U tc r now w = Some (ret, w') ->
  pointers_ok w ->
  a < sizeof_v9Header_t ->
  (a < off_count \/ off_count + 2 <= a) ->
  (a < off_unix_secs \/ off_sequence + 4 <= a) ->
  send_buffer (peer w') a = send_buffer (peer w) a.
Proof.
  intros H Hok Ha Hc Hs.
  destruct (Z.eq_dec (numElements r) 0) as [E|E].
  - unfold Add_v9_output_record in H. rewrite E in H. cbn [Z.eqb] in H. congruence.
  - unfold off_unix_secs, off_sequence in *.
    rewrite (Add_header_frame U tc r now w ret w' a H E Hok Ha Hc) by (unfold off_sequence; lia).
    apply entered_frame. unfold off_unix_secs. lia.
Qed.

(** X9: in every world of a session the packet header carries the version
    9, the SysUptime 0 and the source id 1 that [Init_v9_output] wrote: no
    call overwrites them. *)
Theorem header_fixed_fields (U : Z) (tc : v9_field -> Z) (w : world) :
  Reachable U tc w ->
  read_bytes (send_buffer (peer w)) off_version 2 = be_bytes 2 9
  /\ read_bytes (send_buffer (peer w)) off_SysUptime 4 = be_bytes 4 0
  /\ read_bytes (send_buffer (peer w)) off_source_id 4 = be_bytes 4 1.
Proof.
  induction 1 as [p|w r now ret w' Hr IH Hfl Ha|w Hr IH Hfl|w Hr IH Hfl].
  - splits; vm_compute; reflexivity.
  - destruct (Reachable_pointers_ok U tc w Hr) as (Hok & _).
    destruct IH as (I1 & I2 & I3). rewrite <- I1, <- I2, <- I3.
    unfold off_version, off_SysUptime, off_source_id.
    splits; apply read_bytes_ext; intros x Hx;
      apply (Add_fixed_header U tc r now w ret w' x Ha Hok);
      unfold sizeof_v9Header_t, off_count, off_unix_secs, off_sequence; simpl in Hx; lia.
  - destruct (Reachable_pointers_ok U tc w Hr) as (Hok & _).
    destruct IH as (I1 & I2 & I3). rewrite <- I1, <- I2, <- I3.
    unfold off_version, off_SysUptime, off_source_id.
    splits; apply read_bytes_ext; intros x Hx;
      apply (Close_v9_output_header_frame w x Hok);
      unfold sizeof_v9Header_t, off_count, off_unix_secs, off_sequence; simpl in Hx; lia.
  - exact IH.
Qed.

(** X10: a packet is written front to back.  A byte between the packet
    header and the cursor, other than the length field of the open data
    flowset, is changed neither by a later [Add_v9_output_record] nor by
    [Close_v9_output]. *)
Theorem written_bytes_stay (U : Z) (tc : v9_field -> Z) (w : world) (a : Z) :
  Reachable U tc w ->
  sizeof_v9Header_t <= a < buff_ptr (peer w) ->
  (forall start, data_flowset (sender_data w) = Some start -> a < start + 2 \/ start + 4 <= a) ->
  (forall (r : master_record_t) (now ret : Z) (w' : world),
      Add_v9_output_record U tc r now w = Some (ret, w') ->
      send_buffer (peer w') a = send_buffer (peer w) a)
  /\ send_buffer (peer (snd (Close_v9_output w))) a = send_buffer (peer w) a.
Proof.
  intros Hr Ha Hlen. destruct (Reachable_pointers_ok U tc w Hr) as (Hok & _).
  unfold sizeof_v9Header_t in Ha.
  assert (Hprep : forall z : world,
            buff_ptr (peer w) <= buff_ptr (peer z) ->
            (forall start, data_flowset (sender_data z) = Some start ->
                           a < start + 2 \/ start + 4 <= a) ->
            send_buffer (peer (prepare_buffer z)) a = send_buffer (peer z) a).
  { intros z Hz Hst. apply prepare_buffer_frame.
    - unfold off_count. lia.
    - unfold off_sequence. lia.
    - intros start Hs. split; [apply Hst; exact Hs|lia]. }
  split.
  - intros r now ret w' H.
    destruct (Z.eq_dec (numElements r) 0) as [E|E].
    { unfold Add_v9_output_record in H. rewrite E in H. cbn [Z.eqb] in H. congruence. }
    destruct (Add_outcomes U tc r now w ret w' H E) as (idx & ts & t & Hg & Hn & Hwf & Hc).
    { apply Hok. }
    assert (Ht : wf_template t).
    { eapply Forall_forall; [exact Hwf|]. eapply nth_error_In. exact Hn. }
    destruct (entered_fields r w) as (E1 & _ & _ & Es & _).
    destruct (entered_pointers_ok r w Hok) as (Hok1 & H20).
    pose proof (set_templates_pointers_ok ts _ Hok1 Hwf) as Hok2.
    set (X := set_templates ts (entered r w)) in *.
    assert (Xp : buff_ptr (peer X) = buff_ptr (peer w)).
    { change (buff_ptr (peer X)) with (buff_ptr (peer (entered r w))). rewrite E1.
      destruct (Z.eqb_spec (buff_ptr (peer w)) 0); [lia|reflexivity]. }
    assert (Xs : sender_data X = sender_data w) by exact Es.
    assert (Xb : send_buffer (peer X) a = send_buffer (peer w) a).
    { change (send_buffer (peer X)) with (send_buffer (peer (entered r w))).
      apply entered_frame. unfold off_unix_secs. lia. }
    destruct (CloseDataFlowset_pointers_ok X Hok2) as (Hok3 & Hge).
    assert (Cb : send_buffer (peer (CloseDataFlowset X)) a = send_buffer (peer X) a).
    { apply CloseDataFlowset_frame. intros start Hs. rewrite Xs in Hs.
      split; [apply Hlen; exact Hs|lia]. }
    destruct (CloseDataFlowset_sender X) as (Cn & _).
    assert (Happ : forall z : world,
              buff_ptr (peer w) <= buff_ptr (peer z) ->
              send_buffer (peer (appended r idx now z)) a = send_buffer (peer z) a).
    { intros z Hz. destruct (appended_fields r idx now z) as (-> & _).
      apply Append_Record_frame. lia. }
    destruct Hc as [(_ & _ & _ & ->)|[(_ & _ & _ & ->)|[(_ & _ & _ & ->)|(_ & _ & _ & ->)]]].
    + rewrite Hprep; [rewrite Cb, Xb; reflexivity|lia|intros start Hs; congruence].
    + rewrite Happ.
      * rewrite open_data_flowset_frame, Cb, Xb; auto; try lia. apply Ht.
      * destruct (open_data_flowset_fields tc idx t now (CloseDataFlowset X)) as (-> & _).
        destruct Ht as (_ & Hf0 & _). unfold offsetof_data. lia.
    + rewrite Hprep; [rewrite Xb; reflexivity|lia|intros start Hs; rewrite Xs in Hs; auto].
    + rewrite Happ, Xb; auto; lia.
  - unfold Close_v9_output.
    destruct (0 <? u32 (hdr_record_count (sender_data w) + hdr_template_count (sender_data w)));
      cbn [snd]; auto.
    apply Hprep; auto. lia.
Qed.

(* ------------------------------------------------------------------ *)
(** ** Data flowsets and the templates that describe them              *)
(* ------------------------------------------------------------------ *)

Lemma same_wire_refl (t : outTemplate_t) : same_wire t t.
Proof. unfold same_wire. auto. Qed.

Lemma same_wire_set_time_sent (now : Z) (t : outTemplate_t) : same_wire t (set_time_sent now t).
Proof. unfold same_wire. auto. Qed.

Lemma same_wire_count_record (t : outTemplate_t) : same_wire t (count_record t).
Proof. unfold same_wire. auto. Qed.

Lemma same_wire_schedule_refresh (now : Z) (t : outTemplate_t) :
  same_wire t (schedule_refresh now t).
Proof. unfold same_wire, schedule_refresh. destruct (refresh_due now t); auto. Qed.

Lemma same_wire_trans (t1 t2 t3 : outTemplate_t) :
  same_wire t1 t2 -> same_wire t2 t3 -> same_wire t1 t3.
Proof. unfold same_wire. intros (A1 & A2 & A3 & A4) (B1 & B2 & B3 & B4). splits; congruence. Qed.

(** Updating one descriptor in place by a function that keeps its wire
    image keeps the wire image of every position. *)
Lemma update_nth_same_wire (f : outTemplate_t -> outTemplate_t) :
  (forall t, same_wire t (f t)) ->
  forall (l : list outTemplate_t) (n i : nat) (t : outTemplate_t),
    nth_error l i = Some t ->
    exists t', nth_error (update_nth n f l) i = Some t' /\ same_wire t t'.
Proof.
  intros Hf. induction l as [|x l IH]; intros n i t H.
  - destruct i; discriminate.
  - destruct n, i; simpl in *.
    + apply Some_eq_inv in H. subst x. eauto.
    + exists t. split; [exact H|apply same_wire_refl].
    + apply Some_eq_inv in H. subst x. exists t. split; [reflexivity|apply same_wire_refl].
    + apply IH. exact H.
Qed.

Lemma update_nth_length {A : Type} (f : A -> A) : forall (l : list A) (n : nat),
  length (update_nth n f l) = length l.
Proof.
  induction l as [|x l IH]; intros n; destruct n; simpl; auto.
Qed.

Lemma appended_same_wire (r : master_record_t) (idx : nat) (now : Z) (w : world)
      (i : nat) (t : outTemplate_t) :
  nth_error (outTemplates w) i = Some t ->
  exists t', nth_error (outTemplates (appended r idx now w)) i = Some t' /\ same_wire t t'.
Proof.
  intros H. destruct (appended_fields r idx now w) as (_ & _ & ->).
  destruct (Append_Record_fields r w) as (_ & _ & _ & _ & _ & _ & _ & _ & A9 & _).
  destruct (update_nth_same_wire count_record same_wire_count_record _ idx i t H)
    as (t1 & H1 & S1).
  destruct (update_nth_same_wire (schedule_refresh now) (same_wire_schedule_refresh now)
              _ idx i t1 H1) as (t2 & H2 & S2).
  exists t2. split; [exact H2|]. eapply same_wire_trans; eauto.
Qed.

Lemma GetOutputTemplate_keeps (U : Z) (r : master_record_t) (ts ts' : list outTemplate_t)
      (idx i : nat) (t : outTemplate_t) :
  GetOutputTemplate U r ts = Some (idx, ts') ->
  nth_error ts i = Some t -> nth_error ts' i = Some t.
Proof.
  intros H Hi. apply GetOutputTemplate_cases in H.
  destruct H as [(-> & _)|(t' & -> & _)]; auto.
  rewrite nth_error_app1; auto. apply nth_error_Some. congruence.
Qed.

(** X11: in every world of a session an open data flowset is described in
    the same packet.  Directly in front of it, behind the packet header, lie
    the bytes of the template flowset of a descriptor of the list; the first
    two bytes of the data flowset are the id of that descriptor, which is
    the id [sender_data] records for the open flowset. *)
Theorem open_flowset_follows_its_template (U : Z) (tc : v9_field -> Z) (w : world) :
  Reachable U tc w -> flowset_described tc w.
Proof.
  intros Hr.
  assert (H : Forall (flowset_ok tc) (outTemplates w) /\ flowset_described tc w).
  2:{ apply H. }
  induction Hr as [p|w r now ret w' Hr IH Hfl Ha|w Hr IH Hfl|w Hr IH Hfl].
  - split; [constructor|]. intros start Hs. discriminate.
  - destruct IH as (Hfo & Hd).
    destruct (Reachable_pointers_ok U tc w Hr) as (Hok & _).
    destruct (Z.eq_dec (numElements r) 0) as [E|E].
    { unfold Add_v9_output_record in Ha. rewrite E in Ha. cbn [Z.eqb] in Ha.
      assert (w' = w) by congruence. subst w'. auto. }
    destruct (Add_outcomes U tc r now w ret w' Ha E) as (idx & ts & t & Hg & Hn & Hwf & Hc).
    { apply Hok. }
    assert (Hfo' : Forall (flowset_ok tc) ts).
    { pose proof Hg as Hg'. apply GetOutputTemplate_cases in Hg'.
      destruct Hg' as [(-> & _)|(t' & -> & _ & Hnew & _)]; auto.
      apply Forall_app. split; auto. constructor; [|constructor].
      eapply new_template_flowset_ok. exact Hnew. }
    assert (Ht : wf_template t).
    { eapply Forall_forall; [exact Hwf|]. eapply nth_error_In. exact Hn. }
    assert (Hto : flowset_ok tc t).
    { eapply Forall_forall; [exact Hfo'|]. eapply nth_error_In. exact Hn. }
    destruct (entered_fields r w) as (E1 & _ & _ & Es & _).
    destruct (entered_pointers_ok r w Hok) as (Hok1 & H20).
    pose proof (set_templates_pointers_ok ts _ Hok1 Hwf) as Hok2.
    set (X := set_templates ts (entered r w)) in *.
    assert (Xs : sender_data X = sender_data w) by exact Es.
    assert (Xt : outTemplates X = ts) by reflexivity.
    assert (Xp : sizeof_v9Header_t <= buff_ptr (peer X)) by exact H20.
    destruct (CloseDataFlowset_pointers_ok X Hok2) as (Hok3 & Hge).
    destruct (CloseDataFlowset_sender X) as (_ & _ & _ & _ & _ & Ct & _).
    assert (Hfo_app : forall z : world,
              Forall (flowset_ok tc) (outTemplates z) ->
              Forall (flowset_ok tc) (outTemplates (appended r idx now z))).
    { intros z Hz. apply Forall_forall. intros t' Hin.
      apply In_nth_error in Hin. destruct Hin as (i & Hi).
      destruct (nth_error (outTemplates z) i) as [t0|] eqn:H0.
      - destruct (appended_same_wire r idx now z i t0 H0) as (t1 & H1 & Hid & Hfl' & _ & Htf).
        assert (t1 = t') by congruence. subst t1.
        assert (Ht0 : flowset_ok tc t0).
        { eapply Forall_forall; [exact Hz|]. eapply nth_error_In. exact H0. }
        unfold flowset_ok in *. rewrite Hid, Hfl', Htf. exact Ht0.
      - exfalso. apply nth_error_None in H0.
        assert (Hlen : length (outTemplates (appended r idx now z)) = length (outTemplates z)).
        { destruct (appended_fields r idx now z) as (_ & _ & ->).
          rewrite !update_nth_length. reflexivity. }
        assert (Hsome : nth_error (outTemplates (appended r idx now z)) i <> None) by congruence.
        apply nth_error_Some in Hsome. lia. }
    destruct Hc as [(_ & _ & _ & ->)|[(_ & _ & _ & ->)|[(_ & _ & _ & ->)|(_ & _ & _ & ->)]]].
    + destruct (prepare_buffer_fields (CloseDataFlowset X)) as (_ & _ & _ & _ & _ & P6 & _ & _ & P9).
      split; [rewrite P9, Ct; exact Hfo'|]. intros start Hs. congruence.
    + set (c := CloseDataFlowset X) in *.
      assert (Hfo_open : Forall (flowset_ok tc) (outTemplates (open_data_flowset tc idx t now c))).
      { destruct (open_data_flowset_fields tc idx t now c) as (_ & _ & _ & _ & _ & _ & _ & _ & ->).
        rewrite Ct, Xt. apply update_nth_Forall; auto. }
      split; [apply Hfo_app; exact Hfo_open|].
      destruct (open_then_append_layout tc idx t now r c
                  (outTemplates (appended r idx now (open_data_flowset tc idx t now c))) Hto)
        as ((L1 & L2 & L3 & _) & L5).
      change (set_templates
                (outTemplates (appended r idx now (open_data_flowset tc idx t now c)))
                (Append_Record r (open_data_flowset tc idx t now c)))
        with (appended r idx now (open_data_flowset tc idx t now c)) in *.
      set (w1 := appended r idx now (open_data_flowset tc idx t now c)) in *.
      intros start Hs. rewrite L1 in Hs. apply Some_eq_inv in Hs.
      assert (Hnth : nth_error (outTemplates (open_data_flowset tc idx t now c)) idx
                     = Some (set_time_sent now t)).
      { destruct (open_data_flowset_fields tc idx t now c) as (_ & _ & _ & _ & _ & _ & _ & _ & ->).
        apply update_nth_nth_error. rewrite Ct, Xt. exact Hn. }
      destruct (appended_same_wire r idx now _ idx _ Hnth) as (t1 & H1 & Hid & Hfl' & _ & Htf).
      fold w1 in H1. cbn [template_id flowset_length template_flowset set_time_sent] in Hid, Hfl', Htf.
      exists idx, t1. rewrite Hid, Hfl', Htf, <- Hs. splits; auto.
      rewrite L5. unfold offsetof_data. lia.
    + destruct (prepare_buffer_fields X) as (_ & _ & _ & _ & _ & P6 & _ & _ & P9).
      split; [rewrite P9; exact Hfo'|]. intros start Hs. congruence.
    + split; [apply Hfo_app; exact Hfo'|].
      destruct (appended_fields r idx now X) as (Ap & As & _).
      destruct (Append_Record_fields r X) as (_ & _ & _ & A4 & A5 & _ & _ & _ & _ & _).
      intros start Hs. rewrite As, A4, Xs in Hs.
      destruct (Hd start Hs) as (i & t0 & Hi & Hid & H20' & Hb1 & Hb2).
      pose proof (GetOutputTemplate_keeps U r _ _ idx i t0 Hg Hi) as Hi'.
      destruct (appended_same_wire r idx now X i t0 Hi') as (t1 & H1 & Sid & Sfl & _ & Stf).
      exists i, t1. rewrite Sid, Sfl, Stf, As, A5, Xs, Ap.
      destruct Hok as (_ & _ & Hst & _). destruct (Hst start Hs) as (_ & _ & Hcur).
      assert (Hf0 : 0 <= flowset_length t0).
      { assert (Hw0 : wf_template t0).
        { eapply Forall_forall; [apply Hwf|]. eapply nth_error_In. exact Hi'. }
        apply Hw0. }
      assert (Xpw : buff_ptr (peer X) = buff_ptr (peer w)).
      { change (buff_ptr (peer X)) with (buff_ptr (peer (entered r w))). rewrite E1.
        unfold offsetof_data, sizeof_v9Header_t in *.
        destruct (Z.eqb_spec (buff_ptr (peer w)) 0); [lia|reflexivity]. }
      assert (Hfr : forall x, sizeof_v9Header_t <= x < start + offsetof_data ->
                send_buffer (peer (Append_Record r X)) x = send_buffer (peer w) x).
      { intros x Hx. rewrite Append_Record_frame by lia.
        change (send_buffer (peer X)) with (send_buffer (peer (entered r w))).
        apply entered_frame. unfold off_unix_secs, sizeof_v9Header_t in *. lia. }
      splits; auto.
      * rewrite <- Hb1. apply read_bytes_ext. intros x Hx. apply Hfr.
        unfold offsetof_data. lia.
      * rewrite <- Hb2. apply read_bytes_ext. intros x Hx. apply Hfr.
        unfold offsetof_data. simpl in Hx. lia.
  - destruct IH as (Hfo & Hd). unfold Close_v9_output.
    destruct (0 <? u32 (hdr_record_count (sender_data w) + hdr_template_count (sender_data w)));
      cbn [snd]; auto.
    destruct (prepare_buffer_fields w) as (_ & _ & _ & _ & _ & P6 & _ & _ & P9).
    split; [rewrite P9; exact Hfo|]. intros start Hs. congruence.
  - exact IH.
Qed.

(* ------------------------------------------------------------------ *)
(** ** The cursor and the end of the buffer                            *)
(* ------------------------------------------------------------------ *)

Lemma Session_Reachable (U : Z) (tc : v9_field -> Z) (ok : master_record_t -> Prop) (w : world) :
  Session U tc ok w -> Reachable U tc w.
Proof.
  induction 1.
  - apply reach_init.
  - eapply reach_add; eauto.
  - apply reach_close; auto.
  - apply reach_flush; auto.
Qed.

(** The length of a record on the wire depends on its extension list
    only. *)
Lemma extension_bytes_length (r1 r2 : master_record_t) (e : ext_id) :
  length (extension_bytes r1 e) = length (extension_bytes r2 e).
Proof.
  destruct e; unfold extension_bytes; try destruct (is_icmp r1); try destruct (is_icmp r2);
    cbn [flat_map seq]; rewrite ?length_app, ?length_be_bytes; reflexivity.
Qed.

Lemma record_bytes_length (r1 r2 : master_record_t) :
  mr_exElementList r1 = mr_exElementList r2 ->
  length (record_bytes r1) = length (record_bytes r2).
Proof.
  intros H. unfold record_bytes. rewrite H, !length_app, !length_be_bytes.
  assert (Hl : forall l, length (flat_map (extension_bytes r1) l)
                         = length (flat_map (extension_bytes r2) l)).
  { induction l as [|e l IH]; [reflexivity|].
    cbn [flat_map]. rewrite !length_app, IH, (extension_bytes_length r1 r2). reflexivity. }
  rewrite Hl. reflexivity.
Qed.

Lemma built_for_same_wire (ok : master_record_t -> Prop) (t t' : outTemplate_t) :
  size t' = size t -> numExtensions t' = numExtensions t -> record_length t' = record_length t ->
  built_for ok t -> built_for ok t'.
Proof.
  intros Hs Hn Hr (r0 & H0 & H1 & H2 & H3). exists r0. splits; congruence.
Qed.

Lemma update_nth_built_for (ok : master_record_t -> Prop) (f : outTemplate_t -> outTemplate_t) :
  (forall t, size (f t) = size t /\ numExtensions (f t) = numExtensions t
             /\ record_length (f t) = record_length t) ->
  forall (l : list outTemplate_t) (n : nat),
    Forall (built_for ok) l -> Forall (built_for ok) (update_nth n f l).
Proof.
  intros Hf l n H. apply update_nth_Forall; auto.
  intros t Ht. destruct (Hf t) as (A & B & C). eapply built_for_same_wire; eauto.
Qed.

Lemma schedule_refresh_keeps (now : Z) (t : outTemplate_t) :
  size (schedule_refresh now t) = size t
  /\ numExtensions (schedule_refresh now t) = numExtensions t
  /\ record_length (schedule_refresh now t) = record_length t.
Proof. unfold schedule_refresh. destruct (refresh_due now t); auto. Qed.

(** In a session with size-keyed records the descriptor looked up for a
    record has the record length of that record. *)
Lemma GetOutputTemplate_built_for (U : Z) (ok : master_record_t -> Prop) (r : master_record_t)
      (ts ts' : list outTemplate_t) (idx : nat) (t : outTemplate_t) :
  size_keyed ok -> ok r ->
  GetOutputTemplate U r ts = Some (idx, ts') ->
  nth_error ts' idx = Some t ->
  Forall (built_for ok) ts ->
  Forall (built_for ok) ts' /\ record_length t = Z.of_nat (length (record_bytes r)).
Proof.
  intros Hk Hr Hg Hn Hb. apply GetOutputTemplate_cases in Hg.
  destruct Hg as [(-> & t0 & Ht0 & Hs & Hne)|(t0 & -> & -> & Hnew & _)].
  - split; auto. assert (t0 = t) by congruence. subst t0.
    assert (Hbt : built_for ok t).
    { eapply Forall_forall; [exact Hb|]. eapply nth_error_In. exact Hn. }
    destruct Hbt as (r0 & H0 & H1 & H2 & H3). rewrite H3. f_equal.
    apply record_bytes_length. apply Hk; auto; congruence.
  - rewrite nth_error_app2, Nat.sub_diag in Hn by lia. apply Some_eq_inv in Hn. subst t0.
    apply new_template_spec in Hnew.
    destruct Hnew as (F & _ & Hb' & Hrl & _ & _ & _ & Hs & Hne & _).
    assert (Hlen : record_length t = Z.of_nat (length (record_bytes r))).
    { unfold record_bytes. rewrite !length_app, !length_be_bytes. lia. }
    split; auto. apply Forall_app. split; auto. constructor; [|constructor].
    exists r. auto.
Qed.

Lemma CloseDataFlowset_bound (w : world) :
  pointers_ok w ->
  buff_ptr (peer (CloseDataFlowset w)) <= buff_ptr (peer w) + 2
  /\ (data_flowset (sender_data w) = None ->
      buff_ptr (peer (CloseDataFlowset w)) = buff_ptr (peer w)).
Proof.
  intros (Hp & He & Hs & _).
  destruct (data_flowset (sender_data w)) as [start|] eqn:Hd.
  - rewrite (CloseDataFlowset_open w start Hd). cbv zeta. cbn [peer buff_ptr].
    destruct (Hs start eq_refl) as (Hs1 & Hs2 & Hs3).
    rewrite u32_mod_4. split; [mod_lia|discriminate].
  - rewrite (CloseDataFlowset_closed w Hd). split; [lia|reflexivity].
Qed.

Lemma prepare_buffer_bounded (w : world) :
  pointers_ok w -> cursor_bounded w -> cursor_bounded (prepare_buffer w).
Proof.
  intros Hok Hb. destruct (prepare_buffer_fields w) as (_ & F2 & _ & _ & _ & F6 & _).
  destruct (CloseDataFlowset_bound w Hok) as (C1 & C2).
  unfold cursor_bounded. rewrite prepare_buffer_buff_ptr, F2, F6. right. split; auto.
  destruct Hb as [Hb|(Hb & Hn)]; [lia|]. rewrite C2 by exact Hn. exact Hb.
Qed.

(** X12: the cursor and the end of the buffer.  In a session whose records
    carry the same extension list whenever they agree on declared size and
    number of extensions, on a buffer that holds the packet header, the
    cursor is never more than two bytes behind [endp], and not behind
    [endp] at all while a data flowset is open: records and templates are
    written in front of [endp], and only the two padding bytes of
    [CloseDataFlowset], which no capacity check precedes, can pass it. *)
Theorem cursor_stays_in_buffer (U : Z) (tc : v9_field -> Z) (ok : master_record_t -> Prop)
        (w : world) :
  size_keyed ok ->
  Session U tc ok w ->
  sizeof_v9Header_t <= endp (peer w) ->
  buff_ptr (peer w) <= endp (peer w) + 2
  /\ (data_flowset (sender_data w) <> None -> buff_ptr (peer w) <= endp (peer w)).
Proof.
  intros Hk Hs.
  assert (H : Forall (built_for ok) (outTemplates w)
              /\ (sizeof_v9Header_t <= endp (peer w) -> cursor_bounded w)).
  2:{ destruct H as (_ & H). intros H20. destruct (H H20) as [Hb|(Hb & Hn)].
      - split; [lia|auto].
      - split; [exact Hb|]. intros Hne. contradiction. }
  induction Hs as [p|w r now ret w' Hs IH Hr Hfl Ha|w Hs IH Hfl|w Hs IH Hfl].
  - split; [constructor|]. intros H20. left. exact H20.
  - destruct IH as (Hbf & Hcb).
    destruct (Reachable_pointers_ok U tc w (Session_Reachable U tc ok w Hs)) as (Hok & _).
    destruct (Z.eq_dec (numElements r) 0) as [E|E].
    { unfold Add_v9_output_record in Ha. rewrite E in Ha. cbn [Z.eqb] in Ha.
      assert (w' = w) by congruence. subst w'. auto. }
    destruct (Add_outcomes U tc r now w ret w' Ha E) as (idx & ts & t & Hg & Hn & Hwf & Hc).
    { apply Hok. }
    destruct (GetOutputTemplate_built_for U ok r _ _ idx t Hk Hr Hg Hn Hbf) as (Hbf' & Hrl).
    destruct (entered_fields r w) as (E1 & E2 & _ & Es & _).
    destruct (entered_pointers_ok r w Hok) as (Hok1 & H20).
    pose proof (set_templates_pointers_ok ts _ Hok1 Hwf) as Hok2.
    set (X := set_templates ts (entered r w)) in *.
    assert (Xs : sender_data X = sender_data w) by exact Es.
    assert (Xe : endp (peer X) = endp (peer w)) by exact E2.
    assert (Xt : outTemplates X = ts) by reflexivity.
    assert (Xp : buff_ptr (peer X)
                 = if buff_ptr (peer w) =? 0 then sizeof_v9Header_t else buff_ptr (peer w))
      by exact E1.
    assert (Xb : sizeof_v9Header_t <= endp (peer w) -> cursor_bounded X).
    { intros H20'. specialize (Hcb H20'). unfold cursor_bounded in *. rewrite Xp, Xs, Xe.
      destruct (Z.eqb_spec (buff_ptr (peer w)) 0); auto. }
    destruct (CloseDataFlowset_pointers_ok X Hok2) as (Hok3 & Hge).
    destruct (CloseDataFlowset_sender X) as (Cn & _ & _ & _ & _ & Ct & Ce & _).
    destruct (CloseDataFlowset_bound X Hok2) as (Cb1 & Cb2).
    assert (Cb : sizeof_v9Header_t <= endp (peer w) -> cursor_bounded (CloseDataFlowset X)).
    { intros H20'. specialize (Xb H20'). unfold cursor_bounded in *. rewrite Ce, Cn, Xe in *.
      right. split; auto. destruct Xb as [Hb|(Hb & Hnone)]; [lia|].
      rewrite Cb2 by exact Hnone. exact Hb. }
    assert (Happ : forall z : world,
              Forall (built_for ok) (outTemplates z) ->
              Forall (built_for ok) (outTemplates (appended r idx now z))
              /\ buff_ptr (peer (appended r idx now z)) = buff_ptr (peer z) + record_length t
              /\ endp (peer (appended r idx now z)) = endp (peer z)).
    { intros z Hz. destruct (appended_fields r idx now z) as (-> & _ & ->).
      destruct (Append_Record_fields r z) as (A1 & A2 & _).
      rewrite A1, A2, Hrl. splits; auto.
      apply update_nth_built_for; [apply schedule_refresh_keeps|].
      apply update_nth_built_for; auto. }
    destruct Hc as [(_ & _ & _ & ->)|[(_ & Hle & _ & ->)|[(_ & _ & _ & ->)|(_ & Hle & _ & ->)]]].
    + destruct (prepare_buffer_fields (CloseDataFlowset X)) as (_ & F2 & _ & _ & _ & _ & _ & _ & F9).
      rewrite F9, Ct, Xt, F2, Ce, Xe. split; auto.
      intros H20'. apply prepare_buffer_bounded; auto.
    + destruct (open_data_flowset_fields tc idx t now (CloseDataFlowset X))
        as (O1 & O2 & _ & _ & _ & _ & _ & _ & O9).
      destruct (Happ (open_data_flowset tc idx t now (CloseDataFlowset X))) as (B1 & B2 & B3).
      { rewrite O9, Ct, Xt. apply update_nth_built_for; auto. }
      split; auto. intros _. left. rewrite B2, B3, O1, O2, Ce, Xe.
      unfold sizeof_data_flowset_t, offsetof_data in *. lia.
    + destruct (prepare_buffer_fields X) as (_ & F2 & _ & _ & _ & _ & _ & _ & F9).
      rewrite F9, Xt, F2, Xe. split; auto.
      intros H20'. apply prepare_buffer_bounded; auto.
    + destruct (Happ X) as (B1 & B2 & B3); [rewrite Xt; exact Hbf'|].
      split; auto. intros _. left. rewrite B2, B3, Xe.
      change (buff_ptr (peer X)) with (buff_ptr (peer (entered r w))). lia.
  - destruct IH as (Hbf & Hcb).
    destruct (Reachable_pointers_ok U tc w (Session_Reachable U tc ok w Hs)) as (Hok & _).
    unfold Close_v9_output.
    destruct (0 <? u32 (hdr_record_count (sender_data w) + hdr_template_count (sender_data w)));
      cbn [snd]; auto.
    destruct (prepare_buffer_fields w) as (_ & F2 & _ & _ & _ & _ & _ & _ & F9).
    rewrite F9, F2. split; auto. intros H20. apply prepare_buffer_bounded; auto.
  - destruct IH as (Hbf & Hcb). split; [exact Hbf|].
    intros H20. left. cbn. unfold sizeof_v9Header_t in *. cbn in H20. lia.
Qed.

(* ------------------------------------------------------------------ *)
(** ** The first packet of a session                                   *)
(* ------------------------------------------------------------------ *)

Lemma map_seq_shift {A : Type} (f : nat -> A) (k : nat) : forall (n s : nat),
  map f (seq (s + k) n) = map (fun i => f (i + k)%nat) (seq s n).
Proof.
  induction n as [|n IH]; intros s; [reflexivity|].
  cbn [seq map]. f_equal. apply (IH (S s)).
Qed.

Lemma read_bytes_app (m : memory) (a : Z) (n1 n2 : nat) :
  read_bytes m a (n1 + n2) = read_bytes m a n1 ++ read_bytes m (a + Z.of_nat n1) n2.
Proof.
  unfold read_bytes. rewrite seq_app, map_app. f_equal.
  rewrite (map_seq_shift (fun i => m (a + Z.of_nat i)) n1 n2 0).
  apply map_ext. intros i. f_equal. lia.
Qed.

Lemma bytes_at_app (m : memory) (a : Z) (l1 l2 : list Z) :
  bytes_at m a l1 -> bytes_at m (a + Z.of_nat (length l1)) l2 -> bytes_at m a (l1 ++ l2).
Proof.
  unfold bytes_at. intros H1 H2. rewrite length_app, read_bytes_app, H1, H2. reflexivity.
Qed.

Lemma bytes_at_store (m : memory) (a : Z) (l : list Z) :
  Forall (fun b => 0 <= b < 256) l -> bytes_at (store_bytes m a l) a l.
Proof.
  intros H. unfold bytes_at. rewrite read_bytes_store_bytes. apply map_u8_range. exact H.
Qed.

Lemma bytes_at_frame (m : memory) (a b : Z) (l l' : list Z) :
  b + Z.of_nat (length l') <= a \/ a + Z.of_nat (length l) <= b ->
  bytes_at m a l -> bytes_at (store_bytes m b l') a l.
Proof.
  unfold bytes_at. intros Hd H. rewrite <- H at 2. apply read_bytes_ext.
  intros x Hx. apply store_bytes_out. lia.
Qed.

Lemma bytes_at_store_at (m : memory) (a a' : Z) (l : list Z) :
  a = a' -> Forall (fun b => 0 <= b < 256) l -> bytes_at (store_bytes m a' l) a l.
Proof. intros <-. apply bytes_at_store. Qed.

Lemma repeat_zero_range (n : nat) : Forall (fun b => 0 <= b < 256) (repeat 0 n).
Proof. apply Forall_forall. intros x Hx. apply repeat_spec in Hx. subst x. lia. Qed.

Lemma entered_buffer_first (r : master_record_t) (w : world) :
  be_value (unix_secs w) = 0 ->
  send_buffer (peer (entered r w))
  = store_bytes (send_buffer (peer w)) off_unix_secs (be_bytes 4 (anchor_of r)).
Proof.
  unfold unix_secs. intros H.
  unfold entered, set_peer, skip_header, first_time_setup, set_buffer, set_buff_ptr, anchor_of.
  cbn [peer]. rewrite H. cbn [Z.eqb buff_ptr send_buffer].
  destruct (buff_ptr (peer w) =? 0); reflexivity.
Qed.

Lemma aligned_length_even (n : Z) :
  0 <= n < 2 ^ 31 -> n mod 2 = 0 ->
  aligned_length n = n + n mod 4 /\ aligned_length n mod 4 = 0 /\ 0 <= n mod 4 <= 2.
Proof.
  intros Hn He. unfold aligned_length.
  assert (Hm : n mod 4 = 0 \/ n mod 4 = 2) by mod_lia.
  destruct (Z.eqb_spec (n mod 4) 0) as [E|E].
  - rewrite E. splits; lia.
  - destruct Hm as [Hm|Hm]; [contradiction|]. rewrite Hm. rewrite u32_small by lia.
    splits; try lia. mod_lia.
Qed.

(** No field is wider than 16 bytes: a record is at most 16 bytes per
    field long. *)
Lemma template_loop_record_length (r : master_record_t) :
  forall (l : list ext_id) (b b' : build_t),
    template_loop l b = returns b' ->
    0 <= b_count b -> 0 <= b_record_length b <= 16 * b_count b ->
    0 <= b_record_length b' <= 16 * b_count b' /\ b_count b' <= Z.max (b_count b) 54.
Proof.
  induction l as [|e l IH]; intros b b' Hl Hc Hr.
  - apply returns_eq_inv in Hl. subst b'. lia.
  - apply template_loop_cons_returns in Hl. destruct Hl as (Hhead & Hslot & Hl).
    unfold numV9Elements in Hhead. unfold field_slots, numV9Elements in Hslot.
    destruct (template_extension_spec r e b) as (F & HF & HcF & HlF & HrF & HbF & HwF); try lia.
    apply IH in Hl; lia.
Qed.

Lemma new_template_record_length (U : Z) (r : master_record_t) (tid : Z) (t : outTemplate_t) :
  new_template U r tid = Some t -> 0 <= record_length t <= 848.
Proof.
  intros H. apply new_template_inv in H. destruct H as (b & Hl & Hslots & H).
  unfold field_slots, numV9Elements in Hslots.
  destruct build_init_fields as (_ & Hc & Hr).
  destruct (template_loop_record_length r _ _ _ Hl) as (Hb & Hm); try lia.
  cbv zeta in H.
  match type of H with (if ?c then _ else _) = _ => destruct c; [discriminate|] end.
  apply Some_eq_inv in H. subst t. cbn [record_length]. lia.
Qed.

(** X13: the first packet of a session, byte by byte.  One record added to
    a fresh session on a buffer that holds header, template and record, and
    then [Close_v9_output]: the call returns 0, the close returns 1 with the
    flush flag up, and the buffer from its start to the cursor is the header
    (version 9, count 2, SysUptime 0, the unix-seconds anchor of the record,
    sequence 1, source id 1), the template flowset, and the data flowset:
    template id, aligned length, the bytes of the record and the zero
    padding up to the aligned length. *)
Theorem first_packet_on_the_wire (U : Z) (tc : v9_field -> Z) (r : master_record_t)
        (t : outTemplate_t) (p : send_peer_t) (now : Z) :
  new_template U r 0 = Some t ->
  numElements r <> 0 ->
  sizeof_v9Header_t + record_length t + sizeof_data_flowset_t + flowset_length t <= endp p ->
  exists w1 w2 : world,
    Add_v9_output_record U tc r now (Init_v9_output p) = Some (0, w1)
    /\ Close_v9_output w1 = (1, w2)
    /\ flush (peer w2) = 1
    /\ buff_ptr (peer w2)
       = sizeof_v9Header_t + flowset_length t + aligned_length (4 + record_length t)
    /\ read_bytes (send_buffer (peer w2)) 0 (Z.to_nat (buff_ptr (peer w2)))
       = (be_bytes 2 9 ++ be_bytes 2 2 ++ be_bytes 4 0 ++ be_bytes 4 (anchor_of r)
          ++ be_bytes 4 1 ++ be_bytes 4 1)
         ++ firstn (Z.to_nat (flowset_length t)) (template_flowset_bytes tc (template_flowset t))
         ++ (be_bytes 2 (template_id t) ++ be_bytes 2 (aligned_length (4 + record_length t))
             ++ record_bytes r
             ++ repeat 0 (Z.to_nat (aligned_length (4 + record_length t)
                                    - (4 + record_length t)))).
Proof.
  intros Hnew Hne Hcap.
  destruct (stream_template U r t Hnew) as (Hid & _ & _ & Hrl & _).
  destruct (new_template_wf U r 0 t Hnew) as (Hr0 & Hf0 & Hf4 & _).
  pose proof (new_template_flowset_ok U tc r 0 t Hnew) as (_ & Hfl & Htid).
  pose proof (new_template_record_length U r 0 t Hnew) as HrB.
  pose proof (record_bytes_length_even r) as Heven. rewrite <- Hrl in Heven.
  set (w0 := Init_v9_output p).
  set (tb := firstn (Z.to_nat (flowset_length t))
                    (template_flowset_bytes tc (template_flowset t))) in *.
  assert (Htb : Z.of_nat (length tb) = flowset_length t).
  { unfold tb. rewrite length_firstn. lia. }
  assert (Htbr : Forall (fun b => 0 <= b < 256) tb).
  { unfold tb. apply Forall_firstn_keeps, template_flowset_bytes_range. }
  assert (Hget : GetOutputTemplate U r (outTemplates w0) = Some (0%nat, [t])).
  { unfold GetOutputTemplate. cbn [w0 Init_v9_output outTemplates search_template].
    rewrite Hnew. reflexivity. }
  destruct (entered_fields r w0) as (E1 & E2 & E3 & E4 & E5).
  set (X := set_templates [t] (entered r w0)) in *.
  assert (Xp : buff_ptr (peer X) = sizeof_v9Header_t) by exact E1.
  assert (Xe : endp (peer X) = endp p) by exact E2.
  assert (Xf : flush (peer X) = flush p) by exact E3.
  assert (Xs : sender_data X = mkSender 0 0 0 None 0) by exact E4.
  assert (Xb : send_buffer (peer X)
               = store_bytes (send_buffer (peer w0)) off_unix_secs (be_bytes 4 (anchor_of r))).
  { change (send_buffer (peer X)) with (send_buffer (peer (entered r w0))).
    apply entered_buffer_first. unfold w0. rewrite Init_unix_secs. reflexivity. }
  assert (Xc : CloseDataFlowset X = X).
  { apply CloseDataFlowset_closed. rewrite Xs. reflexivity. }
  set (O := open_data_flowset tc 0 t now X).
  destruct (open_data_flowset_fields tc 0 t now X) as (O1 & O2 & O3 & O4 & O5 & O6 & O7 & O8 & O9).
  fold O in O1, O2, O3, O4, O5, O6, O7, O8, O9.
  assert (Ob : send_buffer (peer O)
               = store_bytes (store_bytes (send_buffer (peer X)) (buff_ptr (peer X)) tb)
                             (buff_ptr (peer X) + flowset_length t)
                             (be_bytes 2 (tf_template_id (template_flowset t)))) by reflexivity.
  set (W1 := appended r 0 now O).
  destruct (appended_fields r 0 now O) as (Ap & As & _). fold W1 in Ap, As.
  destruct (Append_Record_fields r O) as (A1 & A2 & A3 & A4 & A5 & A6 & A7 & A8 & _ & A10).
  exists W1, (prepare_buffer W1).
  assert (Hadd : Add_v9_output_record U tc r now w0 = Some (0, W1)).
  { rewrite (Add_unfold U tc r now w0 0 [t] t Hne Hget eq_refl). fold X.
    assert (Hst : starts_flowset t (entered r w0) = true).
    { unfold starts_flowset. rewrite E4, Hid. reflexivity. }
    rewrite Hst, Xc, Xp.
    change (endp (peer w0)) with (endp p).
    destruct (Z.ltb_spec (endp p)
                (sizeof_v9Header_t + (record_length t + sizeof_data_flowset_t + flowset_length t)));
      [lia|].
    fold O. rewrite add_record_unfold, O1, O2, Xp, Xe.
    unfold sizeof_data_flowset_t, offsetof_data in *.
    destruct (Z.ltb_spec (endp p) (sizeof_v9Header_t + flowset_length t + 4 + record_length t));
      [lia|]. reflexivity. }
  split; [exact Hadd|].
  assert (Hclose : Close_v9_output W1 = (1, prepare_buffer W1)).
  { unfold Close_v9_output. rewrite As, A6, A7, O6, O7, Xs. reflexivity. }
  split; [exact Hclose|].
  destruct (prepare_buffer_fields W1) as (F1 & _).
  split; [exact F1|].
  (* the world handed to CloseDataFlowset *)
  assert (Hd : data_flowset (sender_data (header_stamped W1))
               = Some (sizeof_v9Header_t + flowset_length t)).
  { unfold header_stamped. cbn [sender_data data_flowset]. rewrite As, A4, O4, Xp. reflexivity. }
  assert (Hptr : buff_ptr (peer (header_stamped W1))
                 = sizeof_v9Header_t + flowset_length t + 4 + record_length t).
  { unfold header_stamped. cbn [peer buff_ptr]. rewrite Ap, A1, O1, Xp, Hrl.
    unfold offsetof_data. reflexivity. }
  assert (Hn : u32 (buff_ptr (peer (header_stamped W1)) - (sizeof_v9Header_t + flowset_length t))
               = 4 + record_length t).
  { rewrite Hptr. rewrite u32_small by lia. lia. }
  destruct (aligned_length_even (4 + record_length t)) as (Hal & _ & Hpad); [lia|mod_lia|].
  assert (Hbuf : send_buffer (peer (prepare_buffer W1))
                 = store_bytes
                     (store_bytes (send_buffer (peer (header_stamped W1)))
                                  (sizeof_v9Header_t + flowset_length t + 4 + record_length t)
                                  (repeat 0 (Z.to_nat ((4 + record_length t) mod 4))))
                     (sizeof_v9Header_t + flowset_length t + 2)
                     (be_bytes 2 (aligned_length (4 + record_length t)))).
  { rewrite prepare_buffer_unfold. unfold set_sender. cbn [peer].
    rewrite (CloseDataFlowset_open _ _ Hd). cbv zeta. cbn [peer send_buffer].
    rewrite Hn, Hptr. reflexivity. }
  assert (Hcur : buff_ptr (peer (prepare_buffer W1))
                 = sizeof_v9Header_t + flowset_length t + aligned_length (4 + record_length t)).
  { rewrite prepare_buffer_unfold. unfold set_sender. cbn [peer].
    rewrite (CloseDataFlowset_open _ _ Hd). cbv zeta. cbn [peer buff_ptr].
    rewrite Hn, Hptr, Hal. lia. }
  split; [exact Hcur|].
  assert (Hhs : send_buffer (peer (header_stamped W1))
                = store_bytes
                    (store_bytes (send_buffer (peer W1)) off_sequence (be_bytes 4 1))
                    off_count (be_bytes 2 2)).
  { unfold header_stamped. cbn [peer send_buffer]. rewrite As, A6, A7, A8, O6, O7, O8, Xs.
    reflexivity. }
  assert (Hw1 : send_buffer (peer W1)
                = store_bytes (send_buffer (peer O))
                              (sizeof_v9Header_t + flowset_length t + 4) (record_bytes r)).
  { rewrite Ap, A10, O1, Xp. reflexivity. }
  rewrite Hbuf, Hhs, Hw1, Ob, Xb, Xp, Htid, Hcur.
  replace (aligned_length (4 + record_length t) - (4 + record_length t))
    with ((4 + record_length t) mod 4) by lia.
  set (pad := repeat 0 (Z.to_nat ((4 + record_length t) mod 4))).
  assert (Hpl : Z.of_nat (length pad) = (4 + record_length t) mod 4).
  { unfold pad. rewrite repeat_length. lia. }
  set (al := aligned_length (4 + record_length t)) in *.
  set (rec := record_bytes r) in *.
  assert (Hrec : Forall (fun b => 0 <= b < 256) rec) by apply record_bytes_range.
  set (anchor := anchor_of r).
  set (fl := flowset_length t) in *.
  set (rl := record_length t) in *.
  unfold w0, Init_v9_output. cbn [peer send_buffer].
  unfold sizeof_v9Header_t, off_version, off_count, off_SysUptime, off_unix_secs, off_sequence,
    off_source_id in *.
  match goal with
  | |- read_bytes ?m 0 ?n = ?L =>
      assert (Hat : bytes_at m 0 L);
      [|assert (Hlen : n = length L);
        [rewrite !length_app, !length_be_bytes; lia|rewrite Hlen; exact Hat]]
  end.
  repeat match goal with
         | |- bytes_at _ _ (_ ++ _) => apply bytes_at_app
         end.
  all: repeat first
         [ apply bytes_at_store_at;
           [ rewrite ?length_app, ?length_be_bytes; lia
           | first [ apply be_bytes_range | assumption | apply repeat_zero_range ] ]
         | apply bytes_at_frame; [ rewrite ?length_app, ?length_be_bytes; lia | ] ].
Qed.

(* ------------------------------------------------------------------ *)
(** ** The JA4S fingerprint                                            *)
(* ------------------------------------------------------------------ *)

(* ------------------------------------------------------------------ *)
(** ** JA4S                                                             *)
(* ------------------------------------------------------------------ *)

Lemma hexChars_digit (k : Z) :
  0 <= k <= 15 ->
  isxdigit (hexChars k) = true /\ isascii (hexChars k) = true /\ hexChars k <> 0
  /\ hex_value (hexChars k) = k.
Proof.
  intros H.
  assert (Hk : k = 0 \/ k = 1 \/ k = 2 \/ k = 3 \/ k = 4 \/ k = 5 \/ k = 6 \/ k = 7 \/ k = 8
               \/ k = 9 \/ k = 10 \/ k = 11 \/ k = 12 \/ k = 13 \/ k = 14 \/ k = 15) by lia.
  repeat (destruct Hk as [->|Hk]; [vm_compute; repeat split; discriminate|]).
  subst k. vm_compute. repeat split; discriminate.
Qed.

Lemma nibbles (v : Z) :
  0 <= v < 65536 ->
  0 <= Z.shiftr v 12 <= 15 /\ 0 <= Z.land (Z.shiftr v 8) 15 <= 15
  /\ 0 <= Z.land (Z.shiftr v 4) 15 <= 15 /\ 0 <= Z.land v 15 <= 15
  /\ ((Z.shiftr v 12 * 16 + Z.land (Z.shiftr v 8) 15) * 16 + Z.land (Z.shiftr v 4) 15) * 16
     + Z.land v 15 = v.
Proof.
  intros H. rewrite !Z.shiftr_div_pow2 by lia.
  change 15 with (Z.ones 4). rewrite !Z.land_ones by lia.
  change (2 ^ 12) with 4096. change (2 ^ 8) with 256. change (2 ^ 4) with 16.
  change (Z.ones 4) with 15. mod_lia.
Qed.

Lemma u16_range (v : Z) : 0 <= u16 v < 65536.
Proof. unfold u16. change (2 ^ 16) with 65536. apply Z.mod_pos_bound. lia. Qed.

Lemma hex4_digits (v : Z) :
  0 <= v < 65536 ->
  Forall (fun c => isxdigit c = true /\ isascii c = true /\ c <> 0) (hex4 v)
  /\ hex_decode (hex4 v) = v.
Proof.
  intros H. destruct (nibbles v H) as (N1 & N2 & N3 & N4 & N5).
  destruct (hexChars_digit _ N1) as (A1 & A2 & A3 & A4).
  destruct (hexChars_digit _ N2) as (B1 & B2 & B3 & B4).
  destruct (hexChars_digit _ N3) as (C1 & C2 & C3 & C4).
  destruct (hexChars_digit _ N4) as (D1 & D2 & D3 & D4).
  split.
  - unfold hex4. repeat constructor; auto.
  - unfold hex_decode, hex4. cbn [fold_left]. rewrite A4, B4, C4, D4. lia.
Qed.


Lemma blk_append_spec : forall (l L : list Z) (b : block),
  blk_prefix b L ->
  Forall (fun c => 0 <= c < 256) l ->
  Z.of_nat (length L) + Z.of_nat (length l) <= blk_size b ->
  Z.of_nat (length L) + Z.of_nat (length l) < 2 ^ 32 ->
  exists b' : block,
    blk_append l (Z.of_nat (length L)) b = Some (Z.of_nat (length (L ++ l)), b')
    /\ blk_size b' = blk_size b
    /\ blk_prefix b' (L ++ l).
Proof.
  induction l as [|c l IH]; intros L b Hp Hr Hs H32.
  - exists b. rewrite app_nil_r. simpl. auto.
  - inversion Hr as [|c' l' Hc Hl]; subst. simpl length in *.
    cbn [blk_append]. unfold blk_store.
    destruct (Z.leb_spec 0 (Z.of_nat (length L))); [|lia].
    destruct (Z.ltb_spec (Z.of_nat (length L)) (blk_size b)); [|lia].
    cbn [andb].
    set (b1 := mkBlock (blk_size b)
                 (fun x => if x =? Z.of_nat (length L) then u8 c else blk_bytes b x)).
    assert (Hp1 : blk_prefix b1 (L ++ [c])).
    { intros k Hk. rewrite length_app in Hk. simpl in Hk. unfold b1. cbn [blk_bytes].
      destruct (Z.eqb_spec (Z.of_nat k) (Z.of_nat (length L))) as [E|E].
      - apply Nat2Z.inj in E. subst k. rewrite nth_middle. apply u8_small. exact Hc.
      - rewrite app_nth1 by lia. apply Hp. lia. }
    destruct (IH (L ++ [c]) b1 Hp1 Hl) as (b' & Ha & Hsz & Hp').
    { rewrite length_app. simpl length. unfold b1. cbn [blk_size]. lia. }
    { rewrite length_app. simpl length. lia. }
    exists b'. rewrite <- app_assoc in Ha, Hp'. simpl app in Ha, Hp'.
    rewrite length_app in Ha at 1. simpl length in Ha.
    replace (u32 (Z.of_nat (length L) + 1)) with (Z.of_nat (length L + 1)).
    2:{ rewrite u32_small by lia. lia. }
    splits; auto.
Qed.

Lemma hex4_bytes (v : Z) : 0 <= v < 65536 -> Forall (fun c => 0 <= c < 256) (hex4 v ++ [44]).
Proof.
  intros H. destruct (hex4_digits v H) as (Hd & _).
  apply Forall_app. split.
  - eapply Forall_impl; [|exact Hd]. intros c (_ & Ha & _). unfold isascii in Ha.
    apply andb_true_iff in Ha. destruct Ha as [A B].
    apply Z.leb_le in A. apply Z.leb_le in B. lia.
  - constructor; [lia|constructor].
Qed.

Lemma hash_loop_spec : forall (exts L : list Z) (b : block),
  blk_prefix b L ->
  Z.of_nat (length L) + 5 * Z.of_nat (length exts) <= blk_size b ->
  Z.of_nat (length L) + 5 * Z.of_nat (length exts) < 2 ^ 32 ->
  exists b' : block,
    hash_loop exts (Z.of_nat (length L)) b
    = Some (Z.of_nat (length L) + 5 * Z.of_nat (length exts), b')
    /\ blk_size b' = blk_size b
    /\ blk_prefix b' (L ++ flat_map (fun v => hex4 (u16 v) ++ [44]) exts).
Proof.
  induction exts as [|v exts IH]; intros L b Hp Hs H32.
  - exists b. simpl. rewrite app_nil_r, Z.add_0_r. auto.
  - simpl length in *. cbn [hash_loop flat_map].
    destruct (blk_append_spec (hex4 (u16 v) ++ [44]) L b Hp) as (b1 & Ha & Hsz & Hp1).
    { apply hex4_bytes, u16_range. }
    { simpl length. lia. }
    { simpl length. lia. }
    rewrite Ha.
    destruct (IH (L ++ hex4 (u16 v) ++ [44]) b1 Hp1) as (b' & Hl & Hsz' & Hp').
    { rewrite length_app. simpl length. lia. }
    { rewrite length_app. simpl length. lia. }
    exists b'. rewrite Hl. rewrite <- app_assoc in Hp'. splits; auto.
    + do 2 f_equal. rewrite length_app. simpl length. lia.
    + congruence.
Qed.

Lemma blk_string_spec : forall (l : list Z) (fuel : nat) (b : block) (i : Z),
  (length l < fuel)%nat ->
  0 <= i -> i + Z.of_nat (length l) < blk_size b ->
  (forall k : nat, (k < length l)%nat -> blk_bytes b (i + Z.of_nat k) = nth k l 0) ->
  Forall (fun c => c <> 0) l ->
  blk_bytes b (i + Z.of_nat (length l)) = 0 ->
  blk_string fuel b i = Some l.
Proof.
  induction l as [|c l IH]; intros fuel b i Hf Hi Hs Hb Hnz Hz;
    (destruct fuel as [|fuel]; [simpl in Hf; lia|]); cbn [blk_string]; simpl length in *.
  - rewrite Z.add_0_r in Hz.
    destruct (Z.leb_spec 0 i); [|lia]. destruct (Z.ltb_spec i (blk_size b)); [|lia].
    cbn [andb]. rewrite Hz. reflexivity.
  - destruct (Z.leb_spec 0 i); [|lia]. destruct (Z.ltb_spec i (blk_size b)); [|lia].
    cbn [andb]. inversion Hnz as [|c' l' Hc Hl]; subst.
    pose proof (Hb 0%nat ltac:(lia)) as Hhead. simpl in Hhead. rewrite Z.add_0_r in Hhead.
    rewrite Hhead. destruct (Z.eqb_spec c 0); [contradiction|].
    rewrite (IH fuel b (i + 1)); auto; try lia.
    + intros k Hk. specialize (Hb (S k) ltac:(lia)). simpl nth in Hb. rewrite <- Hb.
      f_equal. lia.
    + rewrite <- Hz. f_equal. lia.
Qed.

Lemma removelast_firstn_pred {A : Type} (l : list A) :
  removelast l = firstn (pred (length l)) l.
Proof.
  induction l as [|x l IH]; [reflexivity|].
  destruct l as [|y l]; [reflexivity|].
  change (removelast (x :: y :: l)) with (x :: removelast (y :: l)).
  rewrite IH. reflexivity.
Qed.

Lemma extension_chars_length (exts : list Z) :
  length (flat_map (fun v => hex4 (u16 v) ++ [44]) exts) = (5 * length exts)%nat.
Proof.
  induction exts as [|v l IH]; [reflexivity|].
  cbn [flat_map]. rewrite !length_app, IH. cbn [hex4 length]. lia.
Qed.

Lemma extension_chars_nonzero (exts : list Z) :
  Forall (fun c => c <> 0) (flat_map (fun v => hex4 (u16 v) ++ [44]) exts).
Proof.
  apply Forall_flat_map, Forall_forall. intros v _.
  destruct (hex4_digits (u16 v) (u16_range v)) as (Hd & _).
  apply Forall_app. split.
  - eapply Forall_impl; [|exact Hd]. intros c (_ & _ & Hc). exact Hc.
  - constructor; [lia|constructor].
Qed.

(** X16: the string handed to [sha256].  For 1 to 99 extensions every store
    lies in the block of 6 * n + 1 bytes and the string read back is the
    list of the extensions, four lower-case hex digits each, separated by
    commas: 5 * n - 1 characters, whatever the block held before.  For a
    server hello without extensions the store of the terminating NUL goes
    to index [index - 1] = 4294967295 of a block of one byte: the access is
    outside the block, and [ja4sProcess] has no defined result. *)
Theorem hash_string_in_bounds (junk : Z -> Z) :
  (forall exts : list Z,
      (1 <= length exts <= 99)%nat ->
      hash_string junk exts = Some (extension_list_string exts)
      /\ length (extension_list_string exts) = (5 * length exts - 1)%nat)
  /\ hash_string junk [] = None
  /\ (forall (SERVERssl : Z) (digest_hex : list Z -> list Z) (s : ssl_t) (proto : Z),
         ssl_type s = SERVERssl -> extensions s = [] ->
         ja4sProcess SERVERssl digest_hex junk (Some s) proto = ja4_out_of_bounds).
Proof.
  split; [|split; [reflexivity|]].
  2:{ intros SERVERssl digest_hex s proto Ht He. unfold ja4sProcess.
      rewrite Ht, Z.eqb_refl, He. reflexivity. }
  intros exts Hn. unfold hash_string, extension_list_string.
  set (S := flat_map (fun v => hex4 (u16 v) ++ [44]) exts).
  pose proof (extension_chars_length exts) as HS. fold S in HS.
  assert (Hmax : u64 (Z.of_nat (length exts) * 6 + 1) = Z.of_nat (length exts) * 6 + 1).
  { unfold u64. apply Z.mod_small. lia. }
  cbv zeta. rewrite Hmax. unfold blk_store at 1. cbn [blk_size].
  destruct (Z.ltb_spec 0 (Z.of_nat (length exts) * 6 + 1)); [|lia].
  change (0 <=? 0) with true. cbn [andb].
  set (b0 := mkBlock _ _).
  destruct (hash_loop_spec exts [] b0) as (b1 & Hl & Hsz & Hp).
  { intros k Hk. simpl in Hk. lia. }
  { unfold b0. cbn [blk_size length]. lia. }
  { simpl length. lia. }
  change (Z.of_nat (length (@nil Z))) with 0 in Hl. rewrite Z.add_0_l in Hl.
  cbn [app] in Hp. fold S in Hp. rewrite Hl.
  replace (u32 (5 * Z.of_nat (length exts) - 1)) with (Z.of_nat (length S) - 1).
  2:{ rewrite u32_small by lia. lia. }
  unfold blk_store. rewrite Hsz. unfold b0 at 1. cbn [blk_size].
  destruct (Z.leb_spec 0 (Z.of_nat (length S) - 1)); [|lia].
  destruct (Z.ltb_spec (Z.of_nat (length S) - 1) (Z.of_nat (length exts) * 6 + 1)); [|lia].
  cbn [andb].
  rewrite removelast_firstn_pred.
  assert (Hlen : length (firstn (pred (length S)) S) = pred (length S)).
  { rewrite length_firstn. lia. }
  split.
  - apply blk_string_spec.
    + rewrite Hlen. lia.
    + lia.
    + rewrite Hlen. cbn [blk_size]. unfold b0. cbn [blk_size]. lia.
    + intros k Hk. rewrite Hlen in Hk. cbn [blk_bytes].
      destruct (Z.eqb_spec (0 + Z.of_nat k) (Z.of_nat (length S) - 1)); [lia|].
      rewrite Z.add_0_l, Hp by lia.
      rewrite <- (firstn_skipn (pred (length S)) S) at 1.
      rewrite app_nth1 by (rewrite Hlen; lia). reflexivity.
    + apply Forall_firstn_keeps. apply extension_chars_nonzero.
    + rewrite Hlen. cbn [blk_bytes].
      destruct (Z.eqb_spec (0 + Z.of_nat (pred (length S))) (Z.of_nat (length S) - 1)); [|lia].
      reflexivity.
  - rewrite Hlen. lia.
Qed.

Lemma isxdigit_nonzero (c : Z) : isxdigit c = true -> (c =? 0) = false.
Proof.
  unfold isxdigit. intros H. apply Z.eqb_neq. intros ->. discriminate.
Qed.

(** [ja4sCheck] accepts every string of the JA4S layout. *)
Lemma ja4sCheck_accepts_layout (c0 : Z) (a b c rest : list Z) :
  c0 = 116 \/ c0 = 113 ->
  length a = 6%nat -> Forall (fun x => isascii x = true /\ (x =? 0) = false) a ->
  length b = 4%nat -> Forall (fun x => isxdigit x = true) b ->
  length c = 12%nat -> Forall (fun x => isxdigit x = true) c ->
  ja4sCheck 25 (Some (c0 :: a ++ [95] ++ b ++ [95] ++ c ++ 0 :: rest)) = 1.
Proof.
  intros H0 La Ha Lb Hb Lc Hc.
  do 7 (destruct a as [|? a]; try discriminate).
  do 5 (destruct b as [|? b]; try discriminate).
  do 13 (destruct c as [|? c]; try discriminate).
  repeat match goal with
         | H : Forall _ (_ :: _) |- _ => inversion H; clear H; subst
         | H : Forall _ [] |- _ => clear H
         | H : _ /\ _ |- _ => destruct H
         end.
  repeat match goal with
         | H : isxdigit ?x = true |- _ =>
             lazymatch goal with
             | _ : (x =? 0) = false |- _ => fail
             | _ => pose proof (isxdigit_nonzero x H)
             end
         end.
  unfold ja4sCheck. change (Z.to_nat 25 - 13)%nat with 12%nat.
  cbn [app strlen char_at nth seq forallb].
  assert (Hc0 : (c0 =? 0) = false) by (destruct H0; subst; reflexivity).
  change (95 =? 0) with false. change (0 =? 0) with true.
  repeat match goal with
         | H : (_ =? 0) = false |- _ => rewrite H; clear H
         end.
  change (Z.of_nat 25 =? 25) with true. cbn [negb].
  repeat match goal with
         | H : isxdigit _ = true |- _ => rewrite H; clear H
         | H : isascii _ = true |- _ => rewrite H; clear H
         end.
  destruct H0; subst; reflexivity.
Qed.

Lemma char_at_ascii (l : list Z) (i : nat) :
  Forall (fun c => 0 <= c < 128) l -> isascii (char_at l i) = true.
Proof.
  intros H. unfold char_at, isascii.
  assert (Hr : 0 <= nth i l 0 < 128).
  { destruct (Nat.lt_ge_cases i (length l)) as [Hi|Hi].
    - rewrite Forall_forall in H. apply H. apply nth_In. exact Hi.
    - rewrite nth_overflow by exact Hi. lia. }
  destruct (Z.leb_spec 0 (nth i l 0)); [|lia].
  destruct (Z.leb_spec (nth i l 0) 127); [reflexivity|lia].
Qed.

(** The last character of a non-empty C string is not the NUL. *)
Lemma strlen_last (l : list Z) :
  (0 < strlen l)%nat -> char_at l (strlen l - 1) <> 0.
Proof.
  induction l as [|c l IH]; cbn [strlen]; [lia|].
  destruct (Z.eqb_spec c 0) as [E|E]; [lia|]. intros _.
  replace (S (strlen l) - 1)%nat with (strlen l) by lia.
  destruct (strlen l) as [|k] eqn:Hk.
  - exact E.
  - unfold char_at in *. cbn [nth]. replace k with (S k - 1)%nat by lia. apply IH. lia.
Qed.

Lemma digit_char (n : Z) :
  0 <= n <= 9 -> isascii (u8 (n + 48)) = true /\ (u8 (n + 48) =? 0) = false
                 /\ u8 (n + 48) - 48 = n.
Proof.
  intros H. rewrite u8_small by lia. unfold isascii.
  destruct (Z.leb_spec 0 (n + 48)); [|lia]. destruct (Z.leb_spec (n + 48) 127); [|lia].
  destruct (Z.eqb_spec (n + 48) 0); [lia|]. splits; auto. lia.
Qed.

(** X17: [ja4sCheck] accepts what [ja4sProcess] builds.  When the two
    characters of the TLS version are ASCII and not NUL (1 to 127), the
    characters of the ALPN name are ASCII and the digest is written in hex
    digits, the fingerprint [ja4sProcess] returns has the type [TYPE_JA4S]
    and its string passes [ja4sCheck] for [SIZEja4sString] = 25. *)
Theorem ja4sCheck_accepts_ja4sProcess (SERVERssl : Z) (digest_hex : list Z -> list Z)
        (junk : Z -> Z) (s : ssl_t) (proto : Z) (j : ja4_t) :
  ja4sProcess SERVERssl digest_hex junk (Some s) proto = ja4_value j ->
  0 < fst (tlsCharVersion s) < 128 ->
  0 < snd (tlsCharVersion s) < 128 ->
  Forall (fun c => 0 <= c < 128) (alpnName s) ->
  (forall (hs : list Z) (i : nat), (i < 12)%nat -> isxdigit (char_at (digest_hex hs) i) = true) ->
  ja4_kind j = TYPE_JA4S /\ ja4sCheck 25 (Some (ja4_string j)) = 1.
Proof.
  unfold ja4sProcess. intros H Hv0 Hv1 Halpn Hdig.
  destruct (negb (ssl_type s =? SERVERssl)); [discriminate|].
  destruct (Z.ltb_spec 99 (u32 (Z.of_nat (length (extensions s))))) as [|H99]; [discriminate|].
  destruct (hash_string junk (extensions s)) as [hs|]; [|discriminate].
  injection H as <-. split; [reflexivity|]. cbn [ja4_string].
  set (num := u32 (Z.of_nat (length (extensions s)))) in *.
  assert (Hnum : 0 <= num) by (apply Z.mod_pos_bound; lia).
  destruct (digit_char (num / 10)) as (T1 & T2 & _); [mod_lia|].
  destruct (digit_char (num mod 10)) as (O1 & O2 & _); [mod_lia|].
  set (cipher := if u32 (Z.of_nat (length (cipherSuites s))) =? 1
                 then u16 (nth 0 (cipherSuites s) 0) else 0).
  assert (Hcr : 0 <= cipher < 65536).
  { unfold cipher. destruct (u32 (Z.of_nat (length (cipherSuites s))) =? 1);
      [apply u16_range|lia]. }
  destruct (hex4_digits cipher Hcr) as (Hhex & _).
  set (alp := if negb (char_at (alpnName s) 0 =? 0)
              then [char_at (alpnName s) 0; char_at (alpnName s) (strlen (alpnName s) - 1)]
              else [48; 48]).
  assert (Halp : length alp = 2%nat
                 /\ Forall (fun x => isascii x = true /\ (x =? 0) = false) alp).
  { unfold alp. destruct (Z.eqb_spec (char_at (alpnName s) 0) 0) as [E|E]; cbn [negb].
    - split; [reflexivity|]. repeat constructor.
    - split; [reflexivity|].
      assert (Hpos : (0 < strlen (alpnName s))%nat).
      { destruct (alpnName s) as [|c l]; [contradiction|].
        unfold char_at in E. cbn [nth] in E. cbn [strlen].
        destruct (Z.eqb_spec c 0); [contradiction|lia]. }
      repeat constructor; try (apply char_at_ascii; exact Halpn).
      + apply Z.eqb_neq. exact E.
      + apply Z.eqb_neq. apply strlen_last. exact Hpos. }
  destruct Halp as (Hal & Haf).
  match goal with
  | |- ja4sCheck 25 (Some ?l) = 1 =>
      replace l
        with ((if proto =? IPPROTO_TCP then 116 else 113)
              :: ([fst (tlsCharVersion s); snd (tlsCharVersion s);
                   u8 (num / 10 + 48); u8 (num mod 10 + 48)] ++ alp)
                 ++ [95] ++ hex4 cipher ++ [95]
                 ++ map (fun i => char_at (digest_hex hs) i) (seq 0 12) ++ 0 :: [])
  end.
  2:{ unfold ja4s_ab. cbv zeta. fold num. fold cipher. fold alp.
      cbn [app]. rewrite <- !app_assoc. reflexivity. }
  apply ja4sCheck_accepts_layout.
  - destruct (proto =? IPPROTO_TCP); auto.
  - rewrite length_app, Hal. reflexivity.
  - apply Forall_app. split; [|exact Haf].
    assert (Hasc : forall c, 0 < c < 128 -> isascii c = true /\ (c =? 0) = false).
    { intros c Hc. unfold isascii. destruct (Z.leb_spec 0 c); [|lia].
      destruct (Z.leb_spec c 127); [|lia]. destruct (Z.eqb_spec c 0); [lia|]. auto. }
    repeat constructor; auto; apply Hasc; assumption.
  - reflexivity.
  - eapply Forall_impl; [|exact Hhex]. intros c (Hc & _). exact Hc.
  - rewrite length_map, length_seq. reflexivity.
  - apply Forall_forall. intros c Hc. apply in_map_iff in Hc.
    destruct Hc as (i & <- & Hi). apply in_seq in Hi. apply Hdig. lia.
Qed.

(** X18: the ja4s_a and ja4s_b parts read back.  For at most 99 extensions
    the first 13 characters are: 't' for TCP and 'q' otherwise; at the
    positions 3 and 4 the number of extensions in two decimal digits;
    underscores at the positions 7 and 12; and between them four hex digits
    that read back as the cipher suite when the hello carries exactly one,
    and "0000" otherwise. *)
Theorem ja4s_ab_decodes (s : ssl_t) (proto : Z) :
  (length (extensions s) <= 99)%nat ->
  length (ja4s_ab s proto) = 13%nat
  /\ char_at (ja4s_ab s proto) 0 = (if proto =? IPPROTO_TCP then 116 else 113)
  /\ (char_at (ja4s_ab s proto) 3 - 48) * 10 + (char_at (ja4s_ab s proto) 4 - 48)
     = Z.of_nat (length (extensions s))
  /\ char_at (ja4s_ab s proto) 7 = 95
  /\ char_at (ja4s_ab s proto) 12 = 95
  /\ (length (cipherSuites s) = 1%nat ->
      hex_decode (firstn 4 (skipn 8 (ja4s_ab s proto))) = u16 (nth 0 (cipherSuites s) 0))
  /\ (length (cipherSuites s) <> 1%nat -> Z.of_nat (length (cipherSuites s)) < 2 ^ 32 ->
      firstn 4 (skipn 8 (ja4s_ab s proto)) = [48; 48; 48; 48]).
Proof.
  intros H99. unfold ja4s_ab. cbv zeta.
  set (num := u32 (Z.of_nat (length (extensions s)))).
  assert (Hnum : num = Z.of_nat (length (extensions s))).
  { unfold num. apply u32_small. lia. }
  destruct (digit_char (num / 10)) as (_ & _ & T3); [mod_lia|].
  destruct (digit_char (num mod 10)) as (_ & _ & O3); [mod_lia|].
  set (cipher := if u32 (Z.of_nat (length (cipherSuites s))) =? 1
                 then u16 (nth 0 (cipherSuites s) 0) else 0).
  set (alp := if negb (char_at (alpnName s) 0 =? 0)
              then [char_at (alpnName s) 0; char_at (alpnName s) (strlen (alpnName s) - 1)]
              else [48; 48]).
  assert (Halp : exists a1 a2, alp = [a1; a2]).
  { unfold alp. destruct (negb (char_at (alpnName s) 0 =? 0)); eauto. }
  destruct Halp as (a1 & a2 & ->).
  unfold hex4 at 1 2 3. cbn [app length char_at nth skipn firstn].
  splits; auto.
  - rewrite T3, O3, <- Hnum. mod_lia.
  - intros H1. unfold cipher. rewrite H1. change (u32 (Z.of_nat 1) =? 1) with true.
    cbv iota. fold (hex4 (u16 (nth 0 (cipherSuites s) 0))).
    apply hex4_digits, u16_range.
  - intros H1 H32. unfold cipher. rewrite u32_small by lia.
    destruct (Z.eqb_spec (Z.of_nat (length (cipherSuites s))) 1); [lia|]. reflexivity.
Qed.

(* ------------------------------------------------------------------ *)
(** ** The anchor, and templates flagged for refresh                   *)
(* ------------------------------------------------------------------ *)

(** X14: the unix-seconds anchor.  For a flow that started a day or more
    after the epoch (and early enough for a 32-bit second count), the value
    the first-time setup stores in a header that still reads zero is the
    start second of the flow minus 86400. *)
Theorem anchor_one_day_before_start (r : master_record_t) (p : send_peer_t) :
  be_value (read_bytes (send_buffer p) off_unix_secs 4) = 0 ->
  86400 * 1000 <= msecFirst r < (2 ^ 32 + 86400) * 1000 ->
  read_bytes (send_buffer (first_time_setup r p)) off_unix_secs 4
  = be_bytes 4 (msecFirst r / 1000 - 86400)
  /\ be_value (read_bytes (send_buffer (first_time_setup r p)) off_unix_secs 4)
     = msecFirst r / 1000 - 86400.
Proof.
  intros Hz Hm. unfold first_time_setup. rewrite Hz. cbn [Z.eqb]. unfold set_buffer.
  cbn [send_buffer]. rewrite read_be_bytes.
  assert (Hq : (msecFirst r - 86400 * 1000) / 1000 = msecFirst r / 1000 - 86400).
  { replace (msecFirst r - 86400 * 1000) with (msecFirst r + (- 86400) * 1000) by lia.
    rewrite Z.div_add by lia. lia. }
  assert (Hu : u32 (u64 (msecFirst r - 86400 * 1000) / 1000) = msecFirst r / 1000 - 86400).
  { unfold u64. rewrite Z.mod_small by lia. rewrite Hq. apply u32_small.
    rewrite <- Hq. split.
    - apply Z.div_pos; lia.
    - apply Z.div_lt_upper_bound; lia. }
  rewrite Hu. split; [reflexivity|].
  rewrite be_value_be_bytes. apply Z.mod_small.
  rewrite <- Hu. unfold u32. change (8 * Z.of_nat 4) with 32. apply Z.mod_pos_bound. lia.
Qed.

(** X15: a descriptor whose refresh flag is up is sent again.  When
    [GetOutputTemplate] returns a descriptor with [needs_refresh] set and
    the call adds the record, the call has written the template flowset
    too (the template counter of the packet has grown by one), the
    descriptor is stamped with the time of the call, and its flag is still
    up. *)
Theorem flagged_template_is_resent (U : Z) (tc : v9_field -> Z) (r : master_record_t)
        (now : Z) (w : world) (idx : nat) (ts : list outTemplate_t) (t : outTemplate_t)
        (w' : world) :
  numElements r <> 0 ->
  GetOutputTemplate U r (outTemplates w) = Some (idx, ts) ->
  nth_error ts idx = Some t ->
  needs_refresh t <> 0 ->
  Add_v9_output_record U tc r now w = Some (0, w') ->
  hdr_template_count (sender_data w') = u32 (hdr_template_count (sender_data w) + 1)
  /\ exists t' : outTemplate_t,
       nth_error (outTemplates w') idx = Some t'
       /\ template_id t' = template_id t
       /\ time_sent t' = now
       /\ needs_refresh t' <> 0.
Proof.
  intros Hne Hg Hn Hflag Ha.
  assert (Hst : starts_flowset t (entered r w) = true).
  { unfold starts_flowset. destruct (Z.eqb_spec (needs_refresh t) 0); [contradiction|].
    apply orb_true_r. }
  split.
  - rewrite (Add_unfold U tc r now w idx ts t Hne Hg Hn), Hst in Ha.
    set (X := set_templates ts (entered r w)) in *.
    destruct (endp (peer w) <? buff_ptr (peer (CloseDataFlowset X))
                               + (record_length t + sizeof_data_flowset_t + flowset_length t));
      [discriminate|].
    apply Some_eq_inv in Ha. apply add_record_appended in Ha.
    destruct Ha as [(Hr & _)|(_ & ->)]; [discriminate|].
    destruct (appended_fields r idx now (open_data_flowset tc idx t now (CloseDataFlowset X)))
      as (_ & -> & _).
    destruct (Append_Record_fields r (open_data_flowset tc idx t now (CloseDataFlowset X)))
      as (_ & _ & _ & _ & _ & _ & -> & _).
    destruct (open_data_flowset_fields tc idx t now (CloseDataFlowset X))
      as (_ & _ & _ & _ & _ & _ & -> & _).
    destruct (CloseDataFlowset_sender X) as (_ & _ & _ & -> & _).
    destruct (entered_fields r w) as (_ & _ & _ & Es & _).
    change (sender_data X) with (sender_data (entered r w)). rewrite Es. reflexivity.
  - rewrite (Add_appended_template U tc r now w idx ts t w' Hne Hg Hn Ha), Hst.
    eexists. split; [reflexivity|].
    unfold schedule_refresh.
    destruct (refresh_due now (count_record (set_time_sent now t))); cbn; splits; auto.
    discriminate.
Qed.

(* ------------------------------------------------------------------ *)
(** ** The properties at sample inputs                                 *)
(* ------------------------------------------------------------------ *)

Lemma GetOutputTemplate_first_match_witness :
  GetOutputTemplate 1472 swapped_record [tcp_template] = Some (0%nat, [tcp_template]).
Proof.
  apply (GetOutputTemplate_first_match 1472 swapped_record [] [] tcp_template).
  - constructor.
  - vm_compute. reflexivity.
  - vm_compute. reflexivity.
Defined.

Lemma GetOutputTemplate_cache_round_trip_witness :
  GetOutputTemplate 1472 icmp_record [tcp_template] = Some (0%nat, [tcp_template]).
Proof.
  destruct (GetOutputTemplate_cache_round_trip 1472 tcp_record [] [tcp_template] 0
              tcp_template_looked_up) as (_ & _ & H).
  apply (H icmp_record); reflexivity.
Defined.

Lemma listed_ids_NoDup : NoDup listed_ids.
Proof.
  unfold listed_ids.
  repeat (constructor; [cbn [In]; intuition discriminate|]). constructor.
Qed.

Lemma new_template_duplicate_free_witness :
  exists t : outTemplate_t,
    new_template 1472 full_record 0 = Some t
    /\ tf_count (template_flowset t) = 50
    /\ flowset_length t = 208.
Proof.
  destruct (new_template_duplicate_free 1472 full_record 0 listed_ids_NoDup)
    as (t & H1 & H2 & _ & H4 & _).
  - lia.
  - exists t. split; [exact H1|]. split.
    + rewrite H2. vm_compute. reflexivity.
    + rewrite H4, H2. vm_compute. reflexivity.
Defined.

Lemma template_flowset_on_the_wire_witness :
  exists F : list field_t,
    tf_field (template_flowset tcp_template) = F ++ [mkField None 0]
    /\ flowset_length tcp_template = 8 + 4 * Z.of_nat (length F)
    /\ buff_ptr (peer (Add_template_flowset sample_codes tcp_template sample_world))
       = buff_ptr (peer sample_world) + flowset_length tcp_template.
Proof.
  destruct (template_flowset_on_the_wire 1472 sample_codes tcp_record 0 tcp_template
              sample_world tcp_template_built) as (F & H1 & H2 & _ & H4 & _).
  exists F. auto.
Defined.

Lemma record_decodes_against_template_witness :
  decode_record (declared_fields (template_flowset tcp_template))
                (written_record tcp_record sample_world)
  = map (fun nv => snd nv mod 2 ^ (8 * Z.of_nat (fst nv))) (record_values tcp_record).
Proof.
  exact (proj2 (record_decodes_against_template 1472 tcp_record 0 tcp_template sample_world
                  tcp_template_built)).
Defined.

Lemma header_fixed_fields_witness :
  read_bytes (send_buffer (peer mpls_world)) off_version 2 = be_bytes 2 9
  /\ read_bytes (send_buffer (peer mpls_world)) off_source_id 4 = be_bytes 4 1.
Proof.
  destruct (header_fixed_fields 1472 sample_codes mpls_world mpls_world_reachable)
    as (H1 & _ & H3).
  split; [exact H1|exact H3].
Defined.

Lemma small_two_open_flowset :
  forall start : Z,
    data_flowset (sender_data small_two) = Some start -> 30 < start + 2 \/ start + 4 <= 30.
Proof.
  intros start H. vm_compute in H. apply Some_eq_inv in H. subst start. left. reflexivity.
Qed.

Lemma small_two_cursor : sizeof_v9Header_t <= 30 < buff_ptr (peer small_two).
Proof. vm_compute. split; [discriminate|reflexivity]. Qed.

Lemma written_bytes_stay_witness :
  send_buffer (peer small_three) 30 = send_buffer (peer small_two) 30.
Proof.
  destruct (written_bytes_stay 1472 sample_codes small_two 30 small_two_reachable
              small_two_cursor small_two_open_flowset) as (H & _).
  exact (H tcp_record 100 1 small_three small_three_flush_required).
Defined.

Lemma mpls_world_open_flowset : data_flowset (sender_data mpls_world) = Some 120.
Proof. vm_compute. reflexivity. Qed.

Lemma open_flowset_follows_its_template_witness :
  exists (i : nat) (t : outTemplate_t),
    nth_error (outTemplates mpls_world) i = Some t
    /\ data_flowset_id (sender_data mpls_world) = template_id t
    /\ read_bytes (send_buffer (peer mpls_world)) 120 2 = be_bytes 2 (template_id t).
Proof.
  destruct (open_flowset_follows_its_template 1472 sample_codes mpls_world mpls_world_reachable
              120 mpls_world_open_flowset) as (i & t & H1 & H2 & _ & _ & H5).
  exists i, t. auto.
Defined.

Lemma edge_one_added :
  Add_v9_output_record 1472 sample_codes mpls_record 100 (Init_v9_output edge_peer)
  = Some (0, edge_one).
Proof. vm_compute. reflexivity. Qed.

Lemma edge_two_added :
  Add_v9_output_record 1472 sample_codes mpls_record 100 edge_one = Some (0, edge_two).
Proof. vm_compute. reflexivity. Qed.

Lemma edge_three_added :
  Add_v9_output_record 1472 sample_codes mpls_record 100 edge_two = Some (0, edge_three).
Proof. vm_compute. reflexivity. Qed.

Lemma edge_closed_session :
  Session 1472 sample_codes (fun r => r = mpls_record) edge_closed.
Proof.
  apply session_close; [|vm_compute; reflexivity].
  apply (session_add _ _ _ edge_two mpls_record 100 0 edge_three);
    [|reflexivity|vm_compute; reflexivity|exact edge_three_added].
  apply (session_add _ _ _ edge_one mpls_record 100 0 edge_two);
    [|reflexivity|vm_compute; reflexivity|exact edge_two_added].
  apply (session_add _ _ _ (Init_v9_output edge_peer) mpls_record 100 0 edge_one);
    [|reflexivity|vm_compute; reflexivity|exact edge_one_added].
  apply session_init.
Qed.

Lemma one_record_size_keyed : size_keyed (fun r => r = mpls_record).
Proof. intros r1 r2 -> ->. reflexivity. Qed.

Lemma edge_closed_endp : sizeof_v9Header_t <= endp (peer edge_closed).
Proof. vm_compute. discriminate. Qed.

Lemma cursor_stays_in_buffer_witness :
  buff_ptr (peer edge_closed) <= endp (peer edge_closed) + 2
  /\ buff_ptr (peer edge_closed) = 348
  /\ endp (peer edge_closed) = 346.
Proof.
  split.
  - exact (proj1 (cursor_stays_in_buffer 1472 sample_codes (fun r => r = mpls_record)
                    edge_closed one_record_size_keyed edge_closed_session edge_closed_endp)).
  - split; vm_compute; reflexivity.
Defined.

(** Without the size key the bound fails: [v6_record] is served the
    descriptor of [tcp_record], the capacity check counts the 52 bytes of
    that descriptor, and the 76 bytes of the record end 20 bytes behind
    [endp]. *)
Remark cursor_passes_endp_without_size_key :
  Reachable 1472 sample_codes mixed_world
  /\ endp (peer mixed_world) = 200
  /\ buff_ptr (peer mixed_world) = 220
  /\ data_flowset (sender_data mixed_world) = Some 88.
Proof.
  split.
  - apply (reach_add 1472 sample_codes small_one v6_record 100 0 mixed_world).
    + apply (reach_add 1472 sample_codes (Init_v9_output small_peer) tcp_record 100 0 small_one).
      * apply reach_init.
      * reflexivity.
      * vm_compute. reflexivity.
    + vm_compute. reflexivity.
    + vm_compute. reflexivity.
  - splits; vm_compute; reflexivity.
Qed.

Lemma Add_v9_output_record_return_witness :
  flush (peer small_three) = 1
  /\ hdr_sequence (sender_data small_three) = u32 (hdr_sequence (sender_data small_two) + 1)
  /\ data_flowset (sender_data small_three) = None.
Proof.
  destruct (Add_v9_output_record_return 1472 sample_codes tcp_record 100 small_two 1 small_three
              small_three_flush_required) as [(H & _)|(_ & _ & H3 & H4 & _ & _ & H7)].
  - discriminate H.
  - auto.
Defined.

Lemma tcp_record_has_extensions : numElements tcp_record <> 0.
Proof. vm_compute. discriminate. Qed.

Lemma tcp_record_fits :
  sizeof_v9Header_t + record_length tcp_template + sizeof_data_flowset_t
  + flowset_length tcp_template <= endp sample_peer.
Proof. vm_compute. discriminate. Qed.

Lemma first_packet_on_the_wire_witness :
  exists w1 w2 : world,
    Add_v9_output_record 1472 sample_codes tcp_record 100 (Init_v9_output sample_peer)
    = Some (0, w1)
    /\ Close_v9_output w1 = (1, w2)
    /\ buff_ptr (peer w2) = 144.
Proof.
  destruct (first_packet_on_the_wire 1472 sample_codes tcp_record tcp_template sample_peer 100
              tcp_template_built tcp_record_has_extensions tcp_record_fits)
    as (w1 & w2 & H1 & H2 & _ & H4 & _).
  exists w1, w2. split; [exact H1|]. split; [exact H2|].
  rewrite H4. vm_compute. reflexivity.
Defined.

Lemma sample_world_unix_secs :
  be_value (read_bytes (send_buffer (peer sample_world)) off_unix_secs 4) = 0.
Proof. vm_compute. reflexivity. Qed.

Lemma tcp_record_start : 86400 * 1000 <= msecFirst tcp_record < (2 ^ 32 + 86400) * 1000.
Proof. vm_compute. split; [discriminate|reflexivity]. Qed.

Lemma anchor_one_day_before_start_witness :
  be_value (read_bytes (send_buffer (first_time_setup tcp_record (peer sample_world)))
                       off_unix_secs 4)
  = 1000000000 - 86400.
Proof.
  rewrite (proj2 (anchor_one_day_before_start tcp_record (peer sample_world)
                    sample_world_unix_secs tcp_record_start)).
  vm_compute. reflexivity.
Defined.

Lemma aged_world_lookup :
  GetOutputTemplate 1472 tcp_record (outTemplates aged_world)
  = Some (0%nat, outTemplates aged_world).
Proof. vm_compute. reflexivity. Qed.

Lemma aged_world_flagged :
  nth_error (outTemplates aged_world) 0 = Some flagged_template
  /\ needs_refresh flagged_template <> 0.
Proof. split; [vm_compute; reflexivity|vm_compute; discriminate]. Qed.

Lemma resent_world_added :
  Add_v9_output_record 1472 sample_codes tcp_record 201 aged_world = Some (0, resent_world).
Proof. vm_compute. reflexivity. Qed.

Lemma flagged_template_is_resent_witness :
  hdr_template_count (sender_data resent_world)
  = u32 (hdr_template_count (sender_data aged_world) + 1)
  /\ hdr_template_count (sender_data resent_world) = 2.
Proof.
  split.
  - exact (proj1 (flagged_template_is_resent 1472 sample_codes tcp_record 201 aged_world 0
                    (outTemplates aged_world) flagged_template resent_world
                    tcp_record_has_extensions aged_world_lookup
                    (proj1 aged_world_flagged) (proj2 aged_world_flagged) resent_world_added)).
  - vm_compute. reflexivity.
Defined.

Lemma hash_string_in_bounds_witness :
  hash_string (fun _ => 170) [51; 43] = Some [48; 48; 51; 51; 44; 48; 48; 50; 98].
Proof.
  destruct (proj1 (hash_string_in_bounds (fun _ => 170)) [51; 43]) as (H & _).
  - simpl. lia.
  - rewrite H. vm_compute. reflexivity.
Defined.

Lemma sample_digest_hex :
  forall (hs : list Z) (i : nat),
    (i < 12)%nat -> isxdigit (char_at (sample_digest hs) i) = true.
Proof.
  intros hs i Hi. do 12 (destruct i as [|i]; [reflexivity|]). lia.
Qed.

Lemma sample_hello_processed :
  ja4sProcess 2 sample_digest (fun _ => 170) (Some sample_hello) IPPROTO_TCP
  = ja4_value (mkJa4 TYPE_JA4S
                 [116; 49; 51; 48; 50; 48; 48; 95; 49; 51; 48; 49; 95;
                  50; 51; 52; 101; 97; 54; 56; 57; 49; 53; 56; 49; 0]).
Proof. vm_compute. reflexivity. Qed.

Lemma ja4sCheck_accepts_ja4sProcess_witness :
  ja4sCheck 25 (Some [116; 49; 51; 48; 50; 48; 48; 95; 49; 51; 48; 49; 95;
                      50; 51; 52; 101; 97; 54; 56; 57; 49; 53; 56; 49; 0]) = 1.
Proof.
  refine (proj2 (ja4sCheck_accepts_ja4sProcess 2 sample_digest (fun _ => 170) sample_hello
                   IPPROTO_TCP _ sample_hello_processed _ _ _ sample_digest_hex)).
  - vm_compute. split; reflexivity.
  - vm_compute. split; reflexivity.
  - constructor.
Defined.

Lemma ja4s_ab_decodes_witness :
  hex_decode (firstn 4 (skipn 8 (ja4s_ab sample_hello IPPROTO_TCP))) = 4865
  /\ (char_at (ja4s_ab sample_hello IPPROTO_TCP) 3 - 48) * 10
     + (char_at (ja4s_ab sample_hello IPPROTO_TCP) 4 - 48) = 2.
Proof.
  destruct (ja4s_ab_decodes sample_hello IPPROTO_TCP) as (_ & _ & H3 & _ & _ & H6 & _).
  - simpl. lia.
  - split.
    + rewrite H6 by reflexivity. vm_compute. reflexivity.
    + rewrite H3. reflexivity.
Defined.

(** A NUL as version character ends the string behind its first character:
    [ja4sProcess] returns a fingerprint of type [TYPE_JA4S] all the same,
    and [ja4sCheck] refuses its string. *)
Remark ja4sCheck_refuses_nul_version :
  exists j : ja4_t,
    ja4sProcess 2 sample_digest (fun _ => 170) (Some nul_version_hello) IPPROTO_TCP = ja4_value j
    /\ ja4_kind j = TYPE_JA4S
    /\ strlen (ja4_string j) = 1%nat
    /\ ja4sCheck 25 (Some (ja4_string j)) = 0.
Proof.
  eexists. split; [vm_compute; reflexivity|]. splits; vm_compute; reflexivity.
Qed.

(** The template builder at the end of the block, for a packet size of 1472:
    53 fields and the padding entry fill the 54 entries; an extension behind
    the 53rd field meets the [exit] at the head of its iteration; a 54th
    field puts the padding entry behind the block, and the MPLS group behind
    46 fields stores its last two fields there. *)
Remark build_template_at_the_block_end :
  (exists t : outTemplate_t,
      build_template 1472 full_block_record 0 = returns t
      /\ tf_count (template_flowset t) = 53
      /\ length (tf_field (template_flowset t)) = 54%nat)
  /\ build_template 1472 late_exit_record 0 = exits
  /\ build_template 1472 padding_behind_record 0 = out_of_bounds
  /\ build_template 1472 fields_behind_record 0 = out_of_bounds.
Proof.
  split; [eexists; split; [vm_compute; reflexivity|split; reflexivity]|].
  splits; vm_compute; reflexivity.
Qed.
